(** * Solomon bot: conversation flows and the approval workflow

    A shallow embedding of the handlers of the bot ([handlers/registration.py],
    [handlers/admin.py], [handlers/super_admin.py], [handlers/user.py]), of
    the role decorator ([roles.py]) and of the SQL statements they issue
    ([db.py]), followed by the properties of the specification.

    Conventions of the embedding.
    - A table is the list of its rows in scan order.  A statement is a
      function on the database that either returns a value or raises; a
      statement that raises leaves the rows as they were (each call of
      [pool.fetchrow]/[pool.execute] is its own transaction), but a value
      drawn from a sequence stays drawn.
    - The constraints of [SCHEMA_SQL] that the modelled statements can
      violate are checked: primary keys, [UNIQUE] and [REFERENCES].  An
      [INTEGER] outside of 32 bits is refused as an argument for the seat
      limit of an event and in the [SET] list of an update; the ids that
      the sequences issue and the handlers hand back are not bounded.
    - A handler is a computation over a [World]: the database, the
      [context.user_data] dictionary, the messages handed to the chat
      transport, the log records, and an oracle that says which deliveries
      fail.  An exception keeps every effect performed before it.
    - Of the transport only [send_message] can fail; [query.answer()] leaves
      no trace, and [reply_text]/[edit_message_text] are recorded in order.
      Every update carries the user who sent it. *)

From Stdlib Require Import ZArith String Ascii DecimalString.
From stdpp Require Import base decidable option list gmap strings.

Local Open Scope string_scope.
Local Open Scope list_scope.
Local Open Scope Z_scope.

(** ** Exceptions, and computations with state and exceptions *)

Inductive Exn : Type :=
  | KeyError (key : string)
  | ValueError
  | TypeError
  | AttributeError
  | DataError
  | UniqueViolationError (constraint : string)
  | ForeignKeyViolationError (constraint : string)
  | PostgresSyntaxError
  | TelegramError.

Inductive Result (A : Type) : Type :=
  | Ok (a : A)
  | Raise (e : Exn).
Arguments Ok {A} a.
Arguments Raise {A} e.

Definition Eff (S A : Type) : Type := S -> Result A * S.

Definition ret {S A} (a : A) : Eff S A := fun s => (Ok a, s).
Definition raise {S A} (e : Exn) : Eff S A := fun s => (Raise e, s).
Definition bind {S A B} (m : Eff S A) (k : A -> Eff S B) : Eff S B :=
  fun s => match m s with
           | (Ok a, s') => k a s'
           | (Raise e, s') => (Raise e, s')
           end.
(** [try: m except Exception: h] *)
Definition try_except {S A} (m : Eff S A) (h : Exn -> Eff S A) : Eff S A :=
  fun s => match m s with
           | (Ok a, s') => (Ok a, s')
           | (Raise e, s') => h e s'
           end.
Definition gets {S A} (f : S -> A) : Eff S A := fun s => (Ok (f s), s).
Definition modify {S} (f : S -> S) : Eff S unit := fun s => (Ok tt, f s).

Notation "x <- m ;; k" := (bind m (fun x => k))
  (at level 100, m at next level, right associativity).
Notation "'run' m ;; k" := (bind m (fun _ => k))
  (at level 100, m at next level, right associativity).

(** ** Domain models ([models.py]) *)

Module UserRole.
Inductive t : Type := USER | ADMIN | SUPER_ADMIN.
#[global] Instance user_role_eq_dec : EqDecision t.
Proof. solve_decision. Defined.
End UserRole.

Module EventStatus.
Inductive t : Type := DRAFT | PENDING | ACTIVE | ARCHIVED.
#[global] Instance event_status_eq_dec : EqDecision t.
Proof. solve_decision. Defined.
End EventStatus.

Module RequestStatus.
Inductive t : Type := PENDING | APPROVED | REJECTED.
#[global] Instance request_status_eq_dec : EqDecision t.
Proof. solve_decision. Defined.
End RequestStatus.

(** [datetime.date] *)
Record date : Type := Date { year : Z; month : Z; day : Z }.
#[global] Instance date_eq_dec : EqDecision date.
Proof. solve_decision. Defined.

Module User.
Record t : Type := mk {
  telegram_id : Z;
  username : option string;
  full_name : string;
  phone : option string;
  role : UserRole.t;
  created_at : Z;
}.
#[global] Instance user_eq_dec : EqDecision t.
Proof. solve_decision. Defined.
End User.

(** A Python value as the dictionaries of the program hold it: the values
    of a JSON payload ([json.loads]; floats left out) and of
    [context.user_data], which also keeps dates and the cached [User]. *)
#[warnings="-register-all"]
Inductive PyVal : Type :=
  | PNone
  | PBool (b : bool)
  | PInt (z : Z)
  | PStr (s : string)
  | PList (l : list PyVal)
  | PDict (l : list (string * PyVal))
  | PDate (d : date)
  | PUser (u : User.t).

(** Truth value: [if v:] *)
Definition truthy (v : PyVal) : bool :=
  match v with
  | PNone => false
  | PBool b => b
  | PInt z => negb (Z.eqb z 0)
  | PStr s => negb (String.eqb s "")
  | PList l => match l with [] => false | _ => true end
  | PDict l => match l with [] => false | _ => true end
  | PDate _ => true
  | PUser _ => true
  end.

(** What [json.dumps] accepts. *)
Fixpoint json_serializable (v : PyVal) : bool :=
  match v with
  | PNone | PBool _ | PInt _ | PStr _ => true
  | PList l => forallb json_serializable l
  | PDict l => forallb (fun kv => match kv with (_, x) => json_serializable x end) l
  | PDate _ | PUser _ => false
  end.

Module Event.
Record t : Type := mk {
  id : Z;
  title : string;
  type : option string;
  date_start : date;
  date_end : option date;
  time : option string;
  place : option string;
  description : option string;
  max_participants : Z;
  status : EventStatus.t;
  created_by : option string;
  created_at : Z;
}.
#[global] Instance event_eq_dec : EqDecision t.
Proof. solve_decision. Defined.
End Event.

Module EventRegistration.
Record t : Type := mk {
  id : Z;
  event_id : Z;
  username : option string;
  telegram_id : option Z;
  full_name : string;
  phone : option string;
  level : option string;
  comment : option string;
  registered_at : Z;
}.
#[global] Instance event_registration_eq_dec : EqDecision t.
Proof. solve_decision. Defined.
End EventRegistration.

Module AdminRequest.
Record t : Type := mk {
  id : Z;
  username : string;
  telegram_id : option Z;
  full_name : option string;
  phone : option string;
  requested_table : option string;
  request_type : string;
  payload_json : option (gmap string PyVal);
  comment : option string;
  status : RequestStatus.t;
  reviewed_by : option string;
  created_at : Z;
  reviewed_at : option Z;
}.
End AdminRequest.

(** A row of [info]. *)
Module Info.
Record t : Type := mk {
  id : Z;
  category : string;
  title : string;
  content : string;
  updated_at : Z;
}.
End Info.

(** A row of [admin_table_access]. *)
Module TableAccess.
Record t : Type := mk {
  id : Z;
  username : string;
  table_name : string;
  granted_at : Z;
}.
End TableAccess.

(** ** The database ([db.py])

    The tables of [SCHEMA_SQL] that the modelled handlers touch, the
    sequences behind their [SERIAL] columns and the server clock read by
    [now()]. *)

Record DB : Type := mkDB {
  users : list User.t;
  events : list Event.t;
  event_registrations : list EventRegistration.t;
  info : list Info.t;
  admin_requests : list AdminRequest.t;
  admin_table_access : list TableAccess.t;
  events_id_seq : Z;
  event_registrations_id_seq : Z;
  info_id_seq : Z;
  admin_requests_id_seq : Z;
  admin_table_access_id_seq : Z;
  clock : Z;
}.

Definition set_users (f : list User.t -> list User.t) (d : DB) : DB :=
  mkDB (f (users d)) (events d) (event_registrations d) (info d) (admin_requests d)
       (admin_table_access d) (events_id_seq d) (event_registrations_id_seq d)
       (info_id_seq d) (admin_requests_id_seq d) (admin_table_access_id_seq d)
       (clock d).
Definition set_events (f : list Event.t -> list Event.t) (d : DB) : DB :=
  mkDB (users d) (f (events d)) (event_registrations d) (info d) (admin_requests d)
       (admin_table_access d) (events_id_seq d) (event_registrations_id_seq d)
       (info_id_seq d) (admin_requests_id_seq d) (admin_table_access_id_seq d)
       (clock d).
Definition set_event_registrations (f : list EventRegistration.t -> list EventRegistration.t) (d : DB) : DB :=
  mkDB (users d) (events d) (f (event_registrations d)) (info d) (admin_requests d)
       (admin_table_access d) (events_id_seq d) (event_registrations_id_seq d)
       (info_id_seq d) (admin_requests_id_seq d) (admin_table_access_id_seq d)
       (clock d).
Definition set_info (f : list Info.t -> list Info.t) (d : DB) : DB :=
  mkDB (users d) (events d) (event_registrations d) (f (info d)) (admin_requests d)
       (admin_table_access d) (events_id_seq d) (event_registrations_id_seq d)
       (info_id_seq d) (admin_requests_id_seq d) (admin_table_access_id_seq d)
       (clock d).
Definition set_admin_requests (f : list AdminRequest.t -> list AdminRequest.t) (d : DB) : DB :=
  mkDB (users d) (events d) (event_registrations d) (info d) (f (admin_requests d))
       (admin_table_access d) (events_id_seq d) (event_registrations_id_seq d)
       (info_id_seq d) (admin_requests_id_seq d) (admin_table_access_id_seq d)
       (clock d).
Definition set_admin_table_access (f : list TableAccess.t -> list TableAccess.t) (d : DB) : DB :=
  mkDB (users d) (events d) (event_registrations d) (info d) (admin_requests d)
       (f (admin_table_access d)) (events_id_seq d) (event_registrations_id_seq d)
       (info_id_seq d) (admin_requests_id_seq d) (admin_table_access_id_seq d)
       (clock d).
Definition set_events_id_seq (f : Z -> Z) (d : DB) : DB :=
  mkDB (users d) (events d) (event_registrations d) (info d) (admin_requests d)
       (admin_table_access d) (f (events_id_seq d)) (event_registrations_id_seq d)
       (info_id_seq d) (admin_requests_id_seq d) (admin_table_access_id_seq d)
       (clock d).
Definition set_event_registrations_id_seq (f : Z -> Z) (d : DB) : DB :=
  mkDB (users d) (events d) (event_registrations d) (info d) (admin_requests d)
       (admin_table_access d) (events_id_seq d) (f (event_registrations_id_seq d))
       (info_id_seq d) (admin_requests_id_seq d) (admin_table_access_id_seq d)
       (clock d).
Definition set_info_id_seq (f : Z -> Z) (d : DB) : DB :=
  mkDB (users d) (events d) (event_registrations d) (info d) (admin_requests d)
       (admin_table_access d) (events_id_seq d) (event_registrations_id_seq d)
       (f (info_id_seq d)) (admin_requests_id_seq d) (admin_table_access_id_seq d)
       (clock d).
Definition set_admin_requests_id_seq (f : Z -> Z) (d : DB) : DB :=
  mkDB (users d) (events d) (event_registrations d) (info d) (admin_requests d)
       (admin_table_access d) (events_id_seq d) (event_registrations_id_seq d)
       (info_id_seq d) (f (admin_requests_id_seq d)) (admin_table_access_id_seq d)
       (clock d).
Definition set_admin_table_access_id_seq (f : Z -> Z) (d : DB) : DB :=
  mkDB (users d) (events d) (event_registrations d) (info d) (admin_requests d)
       (admin_table_access d) (events_id_seq d) (event_registrations_id_seq d)
       (info_id_seq d) (admin_requests_id_seq d) (f (admin_table_access_id_seq d))
       (clock d).

(** The values of an [INTEGER] column: asyncpg refuses an argument
    outside of them before the statement is sent. *)
Definition int32 (z : Z) : bool := (-2147483648 <=? z) && (z <=? 2147483647).

(** [ORDER BY]: the rows sorted by [le]; rows that [le] does not tell apart
    stay in scan order (the server promises no order among them). *)
Fixpoint insert_by {A} (le : A -> A -> bool) (x : A) (l : list A) : list A :=
  match l with
  | [] => [x]
  | y :: rest => if le x y then x :: l else y :: insert_by le x rest
  end.

Definition order_by {A} (le : A -> A -> bool) (l : list A) : list A :=
  foldr (insert_by le) [] l.

(** The order of [DATE] values. *)
Definition date_le (a b : date) : bool :=
  (year a <? year b)
  || ((year a =? year b)
      && ((month a <? month b) || ((month a =? month b) && (day a <=? day b)))).

Module db.

(** *** Sequences: [nextval] is never undone *)

Definition nextval_events : Eff DB Z := fun d =>
  (Ok (events_id_seq d), set_events_id_seq (fun n => n + 1) d).
Definition nextval_event_registrations : Eff DB Z := fun d =>
  (Ok (event_registrations_id_seq d), set_event_registrations_id_seq (fun n => n + 1) d).
Definition nextval_info : Eff DB Z := fun d =>
  (Ok (info_id_seq d), set_info_id_seq (fun n => n + 1) d).
Definition nextval_admin_requests : Eff DB Z := fun d =>
  (Ok (admin_requests_id_seq d), set_admin_requests_id_seq (fun n => n + 1) d).
Definition nextval_admin_table_access : Eff DB Z := fun d =>
  (Ok (admin_table_access_id_seq d), set_admin_table_access_id_seq (fun n => n + 1) d).

(** *** Constraint checks *)

(** [users.username UNIQUE]: some row other than [tid]'s holds [name]
    (NULLs never collide). *)
Definition username_taken (us : list User.t) (tid : Z) (name : option string) : bool :=
  match name with
  | None => false
  | Some n =>
      existsb (fun v => bool_decide (User.telegram_id v <> tid)
                        && bool_decide (User.username v = Some n)) us
  end.

(** [REFERENCES users(username)]: NULL, or the handle of some user. *)
Definition fk_username (us : list User.t) (name : option string) : bool :=
  match name with
  | None => true
  | Some n => existsb (fun v => bool_decide (User.username v = Some n)) us
  end.

(** [REFERENCES users(telegram_id)]: NULL, or the key of some user. *)
Definition fk_telegram_id (us : list User.t) (tid : option Z) : bool :=
  match tid with
  | None => true
  | Some t => existsb (fun v => bool_decide (User.telegram_id v = t)) us
  end.

(** [REFERENCES events(id)] *)
Definition fk_event_id (es : list Event.t) (eid : Z) : bool :=
  existsb (fun e => bool_decide (Event.id e = eid)) es.

(** *** Users *)

(** [COALESCE(EXCLUDED.username, users.username)] *)
Definition coalesce (new old : option string) : option string :=
  match new with Some n => Some n | None => old end.

(** The [DO UPDATE SET] of [upsert_user] on one row. *)
Definition upsert_user_set (username : option string) (full_name : string)
    (u : User.t) : User.t :=
  User.mk (User.telegram_id u) (coalesce username (User.username u)) full_name
          (User.phone u) (User.role u) (User.created_at u).

(** [ON UPDATE CASCADE] of [events.created_by] and
    [admin_table_access.username] when a handle changes. *)
Definition cascade_username (old new : option string) (d : DB) : DB :=
  match old, new with
  | Some o, Some n =>
      if bool_decide (o = n) then d else
      set_admin_table_access
        (map (fun a => if bool_decide (TableAccess.username a = o)
                       then TableAccess.mk (TableAccess.id a) n
                              (TableAccess.table_name a) (TableAccess.granted_at a)
                       else a))
        (set_events
           (map (fun e => if bool_decide (Event.created_by e = Some o)
                          then Event.mk (Event.id e) (Event.title e) (Event.type e)
                                 (Event.date_start e) (Event.date_end e) (Event.time e)
                                 (Event.place e) (Event.description e)
                                 (Event.max_participants e) (Event.status e)
                                 (Some n) (Event.created_at e)
                          else e)) d)
  | _, _ => d
  end.

Definition upsert_user (telegram_id : Z) (username : option string)
    (full_name : string) (phone : option string) : Eff DB User.t := fun d =>
  let same u := bool_decide (User.telegram_id u = telegram_id) in
  match find same (users d) with
  | None =>
      (* no conflict on telegram_id: plain INSERT *)
      if username_taken (users d) telegram_id username
      then (Raise (UniqueViolationError "users_username_key"), d)
      else
        let row := User.mk telegram_id username full_name phone
                           UserRole.USER (clock d) in
        (Ok row, set_users (fun us => us ++ [row]) d)
  | Some old =>
      (* ON CONFLICT (telegram_id) DO UPDATE *)
      let row := upsert_user_set username full_name old in
      if username_taken (users d) telegram_id (User.username row)
      then (Raise (UniqueViolationError "users_username_key"), d)
      else
        let upd u := if same u then upsert_user_set username full_name u else u in
        (Ok row,
         cascade_username (User.username old) (User.username row)
           (set_users (map upd) d))
  end.

Definition get_user (telegram_id : Z) : Eff DB (option User.t) :=
  gets (fun d => find (fun u => bool_decide (User.telegram_id u = telegram_id)) (users d)).

Definition get_user_by_username (username : string) : Eff DB (option User.t) :=
  gets (fun d => find (fun u => bool_decide (User.username u = Some username)) (users d)).

Definition set_user_role (username : string) (role : UserRole.t) : Eff DB bool := fun d =>
  let hit u := bool_decide (User.username u = Some username) in
  let upd u := if hit u
               then User.mk (User.telegram_id u) (User.username u) (User.full_name u)
                            (User.phone u) role (User.created_at u)
               else u in
  (* tag == "UPDATE 1" *)
  (Ok (bool_decide (length (filter (fun u => hit u = true) (users d)) = 1%nat)),
   set_users (map upd) d).

Definition get_super_admin_ids : Eff DB (list Z) :=
  gets (fun d => map User.telegram_id
                   (filter (fun u => User.role u = UserRole.SUPER_ADMIN) (users d))).

Definition get_all_telegram_ids : Eff DB (list Z) :=
  gets (fun d => map User.telegram_id (users d)).

(** *** Events *)

Definition create_event (title : string) (date_start : date)
    (type : option string) (date_end : option date) (time place description : option string)
    (max_participants : Z) (status : EventStatus.t) (created_by : option string)
    : Eff DB Event.t :=
  id <- nextval_events ;;
  fun d =>
    let row := Event.mk id title type date_start date_end time place description
                        max_participants status created_by (clock d) in
    if existsb (fun e => bool_decide (Event.id e = id)) (events d)
    then (Raise (UniqueViolationError "events_pkey"), d)
    else if negb (fk_username (users d) created_by)
    then (Raise (ForeignKeyViolationError "events_created_by_fkey"), d)
    else (Ok row, set_events (fun es => es ++ [row]) d).

Definition get_active_events : Eff DB (list Event.t) :=
  gets (fun d => order_by (fun a b => date_le (Event.date_start a) (Event.date_start b))
                   (filter (fun e => Event.status e = EventStatus.ACTIVE) (events d))).

Definition get_events_by_status (status : EventStatus.t) : Eff DB (list Event.t) :=
  gets (fun d => order_by (fun a b => date_le (Event.date_start a) (Event.date_start b))
                   (filter (fun e => Event.status e = status) (events d))).

Definition get_event (event_id : Z) : Eff DB (option Event.t) :=
  gets (fun d => find (fun e => bool_decide (Event.id e = event_id)) (events d)).

(** The value of an [event_status] literal. *)
Definition event_status_of_value (s : string) : option EventStatus.t :=
  if String.eqb s "draft" then Some EventStatus.DRAFT
  else if String.eqb s "pending" then Some EventStatus.PENDING
  else if String.eqb s "active" then Some EventStatus.ACTIVE
  else if String.eqb s "archived" then Some EventStatus.ARCHIVED
  else None.

Definition with_status (st : EventStatus.t) (e : Event.t) : Event.t :=
  Event.mk (Event.id e) (Event.title e) (Event.type e) (Event.date_start e)
           (Event.date_end e) (Event.time e) (Event.place e) (Event.description e)
           (Event.max_participants e) st (Event.created_by e) (Event.created_at e).

(** A keyword argument of [update_event]: a column of [events], with a
    value of the type the column holds (for [status], the literal).  A
    keyword that names no column, and a value the column cannot hold,
    are left out. *)
Inductive EventField : Type :=
  | set_id (n : Z)
  | set_title (s : string)
  | set_type (s : option string)
  | set_date_start (d : date)
  | set_date_end (d : option date)
  | set_time (s : option string)
  | set_place (s : option string)
  | set_description (s : option string)
  | set_max_participants (n : Z)
  | set_status (s : string)
  | set_created_by (u : option string)
  | set_created_at (t : Z).

(** One [k = $i] of the [SET] list that [update_event] builds. *)
Definition assign (f : EventField) (e : Event.t) : Event.t :=
  match f with
  | set_id n =>
      Event.mk n (Event.title e) (Event.type e) (Event.date_start e)
        (Event.date_end e) (Event.time e) (Event.place e) (Event.description e)
        (Event.max_participants e) (Event.status e) (Event.created_by e)
        (Event.created_at e)
  | set_title s =>
      Event.mk (Event.id e) s (Event.type e) (Event.date_start e)
        (Event.date_end e) (Event.time e) (Event.place e) (Event.description e)
        (Event.max_participants e) (Event.status e) (Event.created_by e)
        (Event.created_at e)
  | set_type s =>
      Event.mk (Event.id e) (Event.title e) s (Event.date_start e)
        (Event.date_end e) (Event.time e) (Event.place e) (Event.description e)
        (Event.max_participants e) (Event.status e) (Event.created_by e)
        (Event.created_at e)
  | set_date_start d =>
      Event.mk (Event.id e) (Event.title e) (Event.type e) d
        (Event.date_end e) (Event.time e) (Event.place e) (Event.description e)
        (Event.max_participants e) (Event.status e) (Event.created_by e)
        (Event.created_at e)
  | set_date_end d =>
      Event.mk (Event.id e) (Event.title e) (Event.type e) (Event.date_start e)
        d (Event.time e) (Event.place e) (Event.description e)
        (Event.max_participants e) (Event.status e) (Event.created_by e)
        (Event.created_at e)
  | set_time s =>
      Event.mk (Event.id e) (Event.title e) (Event.type e) (Event.date_start e)
        (Event.date_end e) s (Event.place e) (Event.description e)
        (Event.max_participants e) (Event.status e) (Event.created_by e)
        (Event.created_at e)
  | set_place s =>
      Event.mk (Event.id e) (Event.title e) (Event.type e) (Event.date_start e)
        (Event.date_end e) (Event.time e) s (Event.description e)
        (Event.max_participants e) (Event.status e) (Event.created_by e)
        (Event.created_at e)
  | set_description s =>
      Event.mk (Event.id e) (Event.title e) (Event.type e) (Event.date_start e)
        (Event.date_end e) (Event.time e) (Event.place e) s
        (Event.max_participants e) (Event.status e) (Event.created_by e)
        (Event.created_at e)
  | set_max_participants n =>
      Event.mk (Event.id e) (Event.title e) (Event.type e) (Event.date_start e)
        (Event.date_end e) (Event.time e) (Event.place e) (Event.description e)
        n (Event.status e) (Event.created_by e) (Event.created_at e)
  | set_status s =>
      match event_status_of_value s with
      | Some st => with_status st e
      | None => e
      end
  | set_created_by u =>
      Event.mk (Event.id e) (Event.title e) (Event.type e) (Event.date_start e)
        (Event.date_end e) (Event.time e) (Event.place e) (Event.description e)
        (Event.max_participants e) (Event.status e) u (Event.created_at e)
  | set_created_at t =>
      Event.mk (Event.id e) (Event.title e) (Event.type e) (Event.date_start e)
        (Event.date_end e) (Event.time e) (Event.place e) (Event.description e)
        (Event.max_participants e) (Event.status e) (Event.created_by e) t
  end.

(** The argument fits its parameter: an [INTEGER] within 32 bits, a
    literal of [event_status]. *)
Definition encodes (f : EventField) : bool :=
  match f with
  | set_id n | set_max_participants n => int32 n
  | set_status s => match event_status_of_value s with Some _ => true | None => false end
  | _ => true
  end.

(** The id and the creator that the [SET] list assigns, if it does. *)
Definition new_id (fields : list EventField) : option Z :=
  foldl (fun acc f => match f with set_id n => Some n | _ => acc end) None fields.
Definition new_created_by (fields : list EventField) : option (option string) :=
  foldl (fun acc f => match f with set_created_by u => Some u | _ => acc end) None fields.

(** [UPDATE events SET ... WHERE id = $n RETURNING *].  A row whose key
    changes is checked against [events_pkey] and against the registrations
    that refer to it (no [ON UPDATE] action); a row whose creator changes,
    against [users(username)]. *)
Definition update_event (event_id : Z) (fields : list EventField)
    : Eff DB (option Event.t) :=
  match fields with
  | [] => get_event event_id
  | _ :: _ =>
      if negb (forallb encodes fields) then raise DataError else
      fun d =>
        let hit e := bool_decide (Event.id e = event_id) in
        let upd e := foldl (fun e f => assign f e) e fields in
        let moved :=
          match new_id fields with
          | Some n => if existsb hit (events d) && negb (n =? event_id)
                      then Some n else None
          | None => None
          end in
        if match moved with
           | Some n => fk_event_id (events d) n
           | None => false
           end
        then (Raise (UniqueViolationError "events_pkey"), d)
        else if match moved with
                | Some _ =>
                    existsb (fun r => bool_decide (EventRegistration.event_id r = event_id))
                            (event_registrations d)
                | None => false
                end
        then (Raise (ForeignKeyViolationError "event_registrations_event_id_fkey"), d)
        else if match new_created_by fields with
                | Some (Some u) =>
                    existsb (fun e => hit e && negb (bool_decide (Event.created_by e = Some u)))
                            (events d)
                    && negb (fk_username (users d) (Some u))
                | _ => false
                end
        then (Raise (ForeignKeyViolationError "events_created_by_fkey"), d)
        else (Ok (upd <$> find hit (events d)),
              set_events (map (fun e => if hit e then upd e else e)) d)
  end.

Definition activate_event (event_id : Z) : Eff DB (option Event.t) :=
  update_event event_id [set_status "active"].

Definition archive_event (event_id : Z) : Eff DB (option Event.t) :=
  update_event event_id [set_status "archived"].

(** [DELETE FROM events]; the registrations of the event go with it
    ([ON DELETE CASCADE]). *)
Definition delete_event (event_id : Z) : Eff DB bool := fun d =>
  (Ok (bool_decide (length (filter (fun e => Event.id e = event_id) (events d)) = 1%nat)),
   set_event_registrations
     (filter (fun r => EventRegistration.event_id r <> event_id))
     (set_events (filter (fun e => Event.id e <> event_id)) d)).

(** *** Event registrations *)

(** The [DO UPDATE SET] of [register_for_event] on one row. *)
Definition register_set (full_name : string) (phone level comment : option string)
    (r : EventRegistration.t) : EventRegistration.t :=
  EventRegistration.mk (EventRegistration.id r) (EventRegistration.event_id r)
    (EventRegistration.username r) (EventRegistration.telegram_id r)
    full_name phone level comment (EventRegistration.registered_at r).

(** The arbiter of [ON CONFLICT (event_id, telegram_id)]: a NULL
    [telegram_id] conflicts with nothing. *)
Definition reg_conflict (event_id : Z) (telegram_id : option Z)
    (r : EventRegistration.t) : bool :=
  match telegram_id with
  | None => false
  | Some t => bool_decide (EventRegistration.event_id r = event_id)
              && bool_decide (EventRegistration.telegram_id r = Some t)
  end.

Definition register_for_event (event_id : Z) (full_name : string)
    (username : option string) (telegram_id : option Z)
    (phone level comment : option string) : Eff DB EventRegistration.t :=
  (* the DEFAULT of the id column is evaluated for the proposed row *)
  id <- nextval_event_registrations ;;
  fun d =>
    let hit := reg_conflict event_id telegram_id in
    match find hit (event_registrations d) with
    | Some old =>
        let upd r := if hit r then register_set full_name phone level comment r else r in
        (Ok (upd old), set_event_registrations (map upd) d)
    | None =>
        let row := EventRegistration.mk id event_id username telegram_id
                     full_name phone level comment (clock d) in
        if existsb (fun r => bool_decide (EventRegistration.id r = id))
                   (event_registrations d)
        then (Raise (UniqueViolationError "event_registrations_pkey"), d)
        else if negb (fk_event_id (events d) event_id)
        then (Raise (ForeignKeyViolationError "event_registrations_event_id_fkey"), d)
        else if negb (fk_telegram_id (users d) telegram_id)
        then (Raise (ForeignKeyViolationError "event_registrations_telegram_id_fkey"), d)
        else (Ok row, set_event_registrations (fun rs => rs ++ [row]) d)
    end.

Definition get_event_registrations (event_id : Z) : Eff DB (list EventRegistration.t) :=
  gets (fun d => order_by (fun a b => EventRegistration.registered_at a
                                      <=? EventRegistration.registered_at b)
                   (filter (fun r => EventRegistration.event_id r = event_id)
                           (event_registrations d))).

Definition count_event_registrations (event_id : Z) : Eff DB Z :=
  gets (fun d => Z.of_nat (length (filter (fun r => EventRegistration.event_id r = event_id)
                                          (event_registrations d)))).

(** *** Info / knowledge base *)

Definition create_info (category title content : string) : Eff DB Z :=
  id <- nextval_info ;;
  fun d =>
    if existsb (fun i => bool_decide (Info.id i = id)) (info d)
    then (Raise (UniqueViolationError "info_pkey"), d)
    else (Ok id, set_info (fun l => l ++ [Info.mk id category title content (clock d)]) d).

(** A keyword argument of [update_info]: a column of [info], with a
    value of the type the column holds. *)
Inductive InfoField : Type :=
  | info_set_id (n : Z)
  | info_set_category (s : string)
  | info_set_title (s : string)
  | info_set_content (s : string)
  | info_set_updated_at (t : Z).

(** One [k = $i] of the [SET] list of [update_info]. *)
Definition info_assign (f : InfoField) (i : Info.t) : Info.t :=
  match f with
  | info_set_id n =>
      Info.mk n (Info.category i) (Info.title i) (Info.content i) (Info.updated_at i)
  | info_set_category s =>
      Info.mk (Info.id i) s (Info.title i) (Info.content i) (Info.updated_at i)
  | info_set_title s =>
      Info.mk (Info.id i) (Info.category i) s (Info.content i) (Info.updated_at i)
  | info_set_content s =>
      Info.mk (Info.id i) (Info.category i) (Info.title i) s (Info.updated_at i)
  | info_set_updated_at t =>
      Info.mk (Info.id i) (Info.category i) (Info.title i) (Info.content i) t
  end.

Definition info_new_id (fields : list InfoField) : option Z :=
  foldl (fun acc f => match f with info_set_id n => Some n | _ => acc end) None fields.

(** [UPDATE info SET ..., updated_at = now() WHERE id = $n]: a keyword
    [updated_at] makes two assignments to one column, which is no
    statement. *)
Definition update_info (info_id : Z) (fields : list InfoField) : Eff DB bool :=
  match fields with
  | [] => ret false
  | _ :: _ =>
      if existsb (fun f => match f with info_set_updated_at _ => true | _ => false end) fields
      then raise PostgresSyntaxError
      else if negb (forallb (fun f => match f with info_set_id n => int32 n | _ => true end)
                            fields)
      then raise DataError
      else fun d =>
        let hit i := bool_decide (Info.id i = info_id) in
        let upd i := if hit i
                     then let j := foldl (fun i f => info_assign f i) i fields in
                          Info.mk (Info.id j) (Info.category j) (Info.title j)
                                  (Info.content j) (clock d)
                     else i in
        if match info_new_id fields with
           | Some n => existsb hit (info d) && negb (n =? info_id)
                       && existsb (fun i => bool_decide (Info.id i = n)) (info d)
           | None => false
           end
        then (Raise (UniqueViolationError "info_pkey"), d)
        else (Ok (bool_decide (length (filter (fun i => hit i = true) (info d)) = 1%nat)),
              set_info (map upd) d)
  end.

Definition delete_info (info_id : Z) : Eff DB bool := fun d =>
  (Ok (bool_decide (length (filter (fun i => Info.id i = info_id) (info d)) = 1%nat)),
   set_info (filter (fun i => Info.id i <> info_id)) d).

(** *** Admin requests *)

Definition create_admin_request (username request_type : string)
    (telegram_id : option Z) (full_name phone requested_table : option string)
    (payload_json : option (gmap string PyVal)) (comment : option string)
    : Eff DB AdminRequest.t :=
  (* json.dumps(payload_json) if payload_json else None *)
  payload <- match payload_json with
             | Some p =>
                 if bool_decide (p = ∅) then ret None
                 else if bool_decide (map_Forall (fun _ v => json_serializable v = true) p)
                 then ret (Some p)
                 else raise TypeError
             | None => ret None
             end ;;
  id <- nextval_admin_requests ;;
  fun d =>
    let row := AdminRequest.mk id username telegram_id full_name phone
                 requested_table request_type payload comment
                 RequestStatus.PENDING None (clock d) None in
    if existsb (fun r => bool_decide (AdminRequest.id r = id)) (admin_requests d)
    then (Raise (UniqueViolationError "admin_requests_pkey"), d)
    else if negb (fk_telegram_id (users d) telegram_id)
    then (Raise (ForeignKeyViolationError "admin_requests_telegram_id_fkey"), d)
    else (Ok row, set_admin_requests (fun rs => rs ++ [row]) d).

Definition get_pending_requests : Eff DB (list AdminRequest.t) :=
  gets (fun d => order_by (fun a b => AdminRequest.created_at a <=? AdminRequest.created_at b)
                   (filter (fun r => AdminRequest.status r = RequestStatus.PENDING)
                           (admin_requests d))).

Definition get_request (request_id : Z) : Eff DB (option AdminRequest.t) :=
  gets (fun d => find (fun r => bool_decide (AdminRequest.id r = request_id))
                      (admin_requests d)).

(** [WHERE id = $2 AND status = 'pending'] *)
Definition pending_with_id (request_id : Z) (r : AdminRequest.t) : bool :=
  bool_decide (AdminRequest.id r = request_id)
  && bool_decide (AdminRequest.status r = RequestStatus.PENDING).

(** [SET status = st, reviewed_by = $1, reviewed_at = now()] *)
Definition reviewed (st : RequestStatus.t) (reviewed_by : option string) (now : Z)
    (r : AdminRequest.t) : AdminRequest.t :=
  AdminRequest.mk (AdminRequest.id r) (AdminRequest.username r)
    (AdminRequest.telegram_id r) (AdminRequest.full_name r) (AdminRequest.phone r)
    (AdminRequest.requested_table r) (AdminRequest.request_type r)
    (AdminRequest.payload_json r) (AdminRequest.comment r)
    st reviewed_by (AdminRequest.created_at r) (Some now).

Definition approve_request (request_id : Z) (reviewed_by : option string)
    : Eff DB (option AdminRequest.t) := fun d =>
  let upd r := if pending_with_id request_id r
               then reviewed RequestStatus.APPROVED reviewed_by (clock d) r else r in
  (Ok (reviewed RequestStatus.APPROVED reviewed_by (clock d)
         <$> find (pending_with_id request_id) (admin_requests d)),
   set_admin_requests (map upd) d).

Definition reject_request (request_id : Z) (reviewed_by : option string)
    : Eff DB (option AdminRequest.t) := fun d =>
  let upd r := if pending_with_id request_id r
               then reviewed RequestStatus.REJECTED reviewed_by (clock d) r else r in
  (Ok (reviewed RequestStatus.REJECTED reviewed_by (clock d)
         <$> find (pending_with_id request_id) (admin_requests d)),
   set_admin_requests (map upd) d).

(** *** Admin table access *)

Definition grant_table_access (username table_name : string) : Eff DB unit :=
  id <- nextval_admin_table_access ;;
  fun d =>
    if existsb (fun a => bool_decide (TableAccess.username a = username)
                         && bool_decide (TableAccess.table_name a = table_name))
               (admin_table_access d)
    then (* ON CONFLICT DO NOTHING *) (Ok tt, d)
    else if existsb (fun a => bool_decide (TableAccess.id a = id)) (admin_table_access d)
    then (Ok tt, d)
    else if negb (fk_username (users d) (Some username))
    then (Raise (ForeignKeyViolationError "admin_table_access_username_fkey"), d)
    else (Ok tt, set_admin_table_access
                   (fun l => l ++ [TableAccess.mk id username table_name (clock d)]) d).

Definition get_admin_tables (username : string) : Eff DB (list string) :=
  gets (fun d => map TableAccess.table_name
                   (filter (fun a => TableAccess.username a = username)
                           (admin_table_access d))).

End db.

(** ** The chat transport and the handler context *)

(** [telegram.User]: who sent the update. *)
Record TgUser : Type := mkTgUser {
  tg_id : Z;
  tg_username : option string;
  tg_first_name : string;
  tg_full_name : string;
}.

(** [query.data] of a button press.  A handler only sees the data its
    registered pattern lets through, so the data is kept parsed:
    [reg_start:<digits>], [reg_confirm:(yes|no)], [adm:create_event],
    [adm:create_info], [adm:text_cmd], [info_confirm:(yes|no)],
    [ai_confirm:(yes|no)], [evt_confirm:(yes|no)], [bc_confirm:(yes|no)],
    [sa:(approve|reject):<digits>]. *)
Inductive CallbackData : Type :=
  | cb_reg_start (event_id : Z)
  | cb_reg_confirm (yes : bool)
  | cb_adm_create_event
  | cb_adm_create_info
  | cb_adm_text_cmd
  | cb_info_confirm (yes : bool)
  | cb_ai_confirm (yes : bool)
  | cb_evt_confirm (yes : bool)
  | cb_bc_confirm (yes : bool)
  | cb_sa (approve : bool) (request_id : Z).

(** The part of [telegram.Update] the handlers read. *)
Inductive Content : Type :=
  | TextMessage (text : string)              (* filters.TEXT & ~filters.COMMAND *)
  | Command (name : string) (text : string)  (* a message that starts with /name *)
  | CallbackQuery (data : CallbackData).

Record Update : Type := mkUpdate {
  effective_user : TgUser;
  content : Content;
}.

(** The texts handed to the transport: one constructor per message of the
    source, carrying the values interpolated into it. *)
Inductive Text : Type :=
  | Body (v : PyVal)                            (* a text sent as it is *)
  (* roles.py *)
  | PleaseStartFirst                            (* "Пожалуйста, сначала отправьте /start ..." *)
  | NoAccess                                    (* "У вас нет доступа к этой функции." *)
  (* handlers/user.py *)
  | Welcome (full_name : string)                (* "Добро пожаловать, {user.full_name}! ..." *)
  (* handlers/registration.py *)
  | EventNotFound                               (* "Мероприятие не найдено." *)
  | NoSeatsLeft (title : string)                (* "К сожалению, мест на «{title}» больше нет." *)
  | RegKnownName (title full_name : string)     (* "Запись на «{title}» ... Ваше имя: {full_name} ..." *)
  | RegAskName (title : string)                 (* "Запись на «{title}» ... Введите ваше полное имя:" *)
  | RegAskPhone                                 (* "Введите номер телефона (или /skip ...):" *)
  | RegAskLevel                                 (* "Укажите ваш уровень/опыт (или /skip ...):" *)
  | RegConfirmPrompt (event_title name phone level : option PyVal)
                                                (* "Подтвердите запись на «{event_title}»: ..." *)
  | RegCancelled                                (* "Запись отменена." *)
  | Registered (title : PyVal)                  (* "Вы записаны на «{title}»!" *)
  | RegFailed                                   (* "Произошла ошибка при записи. Попробуйте позже." *)
  (* handlers/admin.py *)
  | EvtAskTitle                                 (* "Введите название мероприятия:" *)
  | EvtAskDate                                  (* "Введите дату начала (ГГГГ-ММ-ДД):" *)
  | EvtBadDate                                  (* "Неверный формат даты. Используйте ГГГГ-ММ-ДД:" *)
  | EvtAskTime                                  (* "Введите время (или /skip):" *)
  | EvtAskPlace                                 (* "Введите место (или /skip):" *)
  | EvtAskDesc                                  (* "Введите описание (или /skip):" *)
  | EvtAskMax                                   (* "Введите макс. количество участников ..." *)
  | EvtConfirmPrompt (title d : PyVal) (t p : option PyVal)
                                                (* "Подтвердите создание: ..." *)
  | EvtDeclined                                 (* "Создание отменено." *)
  | EvtCreatedActive (title : string) (id : Z)  (* "Мероприятие «{title}» создано и активировано (#{id})." *)
  | EvtReviewRequest (request_id : Z) (title : string) (date_start : date)
                     (username : option string) (* "Заявка #{req.id}: новое мероприятие «{title}» ..." + buttons sa:approve/sa:reject *)
  | EvtCreatedPending (title : string) (id : Z) (* "Мероприятие «{title}» создано (#{id}). Ожидает одобрения ..." *)
  | EvtCancelled                                (* "Создание мероприятия отменено." *)
  | InfoAskCategory                             (* "Введите категорию (например: contact, schedule, about):" *)
  | InfoAskTitle                                (* "Введите заголовок:" *)
  | InfoAskContent                              (* "Введите содержание:" *)
  | InfoConfirmPrompt (cat title content : PyVal)
                                                (* "Категория: {cat} ... Сохранить?" *)
  | Declined                                    (* "Отменено." *)
  | InfoSaved (info_id : Z)                     (* "Информация #{info_id} сохранена." *)
  | InfoCancelled                               (* "Добавление информации отменено." *)
  | AiAskCommand                                (* "Введите текстовую команду на естественном языке. ..." *)
  | AiConfirmPrompt (confirmation : option PyVal)
                                                (* "Распознано: {confirmation} ... Выполнить?" *)
  | AiEventCreated (title : string) (id : Z)    (* "Мероприятие «{title}» создано (#{id}), ожидает одобрения." *)
  | AiInfoCreated (info_id : Z)                 (* "Информация #{info_id} создана." *)
  | AiEventArchived (eid : PyVal)               (* "Мероприятие #{eid} архивировано." *)
  | AiNoEvent                                   (* "Не удалось определить мероприятие." *)
  | AiUnknownAction (action : PyVal)            (* "Действие «{action}» не реализовано или не распознано." *)
  | AiFailed                                    (* "Ошибка при выполнении команды." *)
  | AiCancelled                                 (* "Текстовая команда отменена." *)
  (* handlers/super_admin.py *)
  | AlreadyHandled (request_id : Z)             (* "Заявка #{request_id} уже обработана или не найдена." *)
  | Decided (request_id : Z) (request_type : string) (approved : bool) (username : string)
                                                (* "Заявка #{id} ({type}) одобрена|отклонена. Заявитель: @{username}" *)
  | DecisionNotice (request_id : Z) (request_type : string) (approved : bool)
                                                (* "Ваша заявка #{id} ({type}) была одобрена|отклонена." *)
  | BcAskText                                   (* "Введите текст рассылки (будет отправлен всем пользователям):" *)
  | BcConfirmPrompt (text : PyVal)              (* "Текст рассылки: {bc_text} ... Отправить?" *)
  | BroadcastCancelled                          (* "Рассылка отменена." *)
  | BroadcastReport (sent total : Z).           (* "Рассылка отправлена {sent}/{total} пользователям." *)

(** A record written through [logger]. *)
Inductive LogRecord : Type :=
  | LogInfo (format : string) (args : list PyVal)
  | LogException (format : string) (args : list PyVal).

Record World : Type := mkWorld {
  database : DB;
  user_data : gmap string PyVal;      (* context.user_data of the actor *)
  sent : list (Z * Text);             (* every context.bot.send_message(chat_id, text), oldest first *)
  replies : list Text;                (* reply_text / edit_message_text in the chat of the update *)
  log : list LogRecord;
  delivery : nat -> Z -> bool;        (* does the n-th send_message, to that chat, get through *)
  today : date;                       (* date.today() *)
}.

Definition set_database (f : DB -> DB) (w : World) : World :=
  mkWorld (f (database w)) (user_data w) (sent w) (replies w) (log w) (delivery w) (today w).
Definition set_user_data (f : gmap string PyVal -> gmap string PyVal) (w : World) : World :=
  mkWorld (database w) (f (user_data w)) (sent w) (replies w) (log w) (delivery w) (today w).
Definition set_sent (f : list (Z * Text) -> list (Z * Text)) (w : World) : World :=
  mkWorld (database w) (user_data w) (f (sent w)) (replies w) (log w) (delivery w) (today w).
Definition set_replies (f : list Text -> list Text) (w : World) : World :=
  mkWorld (database w) (user_data w) (sent w) (f (replies w)) (log w) (delivery w) (today w).
Definition set_log (f : list LogRecord -> list LogRecord) (w : World) : World :=
  mkWorld (database w) (user_data w) (sent w) (replies w) (f (log w)) (delivery w) (today w).

(** A statement of [db.py] run from a handler. *)
Definition lift_db {A} (m : Eff DB A) : Eff World A := fun w =>
  let '(r, d) := m (database w) in (r, set_database (fun _ => d) w).

(** [context.user_data[k] = v] *)
Definition user_data_set (k : string) (v : PyVal) : Eff World unit :=
  modify (set_user_data (insert k v)).
(** [context.user_data.get(k)] *)
Definition user_data_get (k : string) : Eff World (option PyVal) :=
  gets (fun w => user_data w !! k).
(** [context.user_data[k]] *)
Definition user_data_item (k : string) : Eff World PyVal := fun w =>
  match user_data w !! k with
  | Some v => (Ok v, w)
  | None => (Raise (KeyError k), w)
  end.

(** [update.message.reply_text] and [query.edit_message_text] *)
Definition reply (t : Text) : Eff World unit :=
  modify (set_replies (fun l => l ++ [t])).

Definition logger (r : LogRecord) : Eff World unit :=
  modify (set_log (fun l => l ++ [r])).

(** [context.bot.send_message]: the attempt is made, and the oracle says
    whether it raises. *)
Definition send_message (chat_id : Z) (t : Text) : Eff World unit := fun w =>
  let w' := set_sent (fun l => l ++ [(chat_id, t)]) w in
  if delivery w (length (sent w)) chat_id then (Ok tt, w')
  else (Raise TelegramError, w').

(** [update.message.text]; a button press has no message. *)
Definition message_text (update : Update) : Eff World string :=
  match content update with
  | TextMessage text => ret text
  | Command _ text => ret text
  | CallbackQuery _ => raise AttributeError
  end.

(** The built-ins of Python the handlers call on text.  [None] stands for
    [ValueError]. *)
Class Builtins : Type := {
  str_strip : string -> string;               (* str.strip() *)
  int_of_str : string -> option Z;            (* int(s) *)
  date_fromisoformat : string -> option date; (* datetime.date.fromisoformat(s) *)
}.

(** [claude_ai.parse_admin_command]: what the language model makes of an
    admin's text, for that admin and those tables.  The answer is whatever
    [json.loads] returned, or the fallback dictionary of the function. *)
Class Claude : Type := {
  parse_admin_command : string -> option string -> list string -> PyVal;
}.

(** [str(n)] *)
Definition str_of_int (n : Z) : string := NilZero.string_of_int (Z.to_int n).

(** [ConversationHandler.END] *)
Definition END : Z := -1.

(** ** Values crossing into a statement

    asyncpg refuses an argument of the wrong Python type for its column. *)

(** An [INTEGER] argument for the seat limit: an int of 32 bits, a bool
    as 0 or 1.  (None would be NULL; the rows of the model hold a number
    there, and None is refused with the other values.) *)
Definition sql_int {S} (v : PyVal) : Eff S Z :=
  match v with
  | PInt z => if int32 z then ret z else raise DataError
  | PBool b => ret (if b then 1 else 0)
  | _ => raise DataError
  end.
(** An id handed back to the database: any int, a bool as 0 or 1. *)
Definition sql_id {S} (v : PyVal) : Eff S Z :=
  match v with
  | PInt z => ret z
  | PBool b => ret (if b then 1 else 0)
  | _ => raise DataError
  end.
Definition sql_text {S} (v : PyVal) : Eff S string :=
  match v with PStr s => ret s | _ => raise DataError end.
Definition sql_text_opt {S} (v : option PyVal) : Eff S (option string) :=
  match v with
  | None | Some PNone => ret None
  | Some (PStr s) => ret (Some s)
  | Some _ => raise DataError
  end.
Definition sql_date {S} (v : PyVal) : Eff S date :=
  match v with PDate d => ret d | _ => raise DataError end.

(** [d.get(k)] on a Python value. *)
Definition dict_get {S} (d : PyVal) (k : string) : Eff S (option PyVal) :=
  match d with
  | PDict l => ret (snd <$> find (fun kv => String.eqb (fst kv) k) l)
  | _ => raise AttributeError
  end.

(** [context.user_data.get("db_user")], read as the [User] it caches. *)
Definition cached_db_user : Eff World (option User.t) :=
  v <- user_data_get "db_user" ;;
  match v with
  | Some (PUser u) => ret (Some u)
  | Some v => if truthy v then raise AttributeError else ret None
  | None => ret None
  end.

(** [s or None] and [s or d] for an optional text *)
Definition nonempty (s : option string) : option string :=
  match s with
  | Some x => if String.eqb x "" then None else Some x
  | None => None
  end.

Section Handlers.
Context `{Builtins} `{Claude}.

(** [int(v)] *)
Definition py_int {S} (v : PyVal) : Eff S Z :=
  match v with
  | PBool b => ret (if b then 1 else 0)
  | PInt z => ret z
  | PStr s => match int_of_str s with Some z => ret z | None => raise ValueError end
  | _ => raise TypeError
  end.

(** *** [roles.py] *)

(** The decorator [require_role], given the allowed roles, around a handler. *)
Definition require_role (allowed : list UserRole.t)
    (func : Update -> Eff World (option Z)) (update : Update)
    : Eff World (option Z) :=
  let user_tg := effective_user update in
  db_user <- lift_db (db.get_user (tg_id user_tg)) ;;
  match db_user with
  | None => run reply PleaseStartFirst ;; ret None
  | Some u =>
      if bool_decide (User.role u ∈ allowed) then
        (* cache the user in context for the handler *)
        run user_data_set "db_user" (PUser u) ;;
        func update
      else
        run reply NoAccess ;; ret None
  end.

(** *** [handlers/user.py] *)

Definition cmd_start (update : Update) : Eff World (option Z) :=
  let tg := effective_user update in
  let username := tg_username tg in
  let full_name :=
    if negb (String.eqb (tg_full_name tg) "") then tg_full_name tg
    else if negb (String.eqb (tg_first_name tg) "") then tg_first_name tg
    else "Unknown" in
  user <- lift_db (db.upsert_user (tg_id tg) username full_name None) ;;
  run reply (Welcome (User.full_name user)) ;;
  ret None.

(** *** [handlers/registration.py] *)

Definition ASK_NAME : Z := 0.
Definition ASK_PHONE : Z := 1.
Definition ASK_LEVEL : Z := 2.
Definition CONFIRM : Z := 3.

Definition reg_start (update : Update) : Eff World (option Z) :=
  match content update with
  | CallbackQuery (cb_reg_start event_id) =>
      event <- lift_db (db.get_event event_id) ;;
      match event with
      | None => run reply EventNotFound ;; ret (Some END)
      | Some event =>
          full <- (if 0 <? Event.max_participants event then
                     count <- lift_db (db.count_event_registrations event_id) ;;
                     ret (Event.max_participants event <=? count)
                   else ret false) ;;
          if full : bool then
            run reply (NoSeatsLeft (Event.title event)) ;; ret (Some END)
          else
            run user_data_set "reg_event_id" (PInt event_id) ;;
            run user_data_set "reg_event_title" (PStr (Event.title event)) ;;
            (* pre-fill name from DB *)
            user <- lift_db (db.get_user (tg_id (effective_user update))) ;;
            run match user with
                | Some u =>
                    if negb (String.eqb (User.full_name u) "") then
                      run user_data_set "reg_name" (PStr (User.full_name u)) ;;
                      reply (RegKnownName (Event.title event) (User.full_name u))
                    else reply (RegAskName (Event.title event))
                | None => reply (RegAskName (Event.title event))
                end ;;
            ret (Some ASK_NAME)
      end
  | _ => raise AttributeError
  end.

Definition ask_name (update : Update) : Eff World (option Z) :=
  raw <- message_text update ;;
  let text := str_strip raw in
  run (if negb (String.eqb text "") && negb (String.eqb text "/skip")
       then user_data_set "reg_name" (PStr text) else ret tt) ;;
  run reply RegAskPhone ;;
  ret (Some ASK_PHONE).

Definition ask_phone (update : Update) : Eff World (option Z) :=
  raw <- message_text update ;;
  let text := str_strip raw in
  run (if negb (String.eqb text "") && negb (String.eqb text "/skip")
       then user_data_set "reg_phone" (PStr text)
       else user_data_set "reg_phone" PNone) ;;
  run reply RegAskLevel ;;
  ret (Some ASK_LEVEL).

Definition ask_level (update : Update) : Eff World (option Z) :=
  raw <- message_text update ;;
  let text := str_strip raw in
  run (if negb (String.eqb text "") && negb (String.eqb text "/skip")
       then user_data_set "reg_level" (PStr text)
       else user_data_set "reg_level" PNone) ;;
  (* show confirmation *)
  name <- user_data_get "reg_name" ;;
  phone <- user_data_get "reg_phone" ;;
  level <- user_data_get "reg_level" ;;
  event_title <- user_data_get "reg_event_title" ;;
  run reply (RegConfirmPrompt event_title name phone level) ;;
  ret (Some CONFIRM).

Definition confirm (update : Update) : Eff World (option Z) :=
  match content update with
  | CallbackQuery (cb_reg_confirm yes) =>
      if negb yes then
        run reply RegCancelled ;; ret (Some END)
      else
        let tg := effective_user update in
        event_id <- user_data_item "reg_event_id" ;;
        name <- gets (fun w => default (PStr (tg_full_name tg)) (user_data w !! "reg_name")) ;;
        phone <- user_data_get "reg_phone" ;;
        level <- user_data_get "reg_level" ;;
        run try_except
              (event_id <- sql_id event_id ;;
               name <- sql_text name ;;
               phone <- sql_text_opt phone ;;
               level <- sql_text_opt level ;;
               run lift_db (db.register_for_event event_id name (tg_username tg)
                              (Some (tg_id tg)) phone level None) ;;
               title <- user_data_item "reg_event_title" ;;
               reply (Registered title))
              (fun _ =>
               run logger (LogException "Registration failed" []) ;;
               reply RegFailed) ;;
        ret (Some END)
  | _ => raise AttributeError
  end.

Definition cancel (update : Update) : Eff World (option Z) :=
  run reply RegCancelled ;;
  ret (Some END).

(** *** [handlers/admin.py]: manual event creation *)

Definition EVT_TITLE : Z := 10.
Definition EVT_DATE : Z := 11.
Definition EVT_TIME : Z := 12.
Definition EVT_PLACE : Z := 13.
Definition EVT_DESC : Z := 14.
Definition EVT_MAX : Z := 15.
Definition EVT_CONFIRM : Z := 16.

(** The notification loop [for sa_id in sa_ids: try: send_message ...
    except Exception: logger.exception(...)] *)
Fixpoint notify_super_admins (sa_ids : list Z) (t : Text) : Eff World unit :=
  match sa_ids with
  | [] => ret tt
  | sa_id :: rest =>
      run try_except (send_message sa_id t)
            (fun _ => logger (LogException "Failed to notify super_admin %s" [PInt sa_id])) ;;
      notify_super_admins rest t
  end.

Definition evt_start_body (update : Update) : Eff World (option Z) :=
  run reply EvtAskTitle ;;
  ret (Some EVT_TITLE).
Definition evt_start : Update -> Eff World (option Z) :=
  require_role [UserRole.ADMIN; UserRole.SUPER_ADMIN] evt_start_body.

Definition evt_title (update : Update) : Eff World (option Z) :=
  raw <- message_text update ;;
  run user_data_set "evt_title" (PStr (str_strip raw)) ;;
  run reply EvtAskDate ;;
  ret (Some EVT_DATE).

Definition evt_date (update : Update) : Eff World (option Z) :=
  raw <- message_text update ;;
  let text := str_strip raw in
  match date_fromisoformat text with
  | Some d =>
      run user_data_set "evt_date" (PDate d) ;;
      run reply EvtAskTime ;;
      ret (Some EVT_TIME)
  | None =>
      (* except ValueError *)
      run reply EvtBadDate ;;
      ret (Some EVT_DATE)
  end.

Definition evt_time (update : Update) : Eff World (option Z) :=
  raw <- message_text update ;;
  let text := str_strip raw in
  run user_data_set "evt_time" (if String.eqb text "/skip" then PNone else PStr text) ;;
  run reply EvtAskPlace ;;
  ret (Some EVT_PLACE).

Definition evt_place (update : Update) : Eff World (option Z) :=
  raw <- message_text update ;;
  let text := str_strip raw in
  run user_data_set "evt_place" (if String.eqb text "/skip" then PNone else PStr text) ;;
  run reply EvtAskDesc ;;
  ret (Some EVT_DESC).

Definition evt_desc (update : Update) : Eff World (option Z) :=
  raw <- message_text update ;;
  let text := str_strip raw in
  run user_data_set "evt_desc" (if String.eqb text "/skip" then PNone else PStr text) ;;
  run reply EvtAskMax ;;
  ret (Some EVT_MAX).

Definition evt_max (update : Update) : Eff World (option Z) :=
  raw <- message_text update ;;
  let text := str_strip raw in
  run (if String.eqb text "/skip" then user_data_set "evt_max" (PInt 0)
       else match int_of_str text with
            | Some n => user_data_set "evt_max" (PInt n)
            | None => (* except ValueError *) user_data_set "evt_max" (PInt 0)
            end) ;;
  title <- user_data_item "evt_title" ;;
  d <- user_data_item "evt_date" ;;
  t <- user_data_get "evt_time" ;;
  p <- user_data_get "evt_place" ;;
  run reply (EvtConfirmPrompt title d t p) ;;
  ret (Some EVT_CONFIRM).

Definition evt_confirm (update : Update) : Eff World (option Z) :=
  match content update with
  | CallbackQuery (cb_evt_confirm yes) =>
      if negb yes then
        run reply EvtDeclined ;; ret (Some END)
      else
        db_user <- cached_db_user ;;
        let username := db_user ≫= User.username in
        title <- user_data_item "evt_title" ;;
        date_start <- user_data_item "evt_date" ;;
        time <- user_data_get "evt_time" ;;
        place <- user_data_get "evt_place" ;;
        description <- user_data_get "evt_desc" ;;
        max_participants <- gets (fun w => default (PInt 0) (user_data w !! "evt_max")) ;;
        title <- sql_text title ;;
        date_start <- sql_date date_start ;;
        time <- sql_text_opt time ;;
        place <- sql_text_opt place ;;
        description <- sql_text_opt description ;;
        max_participants <- sql_int max_participants ;;
        event <- lift_db (db.create_event title date_start None None time place
                            description max_participants EventStatus.PENDING username) ;;
        run match db_user with
            | Some u =>
                if bool_decide (User.role u = UserRole.SUPER_ADMIN) then
                  (* if super_admin: auto-activate *)
                  run lift_db (db.activate_event (Event.id event)) ;;
                  reply (EvtCreatedActive (Event.title event) (Event.id event))
                else
                  (* notify super-admins *)
                  req <- lift_db (db.create_admin_request
                            (match nonempty username with
                             | Some n => n
                             | None => str_of_int (User.telegram_id u)
                             end)
                            "event_creation"
                            (Some (User.telegram_id u))
                            (Some (User.full_name u)) None None
                            (Some {[ "event_id" := PInt (Event.id event);
                                     "event_title" := PStr (Event.title event) ]})
                            (Some ("Новое мероприятие «" +:+ Event.title event +:+ "»"))) ;;
                  sa_ids <- lift_db db.get_super_admin_ids ;;
                  run notify_super_admins sa_ids
                        (EvtReviewRequest (AdminRequest.id req) (Event.title event)
                           (Event.date_start event) username) ;;
                  reply (EvtCreatedPending (Event.title event) (Event.id event))
            | None =>
                (* str(db_user.telegram_id) on None *)
                raise AttributeError
            end ;;
        ret (Some END)
  | _ => raise AttributeError
  end.

Definition evt_cancel (update : Update) : Eff World (option Z) :=
  run reply EvtCancelled ;;
  ret (Some END).

(** *** [handlers/admin.py]: info creation *)

Definition INFO_CATEGORY : Z := 20.
Definition INFO_TITLE : Z := 21.
Definition INFO_CONTENT : Z := 22.
Definition INFO_CONFIRM : Z := 23.

Definition info_start_body (update : Update) : Eff World (option Z) :=
  run reply InfoAskCategory ;;
  ret (Some INFO_CATEGORY).
Definition info_start : Update -> Eff World (option Z) :=
  require_role [UserRole.ADMIN; UserRole.SUPER_ADMIN] info_start_body.

Definition info_category (update : Update) : Eff World (option Z) :=
  raw <- message_text update ;;
  run user_data_set "info_cat" (PStr (str_strip raw)) ;;
  run reply InfoAskTitle ;;
  ret (Some INFO_TITLE).

Definition info_title (update : Update) : Eff World (option Z) :=
  raw <- message_text update ;;
  run user_data_set "info_title" (PStr (str_strip raw)) ;;
  run reply InfoAskContent ;;
  ret (Some INFO_CONTENT).

Definition info_content (update : Update) : Eff World (option Z) :=
  raw <- message_text update ;;
  run user_data_set "info_content" (PStr (str_strip raw)) ;;
  cat <- user_data_item "info_cat" ;;
  title <- user_data_item "info_title" ;;
  content <- user_data_item "info_content" ;;
  run reply (InfoConfirmPrompt cat title content) ;;
  ret (Some INFO_CONFIRM).

Definition info_confirm (update : Update) : Eff World (option Z) :=
  match content update with
  | CallbackQuery (cb_info_confirm yes) =>
      if negb yes then
        run reply Declined ;; ret (Some END)
      else
        cat <- user_data_item "info_cat" ;;
        title <- user_data_item "info_title" ;;
        content <- user_data_item "info_content" ;;
        cat <- sql_text cat ;;
        title <- sql_text title ;;
        content <- sql_text content ;;
        info_id <- lift_db (db.create_info cat title content) ;;
        run reply (InfoSaved info_id) ;;
        ret (Some END)
  | _ => raise AttributeError
  end.

Definition info_cancel (update : Update) : Eff World (option Z) :=
  run reply InfoCancelled ;;
  ret (Some END).

(** *** [handlers/admin.py]: text command *)

Definition WAIT_TEXT_CMD : Z := 0.
Definition WAIT_CONFIRM : Z := 1.

Definition text_cmd_start_body (update : Update) : Eff World (option Z) :=
  run reply AiAskCommand ;;
  ret (Some WAIT_TEXT_CMD).
Definition text_cmd_start : Update -> Eff World (option Z) :=
  require_role [UserRole.ADMIN; UserRole.SUPER_ADMIN] text_cmd_start_body.

Definition text_cmd_parse (update : Update) : Eff World (option Z) :=
  raw <- message_text update ;;
  let text := str_strip raw in
  db_user <- cached_db_user ;;
  let username := match db_user with Some u => User.username u | None => Some "" end in
  tables <- match nonempty username with
            | Some n => lift_db (db.get_admin_tables n)
            | None => ret []
            end ;;
  let result := parse_admin_command text username tables in
  run user_data_set "ai_cmd_result" result ;;
  confirmation <- dict_get result "confirmation" ;;
  run reply (AiConfirmPrompt confirmation) ;;
  ret (Some WAIT_CONFIRM).

Definition is_str (v : PyVal) (s : string) : bool :=
  match v with PStr x => String.eqb x s | _ => false end.

Definition text_cmd_confirm (update : Update) : Eff World (option Z) :=
  match content update with
  | CallbackQuery (cb_ai_confirm yes) =>
      if negb yes then
        run reply Declined ;; ret (Some END)
      else
        result <- gets (fun w => default (PDict []) (user_data w !! "ai_cmd_result")) ;;
        action <- dict_get result "action" ;;
        let action := default (PStr "unknown") action in
        params <- dict_get result "params" ;;
        let params := default (PDict []) params in
        db_user <- cached_db_user ;;
        run try_except
              (if is_str action "create_event" then
                 date_str <- dict_get params "date_start" ;;
                 d <- match date_str with
                      | Some v =>
                          if truthy v then
                            match v with
                            | PStr x => match date_fromisoformat x with
                                        | Some d => ret d
                                        | None => raise ValueError
                                        end
                            | _ => raise TypeError
                            end
                          else gets today
                      | None => gets today
                      end ;;
                 title <- dict_get params "title" ;;
                 time <- dict_get params "time" ;;
                 place <- dict_get params "place" ;;
                 description <- dict_get params "description" ;;
                 max_participants <- dict_get params "max_participants" ;;
                 title <- sql_text (default (PStr "Без названия") title) ;;
                 time <- sql_text_opt time ;;
                 place <- sql_text_opt place ;;
                 description <- sql_text_opt description ;;
                 max_participants <- sql_int (default (PInt 0) max_participants) ;;
                 event <- lift_db (db.create_event title d None None time place
                                     description max_participants EventStatus.PENDING
                                     (db_user ≫= User.username)) ;;
                 reply (AiEventCreated (Event.title event) (Event.id event))
               else if is_str action "create_info" then
                 category <- dict_get params "category" ;;
                 title <- dict_get params "title" ;;
                 content <- dict_get params "content" ;;
                 category <- sql_text (default (PStr "general") category) ;;
                 title <- sql_text (default (PStr "") title) ;;
                 content <- sql_text (default (PStr "") content) ;;
                 info_id <- lift_db (db.create_info category title content) ;;
                 reply (AiInfoCreated info_id)
               else if is_str action "archive_event" then
                 eid <- dict_get params "event_id" ;;
                 match eid with
                 | Some v =>
                     if truthy v then
                       n <- py_int v ;;
                       run lift_db (db.archive_event n) ;;
                       reply (AiEventArchived v)
                     else reply AiNoEvent
                 | None => reply AiNoEvent
                 end
               else reply (AiUnknownAction action))
              (fun _ =>
               run logger (LogException "AI command execution error" []) ;;
               reply AiFailed) ;;
        ret (Some END)
  | _ => raise AttributeError
  end.

Definition text_cmd_cancel (update : Update) : Eff World (option Z) :=
  run reply AiCancelled ;;
  ret (Some END).

(** *** [handlers/super_admin.py] *)

Definition BC_TEXT : Z := 50.
Definition BC_CONFIRM : Z := 51.

(** The fan-out loop, written out twice in the source:
    [for tid in ids: try: send_message(tid, message); sent += 1
     except Exception: pass] *)
Fixpoint broadcast_loop (message : Text) (ids : list Z) (sent : Z) : Eff World Z :=
  match ids with
  | [] => ret sent
  | tid :: rest =>
      sent <- try_except (run send_message tid message ;; ret (sent + 1))
                         (fun _ => ret sent) ;;
      broadcast_loop message rest sent
  end.

(** Execute side-effects when a request is approved. *)
Definition _apply_approval (req : AdminRequest.t) : Eff World unit :=
  let request_type := AdminRequest.request_type req in
  if String.eqb request_type "admin_access" then
    (* grant admin role *)
    run lift_db (db.set_user_role (AdminRequest.username req) UserRole.ADMIN) ;;
    (* grant access to requested table (if any) *)
    run match nonempty (AdminRequest.requested_table req) with
        | Some table => lift_db (db.grant_table_access (AdminRequest.username req) table)
        | None => ret tt
        end ;;
    logger (LogInfo "Granted admin role to @%s" [PStr (AdminRequest.username req)])
  else if String.eqb request_type "event_creation"
          || String.eqb request_type "event_activation" then
    (* activate the event *)
    let payload := default ∅ (AdminRequest.payload_json req) in
    match payload !! "event_id" with
    | Some event_id =>
        if truthy event_id then
          n <- py_int event_id ;;
          run lift_db (db.activate_event n) ;;
          logger (LogInfo "Activated event #%s" [event_id])
        else ret tt
    | None => ret tt
    end
  else if String.eqb request_type "broadcast" then
    (* send broadcast *)
    let payload := default ∅ (AdminRequest.payload_json req) in
    let message := default (PStr "") (payload !! "message") in
    if truthy message then
      ids <- lift_db db.get_all_telegram_ids ;;
      sent <- broadcast_loop (Body message) ids 0 ;;
      logger (LogInfo "Broadcast sent to %d/%d users" [PInt sent; PInt (Z.of_nat (length ids))])
    else ret tt
  else ret tt.

Definition handle_request_decision_body (update : Update) : Eff World (option Z) :=
  match content update with
  | CallbackQuery (cb_sa approve request_id) =>
      db_user <- cached_db_user ;;
      let reviewer := match db_user with
                      | Some u => User.username u
                      | None => Some "super_admin"
                      end in
      req <- (if approve
              then lift_db (db.approve_request request_id reviewer)
              else lift_db (db.reject_request request_id reviewer)) ;;
      match req with
      | None =>
          run reply (AlreadyHandled request_id) ;;
          ret None
      | Some req =>
          (* perform side effects on approval *)
          run (if approve then _apply_approval req else ret tt) ;;
          run reply (Decided request_id (AdminRequest.request_type req) approve
                             (AdminRequest.username req)) ;;
          (* notify the requester *)
          run match AdminRequest.telegram_id req with
              | Some tid =>
                  if negb (tid =? 0) then
                    try_except
                      (send_message tid
                         (DecisionNotice (AdminRequest.id req)
                            (AdminRequest.request_type req) approve))
                      (fun _ => logger (LogException "Failed to notify requester %s"
                                                     [PInt tid]))
                  else ret tt
              | None => ret tt
              end ;;
          ret None
      end
  | _ => raise AttributeError
  end.
Definition handle_request_decision : Update -> Eff World (option Z) :=
  require_role [UserRole.SUPER_ADMIN] handle_request_decision_body.

Definition broadcast_start_body (update : Update) : Eff World (option Z) :=
  run reply BcAskText ;;
  ret (Some BC_TEXT).
Definition broadcast_start : Update -> Eff World (option Z) :=
  require_role [UserRole.SUPER_ADMIN] broadcast_start_body.

Definition broadcast_text (update : Update) : Eff World (option Z) :=
  raw <- message_text update ;;
  run user_data_set "bc_text" (PStr (str_strip raw)) ;;
  text <- user_data_item "bc_text" ;;
  run reply (BcConfirmPrompt text) ;;
  ret (Some BC_CONFIRM).

Definition broadcast_confirm (update : Update) : Eff World (option Z) :=
  match content update with
  | CallbackQuery (cb_bc_confirm yes) =>
      if negb yes then
        run reply BroadcastCancelled ;; ret (Some END)
      else
        message <- gets (fun w => default (PStr "") (user_data w !! "bc_text")) ;;
        ids <- lift_db db.get_all_telegram_ids ;;
        sent <- broadcast_loop (Body message) ids 0 ;;
        run reply (BroadcastReport sent (Z.of_nat (length ids))) ;;
        ret (Some END)
  | _ => raise AttributeError
  end.

Definition broadcast_cancel (update : Update) : Eff World (option Z) :=
  run reply BroadcastCancelled ;;
  ret (Some END).

(** *** The conversations registered by the [register] functions

    A [ConversationHandler] keeps one state per (user, chat); [None]
    means that no conversation is running. *)

Definition Handler : Type := (Content -> bool) * (Update -> Eff World (option Z)).

(** [MessageHandler(filters.TEXT & ~filters.COMMAND, f)] *)
Definition MessageHandler (f : Update -> Eff World (option Z)) : Handler :=
  (fun c => match c with TextMessage _ => true | _ => false end, f).
(** [CommandHandler(name, f)] *)
Definition CommandHandler (name : string) (f : Update -> Eff World (option Z)) : Handler :=
  (fun c => match c with Command n _ => String.eqb n name | _ => false end, f).
(** [CallbackQueryHandler(f, pattern=...)], the pattern given as a test
    on the parsed data. *)
Definition CallbackQueryHandler (f : Update -> Eff World (option Z))
    (pattern : CallbackData -> bool) : Handler :=
  (fun c => match c with CallbackQuery d => pattern d | _ => false end, f).

Record ConversationHandler : Type := mkConversation {
  entry_points : list Handler;
  states : list (Z * list Handler);
  fallbacks : list Handler;
}.

Definition state_handlers (c : ConversationHandler) (s : Z) : list Handler :=
  match find (fun kv => fst kv =? s) (states c) with
  | Some kv => snd kv
  | None => []
  end.

(** One update offered to a conversation in state [state]: the first
    matching handler runs (entry points when no conversation is running,
    else the handlers of the state and then the fallbacks); what it
    returns is the next state, [END] closes the conversation, [None]
    keeps the state. *)
Definition handle_update (c : ConversationHandler) (state : option Z)
    (update : Update) : Eff World (option Z) :=
  let candidates := match state with
                    | None => entry_points c
                    | Some s => state_handlers c s ++ fallbacks c
                    end in
  match find (fun h : Handler => fst h (content update)) candidates with
  | None => ret state
  | Some h =>
      new_state <- snd h update ;;
      ret (match new_state with
           | None => state
           | Some n => if n =? END then None else Some n
           end)
  end.

(** A conversation fed a list of updates; a handler that raises leaves
    the state where it was. *)
Fixpoint feed (c : ConversationHandler) (state : option Z) (updates : list Update)
    (w : World) : option Z * World :=
  match updates with
  | [] => (state, w)
  | u :: rest =>
      match handle_update c state u w with
      | (Ok state', w') => feed c state' rest w'
      | (Raise _, w') => feed c state rest w'
      end
  end.

Definition reg_conv : ConversationHandler :=
  mkConversation
    [CallbackQueryHandler reg_start
       (fun d => match d with cb_reg_start _ => true | _ => false end)]
    [(ASK_NAME, [MessageHandler ask_name; CommandHandler "skip" ask_name]);
     (ASK_PHONE, [MessageHandler ask_phone; CommandHandler "skip" ask_phone]);
     (ASK_LEVEL, [MessageHandler ask_level; CommandHandler "skip" ask_level]);
     (CONFIRM, [CallbackQueryHandler confirm
                  (fun d => match d with cb_reg_confirm _ => true | _ => false end)])]
    [CommandHandler "cancel" cancel].

Definition evt_conv : ConversationHandler :=
  mkConversation
    [CallbackQueryHandler evt_start
       (fun d => match d with cb_adm_create_event => true | _ => false end)]
    [(EVT_TITLE, [MessageHandler evt_title]);
     (EVT_DATE, [MessageHandler evt_date]);
     (EVT_TIME, [MessageHandler evt_time; CommandHandler "skip" evt_time]);
     (EVT_PLACE, [MessageHandler evt_place; CommandHandler "skip" evt_place]);
     (EVT_DESC, [MessageHandler evt_desc; CommandHandler "skip" evt_desc]);
     (EVT_MAX, [MessageHandler evt_max; CommandHandler "skip" evt_max]);
     (EVT_CONFIRM, [CallbackQueryHandler evt_confirm
                      (fun d => match d with cb_evt_confirm _ => true | _ => false end)])]
    [CommandHandler "cancel" evt_cancel].

Definition info_conv : ConversationHandler :=
  mkConversation
    [CallbackQueryHandler info_start
       (fun d => match d with cb_adm_create_info => true | _ => false end)]
    [(INFO_CATEGORY, [MessageHandler info_category]);
     (INFO_TITLE, [MessageHandler info_title]);
     (INFO_CONTENT, [MessageHandler info_content]);
     (INFO_CONFIRM, [CallbackQueryHandler info_confirm
                       (fun d => match d with cb_info_confirm _ => true | _ => false end)])]
    [CommandHandler "cancel" info_cancel].

Definition ai_conv : ConversationHandler :=
  mkConversation
    [CallbackQueryHandler text_cmd_start
       (fun d => match d with cb_adm_text_cmd => true | _ => false end)]
    [(WAIT_TEXT_CMD, [MessageHandler text_cmd_parse]);
     (WAIT_CONFIRM, [CallbackQueryHandler text_cmd_confirm
                       (fun d => match d with cb_ai_confirm _ => true | _ => false end)])]
    [CommandHandler "cancel" text_cmd_cancel].

Definition bc_conv : ConversationHandler :=
  mkConversation
    [CommandHandler "broadcast" broadcast_start]
    [(BC_TEXT, [MessageHandler broadcast_text]);
     (BC_CONFIRM, [CallbackQueryHandler broadcast_confirm
                     (fun d => match d with cb_bc_confirm _ => true | _ => false end)])]
    [CommandHandler "cancel" broadcast_cancel].

End Handlers.

(** ** The built-ins on ASCII text

    An instance of [Builtins] for texts of ASCII characters: [strip] removes
    the ASCII white space of [str.isspace], [int] reads an optional sign and
    decimal digits with single underscores between them, [fromisoformat]
    reads the form YYYY-MM-DD that every version of Python accepts. *)

Module ascii_text.

Definition is_space (c : ascii) : bool :=
  let n := nat_of_ascii c in
  ((9 <=? n)%nat && (n <=? 13)%nat) || ((28 <=? n)%nat && (n <=? 32)%nat).

Fixpoint lstrip (s : string) : string :=
  match s with
  | EmptyString => EmptyString
  | String c r => if is_space c then lstrip r else s
  end.

Fixpoint rev_onto (s acc : string) : string :=
  match s with
  | EmptyString => acc
  | String c r => rev_onto r (String c acc)
  end.

Definition strip (s : string) : string :=
  rev_onto (lstrip (rev_onto (lstrip s) "")) "".

Definition digit (c : ascii) : option Z :=
  let n := Z.of_nat (nat_of_ascii c) in
  if (48 <=? n) && (n <=? 57) then Some (n - 48) else None.

(** Digits with single underscores between them; [after_digit] says
    whether an underscore or the end may come next. *)
Fixpoint digits (s : string) (acc : Z) (after_digit : bool) : option Z :=
  match s with
  | EmptyString => if after_digit then Some acc else None
  | String c r =>
      match digit c with
      | Some d => digits r (10 * acc + d) true
      | None =>
          if after_digit && Ascii.eqb c "_"%char then digits r acc false else None
      end
  end.

Definition int (s : string) : option Z :=
  match strip s with
  | String "-"%char r => Z.opp <$> digits r 0 false
  | String "+"%char r => digits r 0 false
  | t => digits t 0 false
  end.

Definition is_leap (y : Z) : bool :=
  ((y mod 4 =? 0) && negb (y mod 100 =? 0)) || (y mod 400 =? 0).

Definition days_in_month (y m : Z) : Z :=
  if m =? 2 then (if is_leap y then 29 else 28)
  else if (m =? 4) || (m =? 6) || (m =? 9) || (m =? 11) then 30
  else 31.

Definition fromisoformat (s : string) : option date :=
  match list_ascii_of_string s with
  | [y1; y2; y3; y4; "-"%char; m1; m2; "-"%char; d1; d2] =>
      match digit y1, digit y2, digit y3, digit y4,
            digit m1, digit m2, digit d1, digit d2 with
      | Some a, Some b, Some c, Some d, Some e, Some f, Some g, Some h =>
          let y := 1000 * a + 100 * b + 10 * c + d in
          let m := 10 * e + f in
          let dd := 10 * g + h in
          if (1 <=? y) && (1 <=? m) && (m <=? 12) && (1 <=? dd)
             && (dd <=? days_in_month y m)
          then Some (Date y m dd) else None
      | _, _, _, _, _, _, _, _ => None
      end
  | _ => None
  end.

Definition builtins : Builtins :=
  {| str_strip := strip; int_of_str := int; date_fromisoformat := fromisoformat |}.

(** A language model that recognises nothing: the fallback dictionary of
    [parse_admin_command]. *)
Definition claude : Claude :=
  {| parse_admin_command := fun _ _ _ =>
       PDict [("action", PStr "unknown"); ("params", PDict []);
              ("confirmation", PStr "Не удалось распознать команду. Попробуйте иначе.")] |}.

End ascii_text.

(** ** Notions the properties are stated with *)

(** How many of the deliveries to [ids], tried in order from attempt number
    [n] on, fail. *)
Fixpoint failures (delivery : nat -> Z -> bool) (n : nat) (ids : list Z) : nat :=
  match ids with
  | [] => 0%nat
  | tid :: rest => ((if delivery n tid then 0 else 1) + failures delivery (S n) rest)%nat
  end.

(** ** A small community, for the examples *)

Module sample.

Definition root : User.t := User.mk 1 (Some "root") "Root" None UserRole.SUPER_ADMIN 0.
Definition bob : User.t := User.mk 2 (Some "bob") "Bob" (Some "+100") UserRole.ADMIN 0.
Definition ann : User.t := User.mk 7 (Some "ann") "Ann" None UserRole.USER 0.

Definition tg_root : TgUser := mkTgUser 1 (Some "root") "Root" "Root".
Definition tg_bob : TgUser := mkTgUser 2 (Some "bob") "Bob" "Bob".
Definition tg_ann : TgUser := mkTgUser 7 (Some "ann") "Ann" "Ann".

(** An active event with [seats] seats, one of them taken by Ann. *)
Definition picnic_of (seats : Z) : Event.t :=
  Event.mk 1 "Picnic" None (Date 2025 1 15) None None None None seats
           EventStatus.ACTIVE (Some "root") 0.
Definition picnic : Event.t := picnic_of 1.
Definition ann_at_picnic : EventRegistration.t :=
  EventRegistration.mk 1 1 (Some "ann") (Some 7) "Ann" None None None 50.

(** Bob asks for a broadcast. *)
Definition bc_payload : gmap string PyVal := {[ "message" := PStr "Service at ten" ]}.
Definition bc_request : AdminRequest.t :=
  AdminRequest.mk 1 "bob" (Some 2) (Some "Bob") None None "broadcast"
                  (Some bc_payload) None RequestStatus.PENDING None 60 None.

Definition db_of (seats : Z) : DB :=
  mkDB [root; bob; ann] [picnic_of seats] [ann_at_picnic] [] [bc_request] []
       2 2 1 2 1 100.
Definition db0 : DB := db_of 1.

(** A pending event with three requests about events: one naming it,
    one naming an event that is gone, one naming none. *)
Definition school : Event.t :=
  Event.mk 2 "Bible School" None (Date 2025 1 15) None None None None 0
           EventStatus.PENDING (Some "bob") 70.
Definition event_request (id : Z) (request_type : string)
    (payload : option (gmap string PyVal)) : AdminRequest.t :=
  AdminRequest.mk id "bob" (Some 2) (Some "Bob") None None request_type
                  payload None RequestStatus.PENDING None 80 None.
Definition db_events : DB :=
  mkDB [root; bob; ann] [picnic; school] [ann_at_picnic] []
       [bc_request;
        event_request 2 "event_creation" (Some {[ "event_id" := PInt 2 ]});
        event_request 3 "event_creation" (Some {[ "event_id" := PInt 9 ]});
        event_request 4 "event_activation" None]
       [] 3 2 1 5 1 100.

(** A world over [d] in which the second delivery attempted fails. *)
Definition world (d : DB) : World :=
  mkWorld d ∅ [] [] [] (fun n _ => negb (n =? 1)%nat) (Date 2025 1 1).

(** The same, with Root let through by the role guard. *)
Definition reviewing (d : DB) : World :=
  set_user_data (insert "db_user" (PUser root)) (world d).

End sample.

(** ** The writing statements of [db.py], as data *)

Inductive Stmt : Type :=
  | stmt_upsert_user (telegram_id : Z) (username : option string) (full_name : string)
                     (phone : option string)
  | stmt_set_user_role (username : string) (role : UserRole.t)
  | stmt_create_event (title : string) (date_start : date) (type : option string)
                      (date_end : option date) (time place description : option string)
                      (max_participants : Z) (status : EventStatus.t)
                      (created_by : option string)
  | stmt_update_event (event_id : Z) (fields : list db.EventField)
  | stmt_delete_event (event_id : Z)
  | stmt_register_for_event (event_id : Z) (full_name : string) (username : option string)
                            (telegram_id : option Z) (phone level comment : option string)
  | stmt_create_info (category title content : string)
  | stmt_update_info (info_id : Z) (fields : list db.InfoField)
  | stmt_delete_info (info_id : Z)
  | stmt_create_admin_request (username request_type : string) (telegram_id : option Z)
                              (full_name phone requested_table : option string)
                              (payload_json : option (gmap string PyVal))
                              (comment : option string)
  | stmt_approve_request (request_id : Z) (reviewed_by : option string)
  | stmt_reject_request (request_id : Z) (reviewed_by : option string)
  | stmt_grant_table_access (username table_name : string).

(** The database after a statement, whether it returned or raised. *)
Definition exec (s : Stmt) (d : DB) : DB :=
  match s with
  | stmt_upsert_user a b c e => snd (db.upsert_user a b c e d)
  | stmt_set_user_role a b => snd (db.set_user_role a b d)
  | stmt_create_event a b c e f g h i j k => snd (db.create_event a b c e f g h i j k d)
  | stmt_update_event a b => snd (db.update_event a b d)
  | stmt_delete_event a => snd (db.delete_event a d)
  | stmt_register_for_event a b c e f g h => snd (db.register_for_event a b c e f g h d)
  | stmt_create_info a b c => snd (db.create_info a b c d)
  | stmt_update_info a b => snd (db.update_info a b d)
  | stmt_delete_info a => snd (db.delete_info a d)
  | stmt_create_admin_request a b c e f g h i =>
      snd (db.create_admin_request a b c e f g h i d)
  | stmt_approve_request a b => snd (db.approve_request a b d)
  | stmt_reject_request a b => snd (db.reject_request a b d)
  | stmt_grant_table_access a b => snd (db.grant_table_access a b d)
  end.

Definition execs (l : list Stmt) (d : DB) : DB := foldl (fun d s => exec s d) d l.

(** The status a decision gives. *)
Definition outcome (approve : bool) : RequestStatus.t :=
  if approve then RequestStatus.APPROVED else RequestStatus.REJECTED.

(** Every row of request [rid] is decided. *)
Definition settled (rid : Z) (d : DB) : Prop :=
  forall r, r ∈ admin_requests d -> AdminRequest.id r = rid ->
            AdminRequest.status r <> RequestStatus.PENDING.

(** An optional text as the handlers store it: the text, or [None]. *)
Definition py_opt (s : option string) : PyVal :=
  match s with Some x => PStr x | None => PNone end.

(** The sequences are ahead of every id handed out. *)
Definition fresh_ids (d : DB) : Prop :=
  Forall (fun e => Event.id e < events_id_seq d) (events d)
  /\ Forall (fun r => EventRegistration.id r < event_registrations_id_seq d)
            (event_registrations d)
  /\ Forall (fun i => Info.id i < info_id_seq d) (info d)
  /\ Forall (fun r => AdminRequest.id r < admin_requests_id_seq d) (admin_requests d)
  /\ Forall (fun a => TableAccess.id a < admin_table_access_id_seq d)
            (admin_table_access d).

(** The world right after the approval committed. *)
Definition approved_world (rid : Z) (reviewer : option string) (w : World) : World :=
  set_database
    (set_admin_requests
       (map (fun x => if db.pending_with_id rid x
                      then db.reviewed RequestStatus.APPROVED reviewer
                                       (clock (database w)) x
                      else x))) w.

(** The five conversation flows, with what each registers, the
    acknowledgement of [/cancel], the confirm state, and the button and
    the text of a decline there. *)
Inductive Flow : Type :=
  | Registration | EventCreation | InfoCreation | TextCommand | Broadcast.

Definition conversation `{Builtins} `{Claude} (f : Flow) : ConversationHandler :=
  match f with
  | Registration => reg_conv
  | EventCreation => evt_conv
  | InfoCreation => info_conv
  | TextCommand => ai_conv
  | Broadcast => bc_conv
  end.

Definition cancelled (f : Flow) : Text :=
  match f with
  | Registration => RegCancelled
  | EventCreation => EvtCancelled
  | InfoCreation => InfoCancelled
  | TextCommand => AiCancelled
  | Broadcast => BroadcastCancelled
  end.

Definition confirm_state (f : Flow) : Z :=
  match f with
  | Registration => CONFIRM
  | EventCreation => EVT_CONFIRM
  | InfoCreation => INFO_CONFIRM
  | TextCommand => WAIT_CONFIRM
  | Broadcast => BC_CONFIRM
  end.

Definition decline (f : Flow) : CallbackData :=
  match f with
  | Registration => cb_reg_confirm false
  | EventCreation => cb_evt_confirm false
  | InfoCreation => cb_info_confirm false
  | TextCommand => cb_ai_confirm false
  | Broadcast => cb_bc_confirm false
  end.

Definition declined (f : Flow) : Text :=
  match f with
  | Registration => RegCancelled
  | EventCreation => EvtDeclined
  | InfoCreation => Declined
  | TextCommand => Declined
  | Broadcast => BroadcastCancelled
  end.

(** The keys of [context.user_data] that the entry points write. *)
Definition entry_keys : list string :=
  ["db_user"; "reg_event_id"; "reg_event_title"; "reg_name"].

(** ** The admin panel, the admin application and the quick commands

    The handlers below send their texts as they are, so the texts are
    spelled out.  The inline keyboards that go with some of them are not
    recorded. *)

(** A line break inside a text. *)
Definition nl : string := String (ascii_of_nat 10) EmptyString.

(** [s or '—'] *)
Definition or_dash (s : option string) : string :=
  match nonempty s with Some x => x | None => "—" end.

(** [str.lower()], which Python defines on all of Unicode. *)
Class StrLower : Type := { str_lower : string -> string }.

(** [s.lstrip("@")] *)
Fixpoint lstrip_at (s : string) : string :=
  match s with
  | String c r => if Ascii.eqb c "@"%char then lstrip_at r else s
  | EmptyString => EmptyString
  end.

(** [UserRole(value)] and [role.value] *)
Definition user_role_of_value (s : string) : option UserRole.t :=
  if String.eqb s "user" then Some UserRole.USER
  else if String.eqb s "admin" then Some UserRole.ADMIN
  else if String.eqb s "super_admin" then Some UserRole.SUPER_ADMIN
  else None.
Definition user_role_value (r : UserRole.t) : string :=
  match r with
  | UserRole.USER => "user"
  | UserRole.ADMIN => "admin"
  | UserRole.SUPER_ADMIN => "super_admin"
  end.

(** The buttons of the admin panel that change something, with the id
    parsed out of [query.data]:
    [adm:event_activate:<digits>], [adm:event_archive:<digits>],
    [adm:info_delete:<digits>].  The listings and the spreadsheet export
    behind the other buttons are not modelled. *)
Inductive PanelData : Type :=
  | adm_event_activate (event_id : Z)
  | adm_event_archive (event_id : Z)
  | adm_info_delete (info_id : Z).

(** *** [roles.py] *)

Definition is_admin_or_above (telegram_id : Z) : Eff World bool :=
  user <- lift_db (db.get_user telegram_id) ;;
  ret (match user with
       | Some u => bool_decide (User.role u ∈ [UserRole.ADMIN; UserRole.SUPER_ADMIN])
       | None => false
       end).

(** *** [handlers/admin.py] *)

Definition cmd_admin_body (update : Update) : Eff World (option Z) :=
  run reply (Body (PStr "Панель администратора:")) ;;
  ret None.
Definition cmd_admin : Update -> Eff World (option Z) :=
  require_role [UserRole.ADMIN; UserRole.SUPER_ADMIN] cmd_admin_body.

Definition cmd_apply_admin (update : Update) : Eff World (option Z) :=
  let tg := effective_user update in
  user <- lift_db (db.get_user (tg_id tg)) ;;
  match user with
  | None =>
      run reply (Body (PStr "Сначала отправьте /start.")) ;;
      ret None
  | Some user =>
      if bool_decide (User.role user ∈ [UserRole.ADMIN; UserRole.SUPER_ADMIN]) then
        run reply (Body (PStr "Вы уже являетесь администратором.")) ;;
        ret None
      else
        req <- lift_db (db.create_admin_request
                  (match nonempty (tg_username tg) with
                   | Some n => n
                   | None => str_of_int (tg_id tg)
                   end)
                  "admin_access"
                  (Some (tg_id tg))
                  (Some (User.full_name user)) (User.phone user) None None
                  (Some "Заявка на получение прав админа")) ;;
        run reply (Body (PStr ("Ваша заявка #" +:+ str_of_int (AdminRequest.id req)
                               +:+ " отправлена на рассмотрение. Ожидайте."))) ;;
        (* notify super-admins *)
        sa_ids <- lift_db db.get_super_admin_ids ;;
        run notify_super_admins sa_ids
              (Body (PStr ("Новая заявка на админство #"
                           +:+ str_of_int (AdminRequest.id req) +:+ nl
                           +:+ "От: " +:+ User.full_name user
                           +:+ " (@" +:+ or_dash (tg_username tg) +:+ ")" +:+ nl
                           +:+ "Телефон: " +:+ or_dash (User.phone user)))) ;;
        ret None
  end.

Definition _event_activate (event_id : Z) : Eff World unit :=
  db_user <- cached_db_user ;;
  (* only super_admin can directly activate; admins create a request *)
  if match db_user with
     | Some u => bool_decide (User.role u = UserRole.SUPER_ADMIN)
     | None => false
     end
  then
    event <- lift_db (db.activate_event event_id) ;;
    match event with
    | Some event =>
        reply (Body (PStr ("Мероприятие «" +:+ Event.title event +:+ "» активировано.")))
    | None => reply (Body (PStr "Ошибка активации."))
    end
  else
    event <- lift_db (db.get_event event_id) ;;
    match event with
    | None => reply EventNotFound
    | Some event =>
        match db_user with
        | None => raise AttributeError
        | Some u =>
            req <- lift_db (db.create_admin_request
                      (match nonempty (User.username u) with
                       | Some n => n
                       | None => str_of_int (User.telegram_id u)
                       end)
                      "event_activation"
                      (Some (User.telegram_id u))
                      (Some (User.full_name u)) None None
                      (Some {[ "event_id" := PInt event_id;
                               "event_title" := PStr (Event.title event) ]})
                      (Some ("Запрос на активацию мероприятия «"
                             +:+ Event.title event +:+ "»"))) ;;
            run reply (Body (PStr ("Заявка #" +:+ str_of_int (AdminRequest.id req)
                                   +:+ " на активацию «" +:+ Event.title event
                                   +:+ "» отправлена супер-админу."))) ;;
            (* notify super-admins *)
            sa_ids <- lift_db db.get_super_admin_ids ;;
            notify_super_admins sa_ids
              (Body (PStr ("Заявка #" +:+ str_of_int (AdminRequest.id req)
                           +:+ ": активация мероприятия «" +:+ Event.title event
                           +:+ "»" +:+ nl +:+ "От: @" +:+ or_dash (User.username u))))
        end
    end.

Definition _event_archive (event_id : Z) : Eff World unit :=
  event <- lift_db (db.archive_event event_id) ;;
  match event with
  | Some event =>
      reply (Body (PStr ("Мероприятие «" +:+ Event.title event +:+ "» архивировано.")))
  | None => reply (Body (PStr "Ошибка архивации."))
  end.

Definition _info_delete (info_id : Z) : Eff World unit :=
  ok <- lift_db (db.delete_info info_id) ;;
  if ok : bool then reply (Body (PStr "Информация удалена."))
  else reply (Body (PStr "Не удалось удалить.")).

(** The callback router of the panel, for the buttons of [PanelData]. *)
Definition admin_callback_body (data : PanelData) (update : Update)
    : Eff World (option Z) :=
  run match data with
      | adm_event_activate event_id => _event_activate event_id
      | adm_event_archive event_id => _event_archive event_id
      | adm_info_delete info_id => _info_delete info_id
      end ;;
  ret None.
Definition admin_callback (data : PanelData) : Update -> Eff World (option Z) :=
  require_role [UserRole.ADMIN; UserRole.SUPER_ADMIN] (admin_callback_body data).

(** *** [handlers/super_admin.py] *)

(** [/set_role <username> <role>]; [args] is [context.args], the words
    after the command. *)
Definition cmd_set_role_body `{StrLower} (args : list string) (update : Update)
    : Eff World (option Z) :=
  match args with
  | a0 :: a1 :: _ =>
      let username := lstrip_at a0 in
      let role_str := str_lower a1 in
      match user_role_of_value role_str with
      | None =>
          run reply (Body (PStr ("Неизвестная роль: " +:+ role_str
                                 +:+ ". Допустимые: user, admin, super_admin"))) ;;
          ret None
      | Some role =>
          ok <- lift_db (db.set_user_role username role) ;;
          run (if ok : bool
               then reply (Body (PStr ("Роль @" +:+ username +:+ " изменена на "
                                       +:+ user_role_value role +:+ ".")))
               else reply (Body (PStr ("Пользователь @" +:+ username +:+ " не найден.")))) ;;
          ret None
      end
  | _ =>
      run reply (Body (PStr "Использование: /set_role <username> <user|admin|super_admin>")) ;;
      ret None
  end.
Definition cmd_set_role `{StrLower} (args : list string) : Update -> Eff World (option Z) :=
  require_role [UserRole.SUPER_ADMIN] (cmd_set_role_body args).

(** *** [bot.py] *)

(** [post_init], after the pool is up: make sure the configured first
    super-admin has the role. *)
Definition post_init (SUPER_ADMIN_USERNAME : string) : Eff World unit :=
  run logger (LogInfo "Database initialised" []) ;;
  run logger (LogInfo "DB pool ready" []) ;;
  if negb (String.eqb SUPER_ADMIN_USERNAME "") then
    user <- lift_db (db.get_user_by_username SUPER_ADMIN_USERNAME) ;;
    match user with
    | Some u =>
        if negb (bool_decide (User.role u = UserRole.SUPER_ADMIN)) then
          run lift_db (db.set_user_role SUPER_ADMIN_USERNAME UserRole.SUPER_ADMIN) ;;
          logger (LogInfo "Set %s as super_admin" [PStr SUPER_ADMIN_USERNAME])
        else ret tt
    | None => ret tt
    end
  else ret tt.

(** The primary keys of the schema: no two rows of a table share one. *)
Definition primary_keys (d : DB) : Prop :=
  NoDup (map User.telegram_id (users d))
  /\ NoDup (map Event.id (events d))
  /\ NoDup (map EventRegistration.id (event_registrations d))
  /\ NoDup (map Info.id (info d))
  /\ NoDup (map AdminRequest.id (admin_requests d))
  /\ NoDup (map TableAccess.id (admin_table_access d)).

(** ** Notions for the further properties *)

(** A row of [users] with its role replaced. *)
Definition with_role (role : UserRole.t) (u : User.t) : User.t :=
  User.mk (User.telegram_id u) (User.username u) (User.full_name u)
          (User.phone u) role (User.created_at u).

(** [tg.username or str(tg.id)], the name a request is filed under. *)
Definition request_name (username : option string) (telegram_id : Z) : string :=
  match nonempty username with
  | Some n => n
  | None => str_of_int telegram_id
  end.

(** The rows of [users] after [UPDATE users SET role = $2 WHERE username = $1]. *)
Definition promoted (username : string) (role : UserRole.t) (us : list User.t)
    : list User.t :=
  map (fun v => if bool_decide (User.username v = Some username)
                then with_role role v else v) us.

(** The request a regular user files with [/apply_admin]. *)
Definition admin_application (tg : TgUser) (u : User.t) (d : DB) : AdminRequest.t :=
  AdminRequest.mk (admin_requests_id_seq d) (request_name (tg_username tg) (tg_id tg))
    (Some (tg_id tg)) (Some (User.full_name u)) (User.phone u) None "admin_access"
    None (Some "Заявка на получение прав админа") RequestStatus.PENDING None
    (clock d) None.

(** The rows of [events] after [UPDATE events SET status = .. WHERE id = $1]. *)
Definition with_status_at (st : EventStatus.t) (event_id : Z) (es : list Event.t)
    : list Event.t :=
  map (fun e => if bool_decide (Event.id e = event_id) then db.with_status st e else e) es.

(** The request an admin files with the "activate" button of the panel. *)
Definition activation_request (u : User.t) (event_id : Z) (title : string) (d : DB)
    : AdminRequest.t :=
  AdminRequest.mk (admin_requests_id_seq d)
    (request_name (User.username u) (User.telegram_id u))
    (Some (User.telegram_id u)) (Some (User.full_name u)) None None "event_activation"
    (Some {[ "event_id" := PInt event_id; "event_title" := PStr title ]})
    (Some ("Запрос на активацию мероприятия «" +:+ title +:+ "»"))
    RequestStatus.PENDING None (clock d) None.

(** What a collecting step of the registration flow makes of a message:
    nothing, when the stripped text is empty or is [/skip]. *)
Definition answer `{Builtins} (raw : string) : option string :=
  let text := str_strip raw in
  if negb (String.eqb text "") && negb (String.eqb text "/skip") then Some text else None.

(** The text of an update that the handlers of a collecting state of the
    registration flow take: a text that is no command, or the command
    [/skip]. *)
Definition answer_text (c : Content) : option string :=
  match c with
  | TextMessage text => Some text
  | Command name text => if String.eqb name "skip" then Some text else None
  | CallbackQuery _ => None
  end.

(** What an optional step of the event flow makes of a message: nothing,
    when the stripped text is [/skip]. *)
Definition optional_answer `{Builtins} (raw : string) : option string :=
  let text := str_strip raw in
  if String.eqb text "/skip" then None else Some text.

(** What the last step of the event flow makes of a message: the number
    read, and 0 for [/skip] and for a text that is no number. *)
Definition seats_answer `{Builtins} (raw : string) : Z :=
  let text := str_strip raw in
  if String.eqb text "/skip" then 0 else default 0 (int_of_str text).

(** The request an admin's new event is filed with. *)
Definition creation_request (u : User.t) (event_id : Z) (title : string) (d : DB)
    : AdminRequest.t :=
  AdminRequest.mk (admin_requests_id_seq d)
    (request_name (User.username u) (User.telegram_id u))
    (Some (User.telegram_id u)) (Some (User.full_name u)) None None "event_creation"
    (Some {[ "event_id" := PInt event_id; "event_title" := PStr title ]})
    (Some ("Новое мероприятие «" +:+ title +:+ "»"))
    RequestStatus.PENDING None (clock d) None.

(** [d.get(k)] on the items of a dictionary. *)
Definition dict_lookup (items : list (string * PyVal)) (k : string) : option PyVal :=
  snd <$> find (fun kv => String.eqb (fst kv) k) items.

(** [str.lower()] on ASCII text. *)
Definition ascii_lower_char (c : ascii) : ascii :=
  let n := nat_of_ascii c in
  if (65 <=? n)%nat && (n <=? 90)%nat then ascii_of_nat (n + 32) else c.
Fixpoint ascii_lower (s : string) : string :=
  match s with
  | EmptyString => EmptyString
  | String c r => String (ascii_lower_char c) (ascii_lower r)
  end.
Definition ascii_str_lower : StrLower := {| str_lower := ascii_lower |}.

(** [tg.full_name or tg.first_name or "Unknown"] *)
Definition start_name (tg : TgUser) : string :=
  if negb (String.eqb (tg_full_name tg) "") then tg_full_name tg
  else if negb (String.eqb (tg_first_name tg) "") then tg_first_name tg
  else "Unknown".

(** A language model that reads every text as the same command: a choir
    rehearsal at six, on no stated day. *)
Definition choir_command : list (string * PyVal) :=
  [("action", PStr "create_event");
   ("params", PDict [("title", PStr "Choir"); ("time", PStr "18:00")]);
   ("confirmation", PStr "Создать мероприятие «Choir»?")].
Definition choir_claude : Claude :=
  {| parse_admin_command := fun _ _ _ => PDict choir_command |}.

(** A language model that answers every text with a JSON list. *)
Definition list_claude : Claude :=
  {| parse_admin_command := fun _ _ _ => PList [PStr "create_event"] |}.

(** ** Every way an update reaches a handler

    The handlers that the [register] functions install and that are
    modelled above: the five conversations, each in whatever state it is
    for the actor, and the commands and buttons outside them. *)
Inductive Route : Type :=
  | route_conversation (f : Flow) (state : option Z)
  | route_start
  | route_admin
  | route_apply_admin
  | route_panel (data : PanelData)
  | route_decision
  | route_set_role (args : list string).

Definition dispatch `{Builtins} `{Claude} `{StrLower} (r : Route) (update : Update)
    : Eff World (option Z) :=
  match r with
  | route_conversation f state => handle_update (conversation f) state update
  | route_start => cmd_start update
  | route_admin => cmd_admin update
  | route_apply_admin => cmd_apply_admin update
  | route_panel data => admin_callback data update
  | route_decision => handle_request_decision update
  | route_set_role args => cmd_set_role args update
  end.

(** The routes behind the super-admin guard that can write a role. *)
Definition writes_roles (r : Route) : bool :=
  match r with
  | route_decision | route_set_role _ => true
  | _ => false
  end.

(** A computation relates the database before to the database after. *)
Definition keeps {A} (R : DB -> DB -> Prop) (m : Eff World A) : Prop :=
  forall w, R (database w) (database (snd (m w))).

(** No [SET] list of the statement assigns an id. *)
Definition keeps_ids (s : Stmt) : bool :=
  match s with
  | stmt_update_event _ fields =>
      match db.new_id fields with None => true | Some _ => false end
  | stmt_update_info _ fields =>
      match db.info_new_id fields with None => true | Some _ => false end
  | _ => true
  end.

(** The statements of [db.py] that assign no role and no id. *)
Definition plain_stmt (s : Stmt) : bool :=
  match s with stmt_set_user_role _ _ => false | _ => keeps_ids s end.

(** Nobody's role changed, and whoever is new is a plain user. *)
Definition roles_kept (d d' : DB) : Prop :=
  exists new,
    map (fun v => (User.telegram_id v, User.role v)) (users d')
    = map (fun v => (User.telegram_id v, User.role v)) (users d)
      ++ map (fun v => (User.telegram_id v, UserRole.USER)) new.

(** The bot serving updates one after the other, each by the handler it
    is routed to. *)
Fixpoint serve `{Builtins} `{Claude} `{StrLower} (l : list (Route * Update)) (w : World)
    : World :=
  match l with
  | [] => w
  | (r, update) :: rest => serve rest (snd (dispatch r update w))
  end.

(** The recipients, tried in order from attempt number [n] on, whose
    delivery fails. *)
Fixpoint undelivered (delivery : nat -> Z -> bool) (n : nat) (ids : list Z) : list Z :=
  match ids with
  | [] => []
  | tid :: rest =>
      (if delivery n tid then [] else [tid]) ++ undelivered delivery (S n) rest
  end.

(** * Properties *)

(** ** Unfolding computations *)

Ltac eff :=
  unfold bind, ret, raise, gets, modify, try_except, lift_db, reply, logger,
    user_data_set, user_data_get, user_data_item, message_text; cbn.

Lemma world_eta (w : World) :
  mkWorld (database w) (user_data w) (sent w) (replies w) (log w) (delivery w) (today w) = w.
Proof. by destruct w. Qed.

Lemma db_eta (d : DB) :
  mkDB (users d) (events d) (event_registrations d) (info d) (admin_requests d)
       (admin_table_access d) (events_id_seq d) (event_registrations_id_seq d)
       (info_id_seq d) (admin_requests_id_seq d) (admin_table_access_id_seq d)
       (clock d) = d.
Proof. by destruct d. Qed.

(** ** Broadcast fan-out *)

Lemma failures_le delivery ids : forall n, (failures delivery n ids <= length ids)%nat.
Proof.
  induction ids as [|tid rest IH]; intros n; cbn; [lia|].
  specialize (IH (S n)). destruct (delivery n tid); lia.
Qed.

Lemma broadcast_loop_spec (message : Text) (ids : list Z) :
  forall (acc : Z) (w : World),
    broadcast_loop message ids acc w =
      (Ok (acc + Z.of_nat (length ids)
           - Z.of_nat (failures (delivery w) (length (sent w)) ids)),
       set_sent (fun l => l ++ map (fun tid => (tid, message)) ids) w).
Proof.
  induction ids as [|tid rest IH]; intros acc w.
  - cbn. unfold ret, set_sent. rewrite app_nil_r, world_eta. do 2 f_equal. lia.
  - cbn [broadcast_loop]. unfold bind at 1, try_except, bind, send_message, ret.
    destruct (delivery w (length (sent w)) tid) eqn:Hd.
    + rewrite IH. cbn. rewrite Hd, length_app. cbn.
      replace (length (sent w) + 1)%nat with (S (length (sent w))) by lia.
      unfold set_sent; cbn. rewrite <- app_assoc. cbn. do 2 f_equal. lia.
    + rewrite IH. cbn. rewrite Hd, length_app. cbn.
      replace (length (sent w) + 1)%nat with (S (length (sent w))) by lia.
      unfold set_sent; cbn. rewrite <- app_assoc. cbn. do 2 f_equal. lia.
Qed.

Lemma set_database_same (w : World) : set_database (fun _ => database w) w = w.
Proof. by destruct w. Qed.

Lemma lift_db_gets {A} (f : DB -> A) (w : World) :
  lift_db (gets f) w = (Ok (f (database w)), w).
Proof. unfold lift_db, gets. by rewrite set_database_same. Qed.

(** C6.  Broadcast delivery tries every recipient, whatever fails on the
    way, and reports sent = |R| - k of total = |R|.  [R] is the list of all
    known identities, [k] the number of deliveries the transport refuses.
    Both fan-outs are covered: the confirm step of the broadcast
    conversation, which shows the tally to the sender, and the approval of
    a [broadcast] request with a message to send, which logs it. *)
Theorem broadcast_tally `{Builtins} (w : World) (tg : TgUser)
    (req : AdminRequest.t) (payload : gmap string PyVal) (message : PyVal) :
  AdminRequest.request_type req = "broadcast" ->
  AdminRequest.payload_json req = Some payload ->
  payload !! "message" = Some message ->
  truthy message = true ->
  let R := map User.telegram_id (users (database w)) in
  let k := failures (delivery w) (length (sent w)) R in
  let total := Z.of_nat (length R) in
  let bc_text := default (PStr "") (user_data w !! "bc_text") in
  broadcast_confirm (mkUpdate tg (CallbackQuery (cb_bc_confirm true))) w =
    (Ok (Some END),
     set_replies (fun l => l ++ [BroadcastReport (total - Z.of_nat k) total])
       (set_sent (fun l => l ++ map (fun tid => (tid, Body bc_text)) R) w))
  /\ _apply_approval req w =
    (Ok tt,
     set_log (fun l => l ++ [LogInfo "Broadcast sent to %d/%d users"
                                     [PInt (total - Z.of_nat k); PInt total]])
       (set_sent (fun l => l ++ map (fun tid => (tid, Body message)) R) w))
  /\ (k <= length R)%nat.
Proof.
  intros Hty Hpay Hmsg Htruthy R k total bc_text. split; [|split].
  - unfold broadcast_confirm. cbn. eff.
    rewrite set_database_same, broadcast_loop_spec. cbn. reflexivity.
  - unfold _apply_approval. rewrite Hty, Hpay. cbn. rewrite Hmsg. cbn.
    rewrite Htruthy. eff. rewrite set_database_same, broadcast_loop_spec. cbn. reflexivity.
  - apply failures_le.
Qed.

(** Three recipients, the second delivery fails: 2 of 3 are reported, and
    all three were tried. *)
Lemma broadcast_tally_witness :
  let w := sample.world sample.db0 in
  let u := mkUpdate sample.tg_root (CallbackQuery (cb_bc_confirm true)) in
  replies (snd (broadcast_confirm u w)) = [BroadcastReport 2 3]
  /\ map fst (sent (snd (broadcast_confirm u w))) = [1; 2; 7]
  /\ log (snd (@_apply_approval ascii_text.builtins sample.bc_request w)) =
       [LogInfo "Broadcast sent to %d/%d users" [PInt 2; PInt 3]].
Proof.
  intros w u.
  destruct (@broadcast_tally ascii_text.builtins w sample.tg_root sample.bc_request
              sample.bc_payload (PStr "Service at ten")
              eq_refl eq_refl eq_refl eq_refl) as (Hc & Ha & _).
  fold u in Hc. rewrite Hc, Ha. by vm_compute.
Defined.

(** ** Decisions on admin requests *)

Lemma existsb_false_elem {A} (p : A -> bool) (l : list A) :
  existsb p l = false -> forall x, x ∈ l -> p x = false.
Proof.
  intros Hex x Hx. destruct (p x) eqn:Hp; [|done].
  rewrite <- Hex. symmetry. apply existsb_exists. exists x.
  by rewrite <- list_elem_of_In.
Qed.

Lemma existsb_true_elem {A} (p : A -> bool) (l : list A) :
  existsb p l = true -> exists x, x ∈ l /\ p x = true.
Proof.
  intros (x & Hx & Hp)%existsb_exists. exists x. by rewrite list_elem_of_In.
Qed.

(** What a statement can do to [admin_requests]: nothing, append one row
    under a new id, or review the pending rows of one id. *)
Lemma exec_requests (s : Stmt) (d : DB) :
  admin_requests (exec s d) = admin_requests d
  \/ (exists row, admin_requests (exec s d) = admin_requests d ++ [row]
        /\ forall r, r ∈ admin_requests d -> AdminRequest.id r <> AdminRequest.id row)
  \/ (exists st rid rb,
        admin_requests (exec s d) =
          map (fun r => if db.pending_with_id rid r
                        then db.reviewed st rb (clock d) r else r)
              (admin_requests d)).
Proof.
  destruct s; cbn.
  - unfold db.upsert_user. repeat case_match; cbn; auto.
    unfold db.cascade_username. repeat case_match; cbn; auto.
  - auto.
  - unfold db.create_event, bind, db.nextval_events. cbn. repeat case_match; cbn; auto.
  - unfold db.update_event. repeat case_match; cbn; auto.
  - auto.
  - unfold db.register_for_event, bind, db.nextval_event_registrations. cbn.
    repeat case_match; cbn; auto.
  - unfold db.create_info, bind, db.nextval_info. cbn. repeat case_match; cbn; auto.
  - unfold db.update_info. repeat case_match; cbn; auto.
  - auto.
  - unfold db.create_admin_request, bind, db.nextval_admin_requests, ret, raise.
    repeat case_match; simplify_eq; cbn; auto.
    all: try (repeat case_match; simplify_eq; cbn; auto; fail).
    all: right; left; eexists; (split; [reflexivity|]); intros r Hr; cbn;
      match goal with
      | Hex : existsb _ _ = false |- _ =>
          apply (existsb_false_elem _ _ Hex) in Hr; by apply bool_decide_eq_false in Hr
      end.
  - right; right. eauto.
  - right; right. eauto.
  - unfold db.grant_table_access, bind, db.nextval_admin_table_access. cbn.
    repeat case_match; cbn; auto.
Qed.

Lemma map_fmap {A B} (f : A -> B) (l : list A) : map f l = f <$> l.
Proof. reflexivity. Qed.

Lemma elem_of_map {A B} (f : A -> B) (l : list A) (y : B) :
  y ∈ map f l <-> exists x, y = f x /\ x ∈ l.
Proof. rewrite map_fmap. apply list_elem_of_fmap. Qed.

Lemma lookup_map {A B} (f : A -> B) (l : list A) (i : nat) :
  map f l !! i = f <$> (l !! i).
Proof. rewrite map_fmap. apply list_lookup_fmap. Qed.

Lemma map_fixed {A} (f : A -> A) (l : list A) :
  (forall x, x ∈ l -> f x = x) -> map f l = l.
Proof.
  induction l as [|a l IH]; intros Hf; cbn; [done|].
  rewrite Hf by left. f_equal. apply IH. intros x Hx. apply Hf. by right.
Qed.

Lemma find_none_elem {A} (p : A -> bool) (l : list A) :
  (forall x, x ∈ l -> p x = false) -> find p l = None.
Proof.
  intros Hp. destruct (find p l) as [x|] eqn:Hf; [|done].
  apply find_some in Hf as [Hin Hx]. rewrite <- list_elem_of_In in Hin.
  rewrite Hp in Hx; done.
Qed.

Lemma find_some_elem {A} (p : A -> bool) (l : list A) (x : A) :
  find p l = Some x -> x ∈ l /\ p x = true.
Proof. intros [Hin Hx]%find_some. by rewrite list_elem_of_In. Qed.

Lemma settled_not_hit (rid : Z) (d : DB) :
  settled rid d -> forall r, r ∈ admin_requests d -> db.pending_with_id rid r = false.
Proof.
  intros Hs r Hr. unfold db.pending_with_id.
  destruct (decide (AdminRequest.id r = rid)) as [Hid|Hid].
  - rewrite (bool_decide_eq_false_2 (AdminRequest.status r = _)) by by apply Hs.
    by rewrite andb_false_r.
  - by rewrite (bool_decide_eq_false_2 _ Hid).
Qed.

(** A decision attempted on a settled request returns no row and changes
    nothing. *)
Lemma settled_decision_noop (rid : Z) (reviewer : option string) (d : DB) :
  settled rid d ->
  db.approve_request rid reviewer d = (Ok None, d)
  /\ db.reject_request rid reviewer d = (Ok None, d).
Proof.
  intros Hs. pose proof (settled_not_hit rid d Hs) as Hn.
  unfold db.approve_request, db.reject_request.
  rewrite (find_none_elem _ _ Hn). cbn. unfold set_admin_requests.
  rewrite !map_fixed, db_eta; [done| |]; intros r Hr; by rewrite Hn.
Qed.

(** Whatever a decision returns, it leaves the request settled. *)
Lemma decision_settles (approve : bool) (rid : Z) (reviewer : option string) (d : DB) :
  settled rid (snd ((if approve then db.approve_request else db.reject_request)
                      rid reviewer d)).
Proof.
  intros r' Hr' Hid.
  assert (exists r, r ∈ admin_requests d /\
            r' = if db.pending_with_id rid r
                 then db.reviewed (outcome approve) reviewer (clock d) r else r)
    as (r & Hr & ->).
  { destruct approve; cbn in Hr'; apply elem_of_map in Hr' as (r & -> & Hr); eauto. }
  destruct (db.pending_with_id rid r) eqn:Hhit.
  - by destruct approve.
  - cbn in Hid. unfold db.pending_with_id in Hhit.
    rewrite (bool_decide_eq_true_2 _ Hid) in Hhit. cbn in Hhit.
    by apply bool_decide_eq_false in Hhit.
Qed.

(** A decision that returns a row found it pending, and returns it reviewed. *)
Lemma decision_some (approve : bool) (rid : Z) (reviewer : option string)
    (d d' : DB) (r' : AdminRequest.t) :
  (if approve then db.approve_request rid reviewer d
   else db.reject_request rid reviewer d) = (Ok (Some r'), d') ->
  (exists r, r ∈ admin_requests d /\ AdminRequest.id r = rid
             /\ AdminRequest.status r = RequestStatus.PENDING
             /\ r' = db.reviewed (outcome approve) reviewer (clock d) r)
  /\ r' ∈ admin_requests d'.
Proof.
  intros Hdec.
  assert (exists r, find (db.pending_with_id rid) (admin_requests d) = Some r
            /\ r' = db.reviewed (outcome approve) reviewer (clock d) r
            /\ admin_requests d' =
                 map (fun r => if db.pending_with_id rid r
                               then db.reviewed (outcome approve) reviewer (clock d) r
                               else r) (admin_requests d))
    as (r & Hfind & -> & Hd').
  { destruct approve; unfold db.approve_request, db.reject_request in Hdec;
      destruct (find _ _) as [r|]; simplify_eq/=; eauto. }
  apply find_some_elem in Hfind as [Hr Hhit].
  pose proof Hhit as Hhit'.
  unfold db.pending_with_id in Hhit. apply andb_true_iff in Hhit as [Hid Hst].
  apply bool_decide_eq_true in Hid, Hst. split.
  - exists r. eauto.
  - rewrite Hd'. apply elem_of_map. exists r. by rewrite Hhit'.
Qed.

(** No statement touches a settled request: its rows stay where they are,
    as they are, and it stays settled. *)
Lemma exec_settled (rid : Z) (s : Stmt) (d : DB) :
  (exists r, r ∈ admin_requests d /\ AdminRequest.id r = rid) ->
  settled rid d ->
  (exists r, r ∈ admin_requests (exec s d) /\ AdminRequest.id r = rid)
  /\ settled rid (exec s d)
  /\ forall i r, admin_requests d !! i = Some r -> AdminRequest.id r = rid ->
                 admin_requests (exec s d) !! i = Some r.
Proof.
  intros (r0 & Hr0 & Hid0) Hs. unfold settled in *.
  destruct (exec_requests s d) as [-> | [(row & -> & Hfresh) | (st & rid2 & rb & ->)]].
  - split; [eauto|split; [done|auto]].
  - split; [|split].
    + exists r0. split; [|done]. apply elem_of_app. by left.
    + intros r [Hr | ->%list_elem_of_singleton]%elem_of_app Hid; [by apply Hs|].
      exfalso. apply (Hfresh r0 Hr0). congruence.
    + intros i r Hi _. by apply lookup_app_l_Some.
  - assert (forall r, r ∈ admin_requests d -> AdminRequest.id r = rid ->
                      db.pending_with_id rid2 r = false) as Hmiss.
    { intros r Hr Hid. unfold db.pending_with_id.
      rewrite (bool_decide_eq_false_2 (AdminRequest.status r = _)) by by apply Hs.
      by rewrite andb_false_r. }
    split; [|split].
    + exists r0. split; [|done]. apply elem_of_map. exists r0.
      by rewrite Hmiss.
    + intros r' (r & -> & Hr)%elem_of_map Hid.
      destruct (db.pending_with_id rid2 r) eqn:Hhit.
      * cbn in Hid. rewrite Hmiss in Hhit; done.
      * by apply Hs.
    + intros i r Hi Hid. rewrite lookup_map, Hi. cbn.
      rewrite Hmiss; [done| |done]. by eapply list_elem_of_lookup_2.
Qed.

Lemma execs_settled (rid : Z) (l : list Stmt) :
  forall d,
  (exists r, r ∈ admin_requests d /\ AdminRequest.id r = rid) ->
  settled rid d ->
  settled rid (execs l d)
  /\ forall i r, admin_requests d !! i = Some r -> AdminRequest.id r = rid ->
                 admin_requests (execs l d) !! i = Some r.
Proof.
  induction l as [|s l IH]; intros d Hk Hs; cbn; [done|].
  destruct (exec_settled rid s d Hk Hs) as (Hk' & Hs' & Hrows).
  destruct (IH _ Hk' Hs') as [Hs'' Hrows'']. split; [done|].
  intros i r Hi Hid. apply Hrows''; [|done]. by apply Hrows.
Qed.

Lemma bind_ok {S A B} (m : Eff S A) (k : A -> Eff S B) (s s' : S) (a : A) :
  m s = (Ok a, s') -> bind m k s = k a s'.
Proof. unfold bind. by intros ->. Qed.

Lemma bind_raise {S A B} (m : Eff S A) (k : A -> Eff S B) (s s' : S) (e : Exn) :
  m s = (Raise e, s') -> bind m k s = (Raise e, s').
Proof. unfold bind. by intros ->. Qed.

Lemma lift_db_eq {A} (m : Eff DB A) (w : World) (r : Result A) (d : DB) :
  m (database w) = (r, d) -> lift_db m w = (r, set_database (fun _ => d) w).
Proof. unfold lift_db. by intros ->. Qed.

(** The decorator lets a user with an allowed role through, after caching
    the user's row. *)
Lemma require_role_allowed (allowed : list UserRole.t)
    (func : Update -> Eff World (option Z)) (update : Update) (w : World) (u : User.t) :
  find (fun v => bool_decide (User.telegram_id v = tg_id (effective_user update)))
       (users (database w)) = Some u ->
  User.role u ∈ allowed ->
  require_role allowed func update w =
    func update (set_user_data (insert "db_user" (PUser u)) w).
Proof.
  intros Hfind Hrole. unfold require_role, db.get_user.
  unfold bind at 1. rewrite lift_db_gets, Hfind.
  rewrite (bool_decide_eq_true_2 _ Hrole). by eff.
Qed.

Lemma cached_db_user_set (u : User.t) (w : World) :
  cached_db_user (set_user_data (insert "db_user" (PUser u)) w) =
    (Ok (Some u), set_user_data (insert "db_user" (PUser u)) w).
Proof.
  unfold cached_db_user. eff. by rewrite lookup_insert_eq.
Qed.

(** C1.  A decision succeeds, and returns the request as updated, only if
    the request was still pending when the update ran.  From then on every
    approve or reject of the same request id, whatever statements ran in
    between, returns no record, changes nothing, and is answered to the
    reviewer with "already handled"; the rows of the request stay as the
    decision left them. *)
Theorem decision_at_most_once `{Builtins}
    (d d' : DB) (rid : Z) (approve : bool) (reviewer : option string)
    (r' : AdminRequest.t) (later : list Stmt)
    (approve2 : bool) (tg : TgUser) (su : User.t) (w : World) :
  (if approve then db.approve_request rid reviewer d
   else db.reject_request rid reviewer d) = (Ok (Some r'), d') ->
  database w = execs later d' ->
  find (fun v => bool_decide (User.telegram_id v = tg_id tg)) (users (database w)) = Some su ->
  User.role su = UserRole.SUPER_ADMIN ->
  (exists r, r ∈ admin_requests d /\ AdminRequest.id r = rid
             /\ AdminRequest.status r = RequestStatus.PENDING
             /\ r' = db.reviewed (outcome approve) reviewer (clock d) r)
  /\ AdminRequest.status r' = outcome approve
  /\ (forall reviewer2,
        db.approve_request rid reviewer2 (database w) = (Ok None, database w)
        /\ db.reject_request rid reviewer2 (database w) = (Ok None, database w))
  /\ handle_request_decision (mkUpdate tg (CallbackQuery (cb_sa approve2 rid))) w =
       (Ok None,
        set_replies (fun l => l ++ [AlreadyHandled rid])
          (set_user_data (insert "db_user" (PUser su)) w))
  /\ (forall i r, admin_requests d' !! i = Some r -> AdminRequest.id r = rid ->
                  admin_requests (database w) !! i = Some r
                  /\ AdminRequest.status r <> RequestStatus.PENDING).
Proof.
  intros Hdec Hw Hsu Hrole.
  destruct (decision_some _ _ _ _ _ _ Hdec) as [(r & Hr & Hid & Hst & ->) Hr'].
  assert (settled rid d') as Hs'.
  { pose proof (decision_settles approve rid reviewer d) as Hs.
    destruct approve; by rewrite Hdec in Hs. }
  assert (exists r0, r0 ∈ admin_requests d' /\ AdminRequest.id r0 = rid) as Hk'.
  { eexists. split; [exact Hr'|done]. }
  destruct (execs_settled rid later d' Hk' Hs') as [Hs Hrows].
  rewrite <- Hw in Hs, Hrows.
  split; [eauto|]. split; [done|]. split; [|split].
  - intros reviewer2. by apply settled_decision_noop.
  - unfold handle_request_decision.
    rewrite (require_role_allowed _ _ _ _ su); [|done|by apply list_elem_of_singleton].
    unfold handle_request_decision_body. cbn [content].
    unfold bind at 1. rewrite cached_db_user_set.
    destruct (settled_decision_noop rid (User.username su) (database w) Hs) as [Ha Hj].
    set (w1 := set_user_data _ w) in *.
    assert (database w1 = database w) as Hdb by done.
    rewrite <- Hdb in Ha, Hj.
    destruct approve2.
    + rewrite (bind_ok _ _ _ _ _ (lift_db_eq _ _ _ _ Ha)).
      rewrite set_database_same. by eff.
    + rewrite (bind_ok _ _ _ _ _ (lift_db_eq _ _ _ _ Hj)).
      rewrite set_database_same. by eff.
  - intros i r0 Hi Hid0. split; [by apply Hrows|].
    apply Hs'; [|done]. by eapply list_elem_of_lookup_2.
Qed.

(** Root approves Bob's request; a new request is filed and a second
    reviewer tries to reject the first one: it stays approved. *)
Lemma decision_at_most_once_witness :
  let later := [stmt_create_admin_request "ann" "admin_access" (Some 7) (Some "Ann")
                  None None None None;
                stmt_reject_request 1 (Some "bob")] in
  let w := sample.world (execs later (snd (db.approve_request 1 (Some "root") sample.db0))) in
  replies (snd (@handle_request_decision ascii_text.builtins
                  (mkUpdate sample.tg_root (CallbackQuery (cb_sa false 1))) w))
    = [AlreadyHandled 1]
  /\ map AdminRequest.status (admin_requests (database w))
     = [RequestStatus.APPROVED; RequestStatus.PENDING].
Proof.
  intros later w.
  destruct (@decision_at_most_once ascii_text.builtins sample.db0
              (snd (db.approve_request 1 (Some "root") sample.db0)) 1 true (Some "root")
              (db.reviewed RequestStatus.APPROVED (Some "root") 100 sample.bc_request)
              later false sample.tg_root sample.root w
              eq_refl eq_refl eq_refl eq_refl) as (_ & _ & _ & Hh & _).
  rewrite Hh. by vm_compute.
Defined.

(** ** Registrations *)

Lemma find_map_stable {A} (p : A -> bool) (f : A -> A) (l : list A) :
  (forall x, p (f x) = p x) -> find p (map f l) = f <$> find p l.
Proof.
  intros Hp. induction l as [|a l IH]; cbn; [done|].
  rewrite Hp. by destruct (p a).
Qed.

Lemma find_app_none {A} (p : A -> bool) (l : list A) (x : A) :
  find p l = None -> p x = true -> find p (l ++ [x]) = Some x.
Proof.
  intros Hl Hx. induction l as [|a l IH]; cbn in *; [by rewrite Hx|].
  destruct (p a); [done|]. by apply IH.
Qed.

Lemma length_filter_map_stable {A} (P : A -> Prop) `{!forall x, Decision (P x)}
    (f : A -> A) (l : list A) :
  (forall x, P (f x) <-> P x) -> length (filter P (map f l)) = length (filter P l).
Proof.
  intros HP. induction l as [|a l IH]; [done|]. cbn [map].
  rewrite !filter_cons. destruct (decide (P (f a))) as [Hfa|Hfa];
    destruct (decide (P a)) as [Ha|Ha]; cbn; try (by rewrite IH).
  - exfalso. by apply Ha, HP.
  - exfalso. by apply Hfa, HP.
Qed.

(** The conflict test only looks at the key, which [register_set] keeps. *)
Lemma reg_conflict_set event_id telegram_id full_name phone level comment r :
  db.reg_conflict event_id telegram_id (db.register_set full_name phone level comment r)
  = db.reg_conflict event_id telegram_id r.
Proof. done. Qed.

(** [register_for_event] with its sequence step written out. *)
Lemma register_for_event_eq (event_id : Z) (full_name : string)
    (username : option string) (telegram_id : option Z)
    (phone level comment : option string) (d : DB) :
  db.register_for_event event_id full_name username telegram_id phone level comment d =
    let d0 := set_event_registrations_id_seq (fun n => n + 1) d in
    match find (db.reg_conflict event_id telegram_id) (event_registrations d) with
    | Some old =>
        (Ok (if db.reg_conflict event_id telegram_id old
             then db.register_set full_name phone level comment old else old),
         set_event_registrations
           (map (fun r => if db.reg_conflict event_id telegram_id r
                          then db.register_set full_name phone level comment r else r)) d0)
    | None =>
        let row := EventRegistration.mk (event_registrations_id_seq d) event_id username
                     telegram_id full_name phone level comment (clock d) in
        if existsb (fun r => bool_decide (EventRegistration.id r = event_registrations_id_seq d))
                   (event_registrations d)
        then (Raise (UniqueViolationError "event_registrations_pkey"), d0)
        else if negb (db.fk_event_id (events d) event_id)
        then (Raise (ForeignKeyViolationError "event_registrations_event_id_fkey"), d0)
        else if negb (db.fk_telegram_id (users d) telegram_id)
        then (Raise (ForeignKeyViolationError "event_registrations_telegram_id_fkey"), d0)
        else (Ok row, set_event_registrations (fun rs => rs ++ [row]) d0)
    end.
Proof. reflexivity. Qed.

(** What [register_for_event] does when the actor already holds a row:
    the rows are updated in place and the first such row is returned. *)
Lemma register_existing (d : DB) (event_id tid : Z) (full_name : string)
    (username phone level comment : option string) (old : EventRegistration.t) :
  find (db.reg_conflict event_id (Some tid)) (event_registrations d) = Some old ->
  db.register_for_event event_id full_name username (Some tid) phone level comment d =
    (Ok (db.register_set full_name phone level comment old),
     set_event_registrations
       (map (fun r => if db.reg_conflict event_id (Some tid) r
                      then db.register_set full_name phone level comment r else r))
       (set_event_registrations_id_seq (fun n => n + 1) d)).
Proof.
  intros Hfind. rewrite register_for_event_eq. cbv zeta. rewrite Hfind.
  apply find_some_elem in Hfind as [_ Hhit]. by rewrite Hhit.
Qed.

(** After a successful registration of an actor, the returned row is the
    first row found under the actor's key. *)
Lemma register_then_find (d d1 : DB) (event_id tid : Z) (full_name : string)
    (username phone level comment : option string) (r1 : EventRegistration.t) :
  db.register_for_event event_id full_name username (Some tid) phone level comment d
    = (Ok r1, d1) ->
  find (db.reg_conflict event_id (Some tid)) (event_registrations d1) = Some r1.
Proof.
  rewrite register_for_event_eq. cbv zeta.
  destruct (find _ (event_registrations d)) as [old|] eqn:Hfind.
  - intros [= <- <-]. cbn [event_registrations set_event_registrations].
    rewrite find_map_stable.
    + cbn [event_registrations set_event_registrations_id_seq]. rewrite Hfind. reflexivity.
    + intros x. unfold db.reg_conflict.
      destruct (bool_decide (EventRegistration.event_id x = event_id)
                && bool_decide (EventRegistration.telegram_id x = Some tid)) eqn:Hx;
        cbn; by rewrite ?Hx.
  - repeat case_match; try done. intros [= <- <-].
    cbn [event_registrations set_event_registrations].
    apply find_app_none; [done|]. cbn. by rewrite !bool_decide_eq_true_2.
Qed.

(** C2.  Registering a second time under the same (event, telegram
    identifier) updates the row of the first registration where it is:
    [full_name], [phone], [level] and [comment] are overwritten, nothing
    else of the row changes, no row is added, and the number of
    registrations of every event is what it was after the first call. *)
Theorem register_twice_in_place (d d1 : DB) (event_id tid : Z)
    (name1 name2 : string) (username1 username2 : option string)
    (phone1 level1 comment1 phone2 level2 comment2 : option string)
    (r1 : EventRegistration.t) :
  db.register_for_event event_id name1 username1 (Some tid) phone1 level1 comment1 d
    = (Ok r1, d1) ->
  let second := db.register_for_event event_id name2 username2 (Some tid)
                  phone2 level2 comment2 d1 in
  fst second = Ok (db.register_set name2 phone2 level2 comment2 r1)
  /\ event_registrations (snd second) =
       map (fun r => if db.reg_conflict event_id (Some tid) r
                     then db.register_set name2 phone2 level2 comment2 r else r)
           (event_registrations d1)
  /\ length (event_registrations (snd second)) = length (event_registrations d1)
  /\ forall e, fst (db.count_event_registrations e (snd second))
               = fst (db.count_event_registrations e d1).
Proof.
  intros Hfirst second. subst second.
  rewrite (register_existing d1 event_id tid name2 username2 phone2 level2 comment2 r1)
    by by eapply register_then_find.
  cbn [fst snd event_registrations set_event_registrations
       set_event_registrations_id_seq].
  split; [done|]. split; [done|]. split; [by rewrite length_map|].
  intros e. unfold db.count_event_registrations, gets.
  cbn [fst event_registrations set_event_registrations set_event_registrations_id_seq].
  do 2 f_equal. apply length_filter_map_stable.
  intros r. by destruct (db.reg_conflict event_id (Some tid) r).
Qed.

(** Ann is registered for the picnic and registers again with a phone:
    still one row, the same row, with the new phone. *)
Lemma register_twice_in_place_witness :
  let first := db.register_for_event 1 "Ann" (Some "ann") (Some 7) None None None
                 (set_event_registrations (fun _ => []) sample.db0) in
  let second := db.register_for_event 1 "Ann B." (Some "ann") (Some 7) (Some "555")
                  None None (snd first) in
  (EventRegistration.id <$> event_registrations (snd first)) = [2]
  /\ (EventRegistration.id <$> event_registrations (snd second)) = [2]
  /\ (EventRegistration.phone <$> event_registrations (snd second)) = [Some "555"]
  /\ fst (db.count_event_registrations 1 (snd second)) = Ok 1.
Proof.
  intros first second.
  destruct (register_twice_in_place
              (set_event_registrations (fun _ => []) sample.db0) (snd first) 1 7
              "Ann" "Ann B." (Some "ann") (Some "ann") None None None (Some "555")
              None None
              (EventRegistration.mk 2 1 (Some "ann") (Some 7) "Ann" None None None 100)
              eq_refl) as (_ & Hrows & _ & Hcount).
  fold second in Hrows, Hcount. rewrite Hrows, Hcount. by vm_compute.
Defined.

(** ** Capacity *)

(** One step of a computation: a read of the database, or a pure effect. *)
Ltac read_db := erewrite bind_ok; [|by apply lift_db_gets].

Lemma reg_start_full (w : World) (tg : TgUser) (event_id : Z) (event : Event.t) :
  find (fun e => bool_decide (Event.id e = event_id)) (events (database w)) = Some event ->
  0 < Event.max_participants event ->
  Event.max_participants event
    <= Z.of_nat (length (filter (fun r => EventRegistration.event_id r = event_id)
                                (event_registrations (database w)))) ->
  reg_start (mkUpdate tg (CallbackQuery (cb_reg_start event_id))) w =
    (Ok (Some END), set_replies (fun l => l ++ [NoSeatsLeft (Event.title event)]) w).
Proof.
  intros Hev Hpos Hfull. unfold reg_start. cbn [content].
  read_db. rewrite Hev.
  rewrite (proj2 (Z.ltb_lt _ _) Hpos).
  erewrite bind_ok; [|erewrite bind_ok; [|by apply lift_db_gets]; reflexivity].
  rewrite (proj2 (Z.leb_le _ _) Hfull). reflexivity.
Qed.

Lemma reg_start_open (w : World) (tg : TgUser) (event_id : Z) (event : Event.t) :
  find (fun e => bool_decide (Event.id e = event_id)) (events (database w)) = Some event ->
  Event.max_participants event <= 0
  \/ Z.of_nat (length (filter (fun r => EventRegistration.event_id r = event_id)
                              (event_registrations (database w))))
     < Event.max_participants event ->
  exists prompt,
    prompt <> NoSeatsLeft (Event.title event) /\
    reg_start (mkUpdate tg (CallbackQuery (cb_reg_start event_id))) w =
      (Ok (Some ASK_NAME),
       set_replies (fun l => l ++ [prompt])
         (set_user_data
            (fun ud =>
               let ud' := <["reg_event_title" := PStr (Event.title event)]>
                            (<["reg_event_id" := PInt event_id]> ud) in
               match find (fun u => bool_decide (User.telegram_id u = tg_id tg))
                          (users (database w)) with
               | Some u => if String.eqb (User.full_name u) "" then ud'
                           else <["reg_name" := PStr (User.full_name u)]> ud'
               | None => ud'
               end) w)).
Proof.
  intros Hev Hopen. unfold reg_start. cbn [content].
  read_db. rewrite Hev.
  assert ((if 0 <? Event.max_participants event
           then count <- lift_db (db.count_event_registrations event_id) ;;
                ret (Event.max_participants event <=? count)
           else ret false) w = (Ok false, w)) as Hgate.
  { destruct (Z.ltb_spec 0 (Event.max_participants event)) as [Hpos|Hle]; [|done].
    read_db. unfold ret. do 2 f_equal. apply Z.leb_gt. lia. }
  rewrite (bind_ok _ _ _ _ _ Hgate). eff.
  destruct (find _ (users (database w))) as [u|] eqn:Hu; cbn.
  - destruct (String.eqb (User.full_name u) "") eqn:Hname; cbn.
    + eexists. split; [|reflexivity]. done.
    + eexists. split; [|reflexivity]. done.
  - eexists. split; [|reflexivity]. done.
Qed.

(** From here on the statements of [db.py] are unfolded by name only. *)
Arguments db.register_for_event : simpl never.
Arguments db.create_event : simpl never.
Arguments db.create_admin_request : simpl never.
Arguments db.update_event : simpl never.
Arguments db.activate_event : simpl never.
Arguments db.upsert_user : simpl never.
Arguments db.set_user_role : simpl never.
Arguments db.grant_table_access : simpl never.
Arguments db.approve_request : simpl never.
Arguments db.reject_request : simpl never.
Arguments db.create_info : simpl never.

(** An existing registrant who confirms: the row is updated where it is. *)
Lemma confirm_existing (w : World) (tg : TgUser) (event_id : Z)
    (old : EventRegistration.t) (name : string) (phone level : option string)
    (title : PyVal) :
  find (db.reg_conflict event_id (Some (tg_id tg)))
       (event_registrations (database w)) = Some old ->
  user_data w !! "reg_event_id" = Some (PInt event_id) ->
  user_data w !! "reg_name" = Some (PStr name) ->
  user_data w !! "reg_phone" = Some (py_opt phone) ->
  user_data w !! "reg_level" = Some (py_opt level) ->
  user_data w !! "reg_event_title" = Some title ->
  confirm (mkUpdate tg (CallbackQuery (cb_reg_confirm true))) w =
    (Ok (Some END),
     set_replies (fun l => l ++ [Registered title])
       (set_database
          (fun d => set_event_registrations
                      (map (fun r => if db.reg_conflict event_id (Some (tg_id tg)) r
                                     then db.register_set name phone level None r else r))
                      (set_event_registrations_id_seq (fun n => n + 1) d)) w)).
Proof.
  intros Hold Hid Hname Hphone Hlevel Htitle.
  unfold confirm. cbn [content negb effective_user]. eff.
  rewrite Hid, Hname, Hphone, Hlevel. cbn.
  destruct phone as [p|], level as [l|]; cbn;
    rewrite (register_existing _ _ _ _ _ _ _ _ old) by done;
    cbn; by rewrite Htitle.
Qed.

(** C3, as the code has it.  A full event (max_participants = N > 0 and at
    least N registrations) turns away whoever presses the registration
    button, a new actor or one who already holds a registration: the
    capacity message is shown, the conversation does not start, nothing is
    stored.  An event with seats left, or with max_participants = 0 (or
    below), lets the flow start; an actor who already holds a registration
    and confirms has the row updated where it is, the count unchanged. *)
Theorem capacity_gate `{Builtins} (w w2 : World) (tg : TgUser) (event_id : Z)
    (event : Event.t) :
  find (fun e => bool_decide (Event.id e = event_id)) (events (database w)) = Some event ->
  let count (d : DB) :=
    Z.of_nat (length (filter (fun r => EventRegistration.event_id r = event_id)
                             (event_registrations d))) in
  let button := mkUpdate tg (CallbackQuery (cb_reg_start event_id)) in
  (0 < Event.max_participants event /\ Event.max_participants event <= count (database w) ->
     reg_start button w =
       (Ok (Some END), set_replies (fun l => l ++ [NoSeatsLeft (Event.title event)]) w)
     /\ handle_update reg_conv None button w =
       (Ok None, set_replies (fun l => l ++ [NoSeatsLeft (Event.title event)]) w))
  /\ (Event.max_participants event <= 0
      \/ count (database w) < Event.max_participants event ->
      exists prompt,
        prompt <> NoSeatsLeft (Event.title event)
        /\ fst (reg_start button w) = Ok (Some ASK_NAME)
        /\ replies (snd (reg_start button w)) = replies w ++ [prompt]
        /\ database (snd (reg_start button w)) = database w)
  /\ (forall old name phone level title,
        find (db.reg_conflict event_id (Some (tg_id tg)))
             (event_registrations (database w2)) = Some old ->
        user_data w2 !! "reg_event_id" = Some (PInt event_id) ->
        user_data w2 !! "reg_name" = Some (PStr name) ->
        user_data w2 !! "reg_phone" = Some (py_opt phone) ->
        user_data w2 !! "reg_level" = Some (py_opt level) ->
        user_data w2 !! "reg_event_title" = Some title ->
        let confirmed := confirm (mkUpdate tg (CallbackQuery (cb_reg_confirm true))) w2 in
        fst confirmed = Ok (Some END)
        /\ replies (snd confirmed) = replies w2 ++ [Registered title]
        /\ event_registrations (database (snd confirmed)) =
             map (fun r => if db.reg_conflict event_id (Some (tg_id tg)) r
                           then db.register_set name phone level None r else r)
                 (event_registrations (database w2))
        /\ count (database (snd confirmed)) = count (database w2)).
Proof.
  intros Hev count button. split; [|split].
  - intros [Hpos Hfull].
    pose proof (reg_start_full w tg event_id event Hev Hpos Hfull) as Hstart.
    split; [done|]. unfold handle_update. cbn. fold button.
    by rewrite (bind_ok _ _ _ _ _ Hstart).
  - intros Hopen.
    destruct (reg_start_open w tg event_id event Hev Hopen) as (prompt & Hne & Hstart).
    exists prompt. fold button in Hstart. by rewrite Hstart.
  - intros old name phone level title Hold Hid Hname Hphone Hlevel Htitle confirmed.
    subst confirmed.
    rewrite (confirm_existing w2 tg event_id old name phone level title) by done.
    cbn [fst snd replies set_replies database set_database event_registrations
         set_event_registrations set_event_registrations_id_seq].
    split; [done|]. split; [done|]. split; [done|].
    unfold count. f_equal.
    cbn [event_registrations set_event_registrations set_event_registrations_id_seq].
    apply length_filter_map_stable.
    intros r. by destruct (db.reg_conflict event_id (Some (tg_id tg)) r).
Qed.

(** The picnic has one seat and Ann has it: she is turned away like anyone
    else.  With two seats the flow starts for her, and her confirmation
    rewrites her row. *)
Lemma capacity_gate_witness :
  let B := ascii_text.builtins in
  let button := mkUpdate sample.tg_ann (CallbackQuery (cb_reg_start 1)) in
  let full := sample.world (sample.db_of 1) in
  let roomy := sample.world (sample.db_of 2) in
  let ready :=
    set_user_data (fun _ => {[ "reg_event_id" := PInt 1; "reg_name" := PStr "Ann B.";
                               "reg_phone" := PStr "555"; "reg_level" := PNone;
                               "reg_event_title" := PStr "Picnic" ]}) roomy in
  replies (snd (handle_update (@reg_conv B) None button full)) = [NoSeatsLeft "Picnic"]
  /\ fst (reg_start button roomy) = Ok (Some ASK_NAME)
  /\ (EventRegistration.full_name <$>
        event_registrations
          (database (snd (confirm (mkUpdate sample.tg_ann (CallbackQuery (cb_reg_confirm true)))
                            ready)))) = ["Ann B."].
Proof.
  intros B button full roomy ready.
  destruct (@capacity_gate B full ready sample.tg_ann 1 (sample.picnic_of 1) eq_refl)
    as (Hfull & _ & Hagain).
  destruct (@capacity_gate B roomy ready sample.tg_ann 1 (sample.picnic_of 2) eq_refl)
    as (_ & Hroomy & _).
  destruct Hfull as [_ Hconv]; [by vm_compute|].
  destruct Hroomy as (prompt & _ & Hstart & _); [right; by vm_compute|].
  destruct (Hagain sample.ann_at_picnic "Ann B." (Some "555") None (PStr "Picnic")
              eq_refl eq_refl eq_refl eq_refl eq_refl eq_refl) as (_ & _ & Hrows & _).
  fold button in Hconv, Hstart. rewrite Hconv, Hstart, Hrows. by vm_compute.
Defined.

(** C3 as stated fails: Ann holds the one registration of the full picnic,
    presses the registration button for it again, and is refused. *)
Lemma reregistration_refused_when_full :
  let w := sample.world sample.db0 in
  find (db.reg_conflict 1 (Some 7)) (event_registrations (database w))
    = Some sample.ann_at_picnic
  /\ Event.max_participants sample.picnic = 1
  /\ fst (db.count_event_registrations 1 (database w)) = Ok 1
  /\ reg_start (mkUpdate sample.tg_ann (CallbackQuery (cb_reg_start 1))) w =
       (Ok (Some END), set_replies (fun l => l ++ [NoSeatsLeft "Picnic"]) w).
Proof. by vm_compute. Qed.

(** ** Validation in the manual event creation flow *)

(** C4, as the code has it.  A text that is not a calendar date, sent at
    the date state, is answered with the format reminder and changes
    nothing, whatever the flow has stored by then: no field is stored and
    the conversation stays at the date state.  A text that is not an
    integer, sent at the max-participants state once the title and the
    date are stored, is not refused: 0 is stored as the limit and the
    conversation moves on to the confirm state. *)
Theorem validation_failure `{Builtins} (w : World) (tg : TgUser)
    (text_d text_m : string) :
  let bad_date := mkUpdate tg (TextMessage text_d) in
  let bad_max := mkUpdate tg (TextMessage text_m) in
  let stored := set_user_data (insert "evt_max" (PInt 0)) w in
  (date_fromisoformat (str_strip text_d) = None ->
     evt_date bad_date w = (Ok (Some EVT_DATE), set_replies (fun l => l ++ [EvtBadDate]) w)
     /\ handle_update evt_conv (Some EVT_DATE) bad_date w =
          (Ok (Some EVT_DATE), set_replies (fun l => l ++ [EvtBadDate]) w))
  /\ (int_of_str (str_strip text_m) = None ->
      forall title d : PyVal,
        user_data w !! "evt_title" = Some title ->
        user_data w !! "evt_date" = Some d ->
        evt_max bad_max w =
          (Ok (Some EVT_CONFIRM),
           set_replies (fun l => l ++ [EvtConfirmPrompt title d (user_data w !! "evt_time")
                                                        (user_data w !! "evt_place")])
                       stored)
        /\ handle_update evt_conv (Some EVT_MAX) bad_max w =
             (Ok (Some EVT_CONFIRM),
              set_replies (fun l => l ++ [EvtConfirmPrompt title d (user_data w !! "evt_time")
                                                           (user_data w !! "evt_place")])
                          stored)).
Proof.
  intros bad_date bad_max stored. split.
  - intros Hdate.
    assert (evt_date bad_date w
            = (Ok (Some EVT_DATE), set_replies (fun l => l ++ [EvtBadDate]) w)) as Hed.
    { unfold evt_date. cbn [content bad_date]. eff. by rewrite Hdate. }
    split; [done|]. unfold handle_update. cbn. by rewrite (bind_ok _ _ _ _ _ Hed).
  - intros Hint title d Htitle Hd.
    assert (evt_max bad_max w =
         (Ok (Some EVT_CONFIRM),
          set_replies (fun l => l ++ [EvtConfirmPrompt title d (user_data w !! "evt_time")
                                                       (user_data w !! "evt_place")])
                      stored)) as Hem.
    { unfold evt_max. cbn [content bad_max]. eff. rewrite Hint.
      destruct (String.eqb (str_strip text_m) "/skip"); cbn;
        rewrite ?lookup_insert_ne by done; rewrite Htitle; cbn;
        rewrite ?lookup_insert_ne by done; rewrite Hd; cbn;
        by rewrite !lookup_insert_ne by done. }
    split; [done|]. unfold handle_update. cbn. by rewrite (bind_ok _ _ _ _ _ Hem).
Qed.

(** "tomorrow" is no date, whatever the flow has stored by then; "many" is
    no number. *)
Lemma validation_failure_witness :
  let B := ascii_text.builtins in
  let w0 := sample.world sample.db0 in
  let w := set_user_data (fun _ => {[ "evt_title" := PStr "Bible School";
                                      "evt_date" := PDate (Date 2025 1 15) ]}) w0 in
  handle_update (@evt_conv B) (Some EVT_DATE)
    (mkUpdate sample.tg_bob (TextMessage "tomorrow")) w0
    = (Ok (Some EVT_DATE), set_replies (fun l => l ++ [EvtBadDate]) w0)
  /\ fst (handle_update (@evt_conv B) (Some EVT_MAX)
            (mkUpdate sample.tg_bob (TextMessage "many")) w) = Ok (Some EVT_CONFIRM).
Proof.
  intros B w0 w.
  destruct (@validation_failure B w0 sample.tg_bob "tomorrow" "many") as [Hdate _].
  destruct (@validation_failure B w sample.tg_bob "tomorrow" "many") as [_ Hmax].
  destruct (Hdate eq_refl) as [_ Hd].
  destruct (Hmax eq_refl (PStr "Bible School") (PDate (Date 2025 1 15)) eq_refl eq_refl)
    as [_ Hm].
  split; [exact Hd|]. by rewrite Hm.
Defined.

(** C4 as stated fails at the max-participants state: "many" is not an
    integer, yet a field is stored (the limit 0) and the conversation
    advances from EVT_MAX to EVT_CONFIRM. *)
Lemma non_integer_max_advances :
  let B := ascii_text.builtins in
  let w := set_user_data (fun _ => {[ "evt_title" := PStr "Bible School";
                                      "evt_date" := PDate (Date 2025 1 15) ]})
             (sample.world sample.db0) in
  let after := handle_update (@evt_conv B) (Some EVT_MAX)
                 (mkUpdate sample.tg_bob (TextMessage "many")) w in
  ascii_text.int "many" = None
  /\ user_data w !! "evt_max" = None
  /\ fst after = Ok (Some EVT_CONFIRM)
  /\ user_data (snd after) !! "evt_max" = Some (PInt 0).
Proof. by vm_compute. Qed.

(** ** Confirming the manual event creation flow *)

Lemma existsb_elem {A} (p : A -> bool) (l : list A) (x : A) :
  x ∈ l -> p x = true -> existsb p l = true.
Proof. intros Hx Hp. apply existsb_exists. exists x. by rewrite <- list_elem_of_In. Qed.

Lemma existsb_fresh {A} (key : A -> Z) (l : list A) (n : Z) :
  (forall x, x ∈ l -> key x < n) ->
  existsb (fun x => bool_decide (key x = n)) l = false.
Proof.
  intros Hlt. destruct (existsb _ l) eqn:Hex; [|done].
  apply existsb_true_elem in Hex as (x & Hx & Hk). apply bool_decide_eq_true in Hk.
  specialize (Hlt x Hx). lia.
Qed.

Lemma fk_of_user (u : User.t) (us : list User.t) :
  u ∈ us ->
  db.fk_username us (User.username u) = true
  /\ db.fk_telegram_id us (Some (User.telegram_id u)) = true.
Proof.
  intros Hu. split.
  - unfold db.fk_username. destruct (User.username u) as [n|] eqn:Hn; [|done].
    apply (existsb_elem _ _ u Hu). by apply bool_decide_eq_true.
  - cbn. apply (existsb_elem _ _ u Hu). by apply bool_decide_eq_true.
Qed.

(** [create_event] when the sequence is ahead and the creator is known. *)
Lemma create_event_ok (d : DB) title date_start type date_end time place description
    max_participants status created_by :
  (forall e, e ∈ events d -> Event.id e < events_id_seq d) ->
  db.fk_username (users d) created_by = true ->
  let row := Event.mk (events_id_seq d) title type date_start date_end time place
                      description max_participants status created_by (clock d) in
  db.create_event title date_start type date_end time place description
                  max_participants status created_by d =
    (Ok row, set_events (fun es => es ++ [row]) (set_events_id_seq (fun n => n + 1) d)).
Proof.
  intros Hfresh Hfk row. unfold db.create_event, bind, db.nextval_events.
  cbn [events users clock set_events_id_seq].
  by rewrite (existsb_fresh Event.id _ _ Hfresh), Hfk.
Qed.

(** [activate_event] right after the event was appended under a new id. *)
Lemma activate_appended (d : DB) (row : Event.t) :
  (forall e, e ∈ events d -> Event.id e <> Event.id row) ->
  db.activate_event (Event.id row) (set_events (fun es => es ++ [row]) d) =
    (Ok (Some (db.with_status EventStatus.ACTIVE row)),
     set_events (fun es => es ++ [db.with_status EventStatus.ACTIVE row]) d).
Proof.
  intros Hfresh. unfold db.activate_event, db.update_event. cbn.
  assert (forall e, e ∈ events d -> bool_decide (Event.id e = Event.id row) = false) as Hmiss.
  { intros e He. apply bool_decide_eq_false. by apply Hfresh. }
  f_equal.
  - f_equal. rewrite (find_app_none _ _ row); [done| |by apply bool_decide_eq_true].
    by apply find_none_elem.
  - unfold set_events. cbn. f_equal. rewrite map_app. cbn.
    rewrite bool_decide_eq_true_2 by done. f_equal.
    apply map_fixed. intros e He. by rewrite Hmiss.
Qed.

(** [create_admin_request] for a new event: the payload is a non-empty
    dictionary of JSON values. *)
Lemma create_event_request_ok (d : DB) username telegram_id full_name comment
    (event_id : Z) (event_title : string) :
  (forall r, r ∈ admin_requests d -> AdminRequest.id r < admin_requests_id_seq d) ->
  db.fk_telegram_id (users d) telegram_id = true ->
  let payload : gmap string PyVal :=
    {[ "event_id" := PInt event_id; "event_title" := PStr event_title ]} in
  let row := AdminRequest.mk (admin_requests_id_seq d) username telegram_id full_name
               None None "event_creation" (Some payload) comment
               RequestStatus.PENDING None (clock d) None in
  db.create_admin_request username "event_creation" telegram_id full_name None None
                          (Some payload) comment d =
    (Ok row, set_admin_requests (fun rs => rs ++ [row])
               (set_admin_requests_id_seq (fun n => n + 1) d)).
Proof.
  intros Hfresh Hfk payload row. unfold db.create_admin_request.
  assert (bool_decide (payload = ∅) = false) as ->.
  { apply bool_decide_eq_false. apply insert_non_empty. }
  assert (bool_decide (map_Forall (fun _ v => json_serializable v = true) payload) = true)
    as ->.
  { apply bool_decide_eq_true. apply map_Forall_insert_2; [done|].
    by apply map_Forall_singleton. }
  unfold bind, ret, db.nextval_admin_requests.
  cbn [admin_requests users clock set_admin_requests_id_seq].
  by rewrite (existsb_fresh AdminRequest.id _ _ Hfresh), Hfk.
Qed.

(** Notifying the super-admins never raises and leaves the database and
    the collected fields alone. *)
Lemma notify_super_admins_ok (sa_ids : list Z) (t : Text) :
  forall w, exists w',
    notify_super_admins sa_ids t w = (Ok tt, w')
    /\ database w' = database w /\ user_data w' = user_data w
    /\ replies w' = replies w.
Proof.
  induction sa_ids as [|sa_id rest IH]; intros w; cbn [notify_super_admins].
  - by exists w.
  - unfold bind at 1, try_except, send_message.
    destruct (delivery w (length (sent w)) sa_id).
    + destruct (IH (set_sent (fun l => l ++ [(sa_id, t)]) w)) as (w' & -> & ? & ? & ?).
      by exists w'.
    + unfold logger, modify.
      destruct (IH (set_log (fun l => l ++ [LogException "Failed to notify super_admin %s"
                                              [PInt sa_id]])
                      (set_sent (fun l => l ++ [(sa_id, t)]) w)))
        as (w' & -> & ? & ? & ?).
      by exists w'.
Qed.

Lemma sql_text_opt_py_opt {S} (s : option string) :
  @sql_text_opt S (Some (py_opt s)) = ret s.
Proof. by destruct s. Qed.

Arguments sql_text_opt : simpl never.

(** [create_event] when the creator is nobody's handle: the id is drawn
    and the insert fails. *)
Lemma create_event_no_creator (d : DB) title date_start type date_end time place description
    max_participants status created_by :
  (forall e, e ∈ events d -> Event.id e < events_id_seq d) ->
  db.fk_username (users d) created_by = false ->
  db.create_event title date_start type date_end time place description
                  max_participants status created_by d =
    (Raise (ForeignKeyViolationError "events_created_by_fkey"),
     set_events_id_seq (fun n => n + 1) d).
Proof.
  intros Hfresh Hfk. unfold db.create_event, bind, db.nextval_events.
  cbn [events users clock set_events_id_seq].
  by rewrite (existsb_fresh Event.id _ _ Hfresh), Hfk.
Qed.




(** Nor is it the stored role that decides.  Root walks the flow, is
    cached as super-admin, lowers the own role by /set_role and then
    confirms: the stored role is user, yet the event is active and no
    request is created. *)
Lemma cached_role_decides :
  let B := ascii_text.builtins in
  let w := sample.world sample.db0 in
  let walk :=
    [mkUpdate sample.tg_root (CallbackQuery cb_adm_create_event);
     mkUpdate sample.tg_root (TextMessage "Bible School");
     mkUpdate sample.tg_root (TextMessage "2025-01-15");
     mkUpdate sample.tg_root (Command "skip" "/skip");
     mkUpdate sample.tg_root (Command "skip" "/skip");
     mkUpdate sample.tg_root (Command "skip" "/skip");
     mkUpdate sample.tg_root (Command "skip" "/skip")] in
  let ready := feed (@evt_conv B) None walk w in
  let lowered := @cmd_set_role ascii_str_lower ["root"; "user"]
                   (mkUpdate sample.tg_root (Command "set_role" "/set_role root user"))
                   (snd ready) in
  let after := handle_update (@evt_conv B) (fst ready)
                 (mkUpdate sample.tg_root (CallbackQuery (cb_evt_confirm true)))
                 (snd lowered) in
  fst ready = Some EVT_CONFIRM
  /\ map (fun v => (User.telegram_id v, User.role v)) (users (database (snd lowered)))
     = [(1, UserRole.USER); (2, UserRole.ADMIN); (7, UserRole.USER)]
  /\ fst after = Ok None
  /\ map (fun e => (Event.title e, Event.status e)) (events (database (snd after)))
     = [("Picnic", EventStatus.ACTIVE); ("Bible School", EventStatus.ACTIVE)]
  /\ admin_requests (database (snd after)) = admin_requests sample.db0.
Proof. by vm_compute. Qed.

(** ** The side effect of an approval *)

Lemma activate_event_eq (event_id : Z) (d : DB) :
  db.activate_event event_id d =
    (Ok (db.with_status EventStatus.ACTIVE
           <$> find (fun e => bool_decide (Event.id e = event_id)) (events d)),
     set_events (map (fun e => if bool_decide (Event.id e = event_id)
                               then db.with_status EventStatus.ACTIVE e else e)) d).
Proof. reflexivity. Qed.

Lemma set_events_same (d : DB) : set_events (fun es => es) d = d.
Proof. by destruct d. Qed.


Lemma cached_db_user_eq (w : World) (u : User.t) :
  user_data w !! "db_user" = Some (PUser u) -> cached_db_user w = (Ok (Some u), w).
Proof. intros Hu. unfold cached_db_user. eff. by rewrite Hu. Qed.


(** An approval whose side effect raises: the handler raises with it, and
    the world is the one the side effect left. *)
Lemma decision_body_approve_raise `{Builtins} (w w2 : World) (tg : TgUser) (rid : Z) (su : User.t)
    (r : AdminRequest.t) (e : Exn) :
  user_data w !! "db_user" = Some (PUser su) ->
  find (db.pending_with_id rid) (admin_requests (database w)) = Some r ->
  let r' := db.reviewed RequestStatus.APPROVED (User.username su) (clock (database w)) r in
  _apply_approval r' (approved_world rid (User.username su) w) = (Raise e, w2) ->
  handle_request_decision_body (mkUpdate tg (CallbackQuery (cb_sa true rid))) w
    = (Raise e, w2).
Proof.
  intros Hu Hfind r' Happly. unfold handle_request_decision_body. cbn [content].
  rewrite (bind_ok _ _ _ _ _ (cached_db_user_eq _ _ Hu)).
  assert (lift_db (db.approve_request rid (User.username su)) w
          = (Ok (Some r'), approved_world rid (User.username su) w)) as Happ.
  { unfold lift_db, db.approve_request. by rewrite Hfind. }
  rewrite (bind_ok _ _ _ _ _ Happ).
  by rewrite (bind_raise _ _ _ _ _ Happly).
Qed.




(** ** The decision and its side effect are two steps *)

(** The side effect never touches [admin_requests], nor the texts shown to
    the reviewer, whether it returns or raises. *)
Lemma apply_approval_frame `{Builtins} (req : AdminRequest.t) (w : World) :
  admin_requests (database (snd (_apply_approval req w))) = admin_requests (database w)
  /\ replies (snd (_apply_approval req w)) = replies w.
Proof.
  unfold _apply_approval.
  destruct (String.eqb (AdminRequest.request_type req) "admin_access").
  { unfold bind, lift_db, logger, modify, ret, db.set_user_role. cbn.
    destruct (nonempty (AdminRequest.requested_table req)) as [table|]; [|done].
    unfold db.grant_table_access, bind, db.nextval_admin_table_access. cbn.
    repeat case_match; simplify_eq/=; done. }
  destruct (String.eqb (AdminRequest.request_type req) "event_creation"
            || String.eqb (AdminRequest.request_type req) "event_activation").
  { destruct (default ∅ (AdminRequest.payload_json req) !! "event_id") as [v|]; [|done].
    destruct (truthy v); [|done].
    unfold bind, py_int, lift_db, logger, modify, ret, raise.
    destruct v as [|b|z|s| | | |]; try done;
      try (by rewrite activate_event_eq).
    destruct (int_of_str s); [|done]. by rewrite activate_event_eq. }
  destruct (String.eqb (AdminRequest.request_type req) "broadcast"); [|done].
  destruct (truthy _); [|done].
  unfold bind, db.get_all_telegram_ids.
  rewrite !lift_db_gets, !broadcast_loop_spec. done.
Qed.

(** C10.  The approval is committed before the side effect runs and is
    not undone when the side effect raises: the handler raises with the
    same exception, in the world the side effect left, and there the
    request is approved, no row of it is pending, and the reviewer has been
    told nothing. *)
Theorem approval_not_rolled_back `{Builtins} (w w2 : World) (tg : TgUser) (rid : Z)
    (su : User.t) (r : AdminRequest.t) (e : Exn) :
  user_data w !! "db_user" = Some (PUser su) ->
  find (db.pending_with_id rid) (admin_requests (database w)) = Some r ->
  let r' := db.reviewed RequestStatus.APPROVED (User.username su) (clock (database w)) r in
  let w1 := approved_world rid (User.username su) w in
  _apply_approval r' w1 = (Raise e, w2) ->
  lift_db (db.approve_request rid (User.username su)) w = (Ok (Some r'), w1)
  /\ handle_request_decision_body (mkUpdate tg (CallbackQuery (cb_sa true rid))) w
     = (Raise e, w2)
  /\ admin_requests (database w2) = admin_requests (database w1)
  /\ r' ∈ admin_requests (database w2)
  /\ AdminRequest.status r' = RequestStatus.APPROVED
  /\ settled rid (database w2)
  /\ replies w2 = replies w.
Proof.
  intros Hu Hfind r' w1 Happly.
  assert (db.approve_request rid (User.username su) (database w)
          = (Ok (Some r'), database w1)) as Hdec.
  { unfold db.approve_request. by rewrite Hfind. }
  destruct (apply_approval_frame r' w1) as [Hreqs Hrep]. rewrite Happly in Hreqs, Hrep.
  cbn [snd] in Hreqs, Hrep.
  split; [|split; [|split; [|split; [|split; [|split]]]]].
  - unfold lift_db. by rewrite Hdec.
  - by apply (decision_body_approve_raise w w2 tg rid su r e).
  - done.
  - rewrite Hreqs.
    by destruct (decision_some true rid (User.username su) _ _ _ Hdec) as [_ Hin].
  - done.
  - pose proof (decision_settles true rid (User.username su) (database w)) as Hs.
    cbn [snd] in Hs. rewrite Hdec in Hs. unfold settled in *. by rewrite Hreqs.
  - done.
Qed.

(** A request whose payload names its event by a word: the approval is
    committed, turning the word into a number raises, the request stays
    approved. *)
Lemma approval_not_rolled_back_witness :
  let B := ascii_text.builtins in
  let worded := sample.event_request 5 "event_creation" (Some {[ "event_id" := PStr "soon" ]}) in
  let w := sample.reviewing (set_admin_requests (fun l => l ++ [worded]) sample.db_events) in
  let after := @handle_request_decision_body B
                 (mkUpdate sample.tg_root (CallbackQuery (cb_sa true 5))) w in
  fst after = Raise ValueError
  /\ map AdminRequest.status (admin_requests (database (snd after)))
     = [RequestStatus.PENDING; RequestStatus.PENDING; RequestStatus.PENDING;
        RequestStatus.PENDING; RequestStatus.APPROVED]
  /\ replies (snd after) = [].
Proof.
  intros B worded w after.
  pose proof (@approval_not_rolled_back B w
                (approved_world 5 (Some "root") w) sample.tg_root 5 sample.root worded
                ValueError ltac:(by vm_compute) ltac:(by vm_compute)
                ltac:(by vm_compute)) as Hw.
  cbv zeta in Hw. destruct Hw as (_ & Hafter & _).
  subst after. rewrite Hafter. by vm_compute.
Defined.

(** ** The identity upsert *)

Lemma users_cascade (old new : option string) (d : DB) :
  users (db.cascade_username old new d) = users d.
Proof. unfold db.cascade_username. by repeat case_match. Qed.

(** [upsert_user] on a key that is already in [users]. *)
Lemma upsert_known (d : DB) (u : User.t) (username : option string)
    (full_name : string) (phone : option string) :
  find (fun v => bool_decide (User.telegram_id v = User.telegram_id u)) (users d) = Some u ->
  let u' := db.upsert_user_set username full_name u in
  db.upsert_user (User.telegram_id u) username full_name phone d =
    if db.username_taken (users d) (User.telegram_id u) (User.username u')
    then (Raise (UniqueViolationError "users_username_key"), d)
    else (Ok u',
          db.cascade_username (User.username u) (User.username u')
            (set_users
               (map (fun v => if bool_decide (User.telegram_id v = User.telegram_id u)
                              then db.upsert_user_set username full_name v else v)) d)).
Proof. intros Hfind u'. unfold db.upsert_user. by rewrite Hfind. Qed.

(** C9, as the code has it.  For a user who is already registered, the
    upsert on contact either raises, when the handle it would store belongs
    to another user, and then changes nothing at all; or it stores the new
    full name, stores the incoming handle if there is one and keeps the old
    handle otherwise, and leaves the role, the phone and the key of the
    user as they were.  No row is added, and no user's key, role or phone
    changes. *)
Theorem upsert_known_user (w : World) (tg : TgUser) (text : string) (u : User.t)
    (full_name : string) (phone : option string) :
  find (fun v => bool_decide (User.telegram_id v = tg_id tg)) (users (database w)) = Some u ->
  let d := database w in
  let u' := User.mk (User.telegram_id u) (db.coalesce (tg_username tg) (User.username u))
                    full_name (User.phone u) (User.role u) (User.created_at u) in
  let res := db.upsert_user (tg_id tg) (tg_username tg) full_name phone d in
  User.telegram_id u = tg_id tg
  /\ if db.username_taken (users d) (tg_id tg) (User.username u')
     then res = (Raise (UniqueViolationError "users_username_key"), d)
          /\ (full_name = (if negb (String.eqb (tg_full_name tg) "") then tg_full_name tg
                           else if negb (String.eqb (tg_first_name tg) "")
                                then tg_first_name tg else "Unknown") ->
              cmd_start (mkUpdate tg (Command "start" text)) w =
                (Raise (UniqueViolationError "users_username_key"), w))
     else fst res = Ok u'
          /\ find (fun v => bool_decide (User.telegram_id v = tg_id tg)) (users (snd res))
             = Some u'
          /\ length (users (snd res)) = length (users d)
          /\ (forall i v, users (snd res) !! i = Some v ->
                exists v0, users d !! i = Some v0
                           /\ User.telegram_id v = User.telegram_id v0
                           /\ User.role v = User.role v0
                           /\ User.phone v = User.phone v0
                           /\ (User.telegram_id v0 <> tg_id tg -> v = v0))
          /\ (full_name = (if negb (String.eqb (tg_full_name tg) "") then tg_full_name tg
                           else if negb (String.eqb (tg_first_name tg) "")
                                then tg_first_name tg else "Unknown") ->
              cmd_start (mkUpdate tg (Command "start" text)) w =
                (Ok None, set_replies (fun l => l ++ [Welcome full_name])
                            (set_database (fun _ => snd res) w))).
Proof.
  intros Hfind d u' res. subst d.
  assert (User.telegram_id u = tg_id tg) as Hid.
  { apply find_some_elem in Hfind as [_ Hk]. by apply bool_decide_eq_true in Hk. }
  split; [done|].
  rewrite <- Hid in Hfind.
  pose proof (upsert_known _ u (tg_username tg) full_name phone Hfind) as Hup.
  pose proof (upsert_known _ u (tg_username tg) full_name None Hfind) as Hup0.
  rewrite Hid in Hup, Hup0, Hfind. fold res in Hup. cbv zeta in Hup, Hup0.
  change (db.upsert_user_set (tg_username tg) full_name u) with u' in Hup, Hup0.
  destruct (db.username_taken (users (database w)) (tg_id tg) (User.username u'))
    eqn:Htaken.
  - split; [done|]. intros ->. unfold cmd_start. cbn [effective_user].
    erewrite bind_raise; [reflexivity|].
    unfold lift_db. rewrite Hup0, ?Htaken. by rewrite set_database_same.
  - rewrite Hup. cbn [fst snd]. rewrite users_cascade. cbn [users set_users].
    split; [done|]. split; [|split; [|split]].
    + rewrite find_map_stable.
      * rewrite Hfind. cbn. by rewrite bool_decide_eq_true_2.
      * intros v. by destruct (bool_decide (User.telegram_id v = tg_id tg)) eqn:Hv.
    + by rewrite length_map.
    + intros i v Hi. rewrite lookup_map in Hi.
      destruct (users (database w) !! i) as [v0|] eqn:Hv0; [|done]. cbn in Hi.
      injection Hi as <-. exists v0. split; [done|].
      destruct (bool_decide (User.telegram_id v0 = tg_id tg)) eqn:Hv.
      * apply bool_decide_eq_true in Hv. done.
      * done.
    + intros ->. unfold cmd_start. cbn [effective_user].
      erewrite bind_ok; [|unfold lift_db; rewrite Hup0, ?Htaken; reflexivity].
      by eff.
Qed.

(** Bob, an admin with a phone on file, has dropped his handle and changed
    his name: the name is refreshed, the stored handle, the role and the
    phone stay. *)
Lemma upsert_known_user_witness :
  let tg := mkTgUser 2 None "Bobby" "Bobby" in
  let after := cmd_start (mkUpdate tg (Command "start" "/start")) (sample.world sample.db0) in
  fst after = Ok None
  /\ find (fun v => bool_decide (User.telegram_id v = 2)) (users (database (snd after)))
     = Some (User.mk 2 (Some "bob") "Bobby" (Some "+100") UserRole.ADMIN 0).
Proof.
  intros tg after.
  pose proof (upsert_known_user (sample.world sample.db0) tg "/start" sample.bob
                "Bobby" None ltac:(by vm_compute)) as Hw.
  cbv zeta in Hw. destruct Hw as [_ Hw].
  change (db.username_taken (users (database (sample.world sample.db0))) (tg_id tg)
            (User.username
               (User.mk (User.telegram_id sample.bob)
                  (db.coalesce (tg_username tg) (User.username sample.bob)) "Bobby"
                  (User.phone sample.bob) (User.role sample.bob)
                  (User.created_at sample.bob)))) with false in Hw.
  destruct Hw as (_ & Hfind & _ & _ & Hstart).
  specialize (Hstart ltac:(by vm_compute)).
  subst after. rewrite Hstart. split; [done|]. cbn [snd database set_replies set_database].
  etrans; [exact Hfind|by vm_compute].
Defined.

(** C9 as stated fails when the incoming handle belongs to someone else:
    Bob now carries the handle that the store still has for Ann.  The
    upsert raises, and Bob's full name is not overwritten. *)
Lemma upsert_handle_collision :
  let tg := mkTgUser 2 (Some "ann") "Bobby" "Bobby" in
  let w := sample.world sample.db0 in
  fst (db.get_user 2 sample.db0) = Ok (Some sample.bob)
  /\ fst (db.get_user 7 sample.db0) = Ok (Some sample.ann)
  /\ db.upsert_user 2 (Some "ann") "Bobby" None sample.db0
     = (Raise (UniqueViolationError "users_username_key"), sample.db0)
  /\ cmd_start (mkUpdate tg (Command "start" "/start")) w
     = (Raise (UniqueViolationError "users_username_key"), w)
  /\ User.full_name <$> find (fun v => bool_decide (User.telegram_id v = 2))
                             (users (snd (db.upsert_user 2 (Some "ann") "Bobby" None
                                            sample.db0)))
     = Some "Bob".
Proof. by vm_compute. Qed.

(** ** Cancelling a conversation *)

(** In a running conversation an update that none of the state's handlers
    takes goes to the fallbacks. *)
Lemma to_fallbacks (c : ConversationHandler) (s : Z) (cnt : Content) :
  Forall (fun kv => Forall (fun h : Handler => fst h cnt = false) (snd kv)) (states c) ->
  find (fun h : Handler => fst h cnt) (state_handlers c s ++ fallbacks c)
  = find (fun h : Handler => fst h cnt) (fallbacks c).
Proof.
  intros Hall.
  assert (Forall (fun h : Handler => fst h cnt = false) (state_handlers c s)) as Hs.
  { unfold state_handlers. destruct (find _ (states c)) as [kv|] eqn:Hf; [|constructor].
    apply find_some_elem in Hf as [Hin _]. rewrite Forall_forall in Hall. by apply Hall. }
  induction Hs as [|h l Hh _ IH]; [done|]. cbn. by rewrite Hh.
Qed.

Lemma cancel_skips_states `{Builtins} `{Claude} (f : Flow) (text : string) :
  Forall (fun kv => Forall (fun h : Handler => fst h (Command "cancel" text) = false)
                           (snd kv))
         (states (conversation f)).
Proof. destruct f; repeat constructor. Qed.

Lemma cancel_ends `{Builtins} `{Claude} (f : Flow) (w : World) (tg : TgUser)
    (s : Z) (text : string) :
  handle_update (conversation f) (Some s) (mkUpdate tg (Command "cancel" text)) w
  = (Ok None, set_replies (fun l => l ++ [cancelled f]) w).
Proof.
  unfold handle_update. cbn [content].
  rewrite (to_fallbacks _ s _ (cancel_skips_states f text)).
  by destruct f.
Qed.

Lemma decline_ends `{Builtins} `{Claude} (f : Flow) (w : World) (tg : TgUser) :
  handle_update (conversation f) (Some (confirm_state f))
                (mkUpdate tg (CallbackQuery (decline f))) w
  = (Ok None, set_replies (fun l => l ++ [declined f]) w).
Proof. by destruct f. Qed.

(** Starting a flow writes no key of [context.user_data] but the entry
    keys: whatever else is stored stays stored. *)
Lemma entry_keeps_fields `{Builtins} `{Claude} (f : Flow) (w : World) (u0 : Update)
    (k : string) :
  k ∉ entry_keys ->
  user_data (snd (handle_update (conversation f) None u0 w)) !! k = user_data w !! k.
Proof.
  intros Hk. unfold entry_keys in Hk.
  repeat (apply not_elem_of_cons in Hk as [? Hk]).
  destruct u0 as [tg cnt].
  assert (forall body : Update -> Eff World (option Z),
            (forall u w0, user_data (snd (body u w0)) = user_data w0) ->
            forall allowed u w0,
              user_data (snd (require_role allowed body u w0)) !! k = user_data w0 !! k)
    as Hguard.
  { intros body Hbody allowed u w0. unfold require_role. eff.
    repeat case_match; simplify_eq/=; try done.
    rewrite Hbody. cbn. by rewrite lookup_insert_ne. }
  destruct f; unfold handle_update; cbn [conversation entry_points reg_conv evt_conv
    info_conv ai_conv bc_conv find fst snd content CallbackQueryHandler CommandHandler].
  - (* registration *)
    destruct cnt as [t|n t|[ev| | | | | | | | |]]; try done.
    cbn. unfold reg_start. cbn [content]. eff.
    repeat case_match; simplify_eq/=; rewrite ?lookup_insert_ne by done; try done.
    all: unfold reply, modify in *; simplify_eq/=; by rewrite ?lookup_insert_ne by done.
  - destruct cnt as [t|n t|[ev| | | | | | | | |]]; try done.
    cbn. unfold bind. unfold evt_start.
    destruct (require_role _ _ _ w) as [[[st|]|e] w'] eqn:Hr; cbn;
      pose proof (Hguard evt_start_body ltac:(done) [UserRole.ADMIN; UserRole.SUPER_ADMIN]
                    (mkUpdate tg (CallbackQuery cb_adm_create_event)) w) as Hg;
      rewrite Hr in Hg; try done; by destruct (st =? END).
  - destruct cnt as [t|n t|[ev| | | | | | | | |]]; try done.
    cbn. unfold bind. unfold info_start.
    destruct (require_role _ _ _ w) as [[[st|]|e] w'] eqn:Hr; cbn;
      pose proof (Hguard info_start_body ltac:(done) [UserRole.ADMIN; UserRole.SUPER_ADMIN]
                    (mkUpdate tg (CallbackQuery cb_adm_create_info)) w) as Hg;
      rewrite Hr in Hg; try done; by destruct (st =? END).
  - destruct cnt as [t|n t|[ev| | | | | | | | |]]; try done.
    cbn. unfold bind. unfold text_cmd_start.
    destruct (require_role _ _ _ w) as [[[st|]|e] w'] eqn:Hr; cbn;
      pose proof (Hguard text_cmd_start_body ltac:(done) [UserRole.ADMIN; UserRole.SUPER_ADMIN]
                    (mkUpdate tg (CallbackQuery cb_adm_text_cmd)) w) as Hg;
      rewrite Hr in Hg; try done; by destruct (st =? END).
  - destruct cnt as [t|n t|cb]; try done.
    cbn. destruct (String.eqb n "broadcast"); [|done].
    cbn. unfold bind. unfold broadcast_start.
    destruct (require_role _ _ _ w) as [[[st|]|e] w'] eqn:Hr; cbn;
      pose proof (Hguard broadcast_start_body ltac:(done) [UserRole.SUPER_ADMIN]
                    (mkUpdate tg (Command n t)) w) as Hg;
      rewrite Hr in Hg; try done; by destruct (st =? END).
Qed.

(** C8, as the code has it.  In each of the five flows, [/cancel] in any
    running state and a decline at the confirm step end the conversation
    with an acknowledgement and change nothing else: no domain record is
    created or modified, and the collected fields are not discarded,
    [context.user_data] is left exactly as it was.  A fresh start of a flow
    writes the entry keys only, so every other collected field is still
    there when the new run begins. *)
Theorem cancel_keeps_fields `{Builtins} `{Claude} (f g : Flow) (w : World)
    (tg : TgUser) (s : Z) (text : string) (again : Update) (k : string) :
  k ∉ entry_keys ->
  let cancel_it := handle_update (conversation f) (Some s)
                     (mkUpdate tg (Command "cancel" text)) w in
  let decline_it := handle_update (conversation f) (Some (confirm_state f))
                      (mkUpdate tg (CallbackQuery (decline f))) w in
  cancel_it = (Ok None, set_replies (fun l => l ++ [cancelled f]) w)
  /\ decline_it = (Ok None, set_replies (fun l => l ++ [declined f]) w)
  /\ database (snd cancel_it) = database w
  /\ user_data (snd cancel_it) = user_data w
  /\ database (snd decline_it) = database w
  /\ user_data (snd decline_it) = user_data w
  /\ user_data (snd (handle_update (conversation g) None again (snd cancel_it))) !! k
     = user_data w !! k
  /\ user_data (snd (handle_update (conversation g) None again (snd decline_it))) !! k
     = user_data w !! k.
Proof.
  intros Hk cancel_it decline_it. subst cancel_it decline_it.
  rewrite cancel_ends, decline_ends. cbn [snd].
  repeat split; by rewrite ?entry_keeps_fields.
Qed.

(** Ann starts to register for the roomy picnic, gives a name and a phone,
    cancels, and starts again: the phone of the cancelled run is still
    stored. *)
Lemma cancel_keeps_fields_witness :
  let B := ascii_text.builtins in
  let C := ascii_text.claude in
  let w := set_user_data (fun _ => {[ "reg_phone" := PStr "555" ]})
             (sample.world (sample.db_of 2)) in
  let cancel := mkUpdate sample.tg_ann (Command "cancel" "/cancel") in
  let start := mkUpdate sample.tg_ann (CallbackQuery (cb_reg_start 1)) in
  let after := snd (handle_update (@conversation B C Registration) (Some ASK_LEVEL) cancel w) in
  database after = sample.db_of 2
  /\ user_data (snd (handle_update (@conversation B C Registration) None start after))
       !! "reg_phone" = Some (PStr "555").
Proof.
  intros B C w cancel start after.
  pose proof (@cancel_keeps_fields B C Registration Registration w sample.tg_ann
                ASK_LEVEL "/cancel" start "reg_phone" ltac:(compute_done)) as Hw.
  cbv zeta in Hw. destruct Hw as (_ & _ & Hdb & _ & _ & _ & Hud & _).
  split; [exact Hdb|]. etrans; [exact Hud|by vm_compute].
Defined.

(** C8 as stated fails in its second half.  Ann starts to register, sends
    a name and a phone, cancels, and presses the button again: the new run
    begins with the phone of the cancelled one still among the collected
    fields. *)
Lemma cancelled_fields_survive :
  let B := ascii_text.builtins in
  let say text := mkUpdate sample.tg_ann (TextMessage text) in
  let start := mkUpdate sample.tg_ann (CallbackQuery (cb_reg_start 1)) in
  let cancel := mkUpdate sample.tg_ann (Command "cancel" "/cancel") in
  let w0 := sample.world (sample.db_of 2) in
  let cancelled_run := feed (@reg_conv B) None [start; say "Annie"; say "555"; cancel] w0 in
  let fresh_run := feed (@reg_conv B) (fst cancelled_run) [start] (snd cancelled_run) in
  user_data w0 = ∅
  /\ fst cancelled_run = None
  /\ database (snd cancelled_run) = database w0
  /\ user_data (snd cancelled_run) !! "reg_phone" = Some (PStr "555")
  /\ fst fresh_run = Some ASK_NAME
  /\ user_data (snd fresh_run) !! "reg_phone" = Some (PStr "555").
Proof. by vm_compute. Qed.

(** * Further properties of the code *)

(** ** The role guard *)

Lemma require_role_refused (allowed : list UserRole.t)
    (func : Update -> Eff World (option Z)) (update : Update) (w : World) (u : User.t) :
  find (fun v => bool_decide (User.telegram_id v = tg_id (effective_user update)))
       (users (database w)) = Some u ->
  User.role u ∉ allowed ->
  require_role allowed func update w
  = (Ok None, set_replies (fun l => l ++ [NoAccess]) w).
Proof.
  intros Hfind Hrole. unfold require_role, db.get_user.
  unfold bind at 1. rewrite lift_db_gets, Hfind.
  rewrite (bool_decide_eq_false_2 _ Hrole). by eff.
Qed.

(** X1.  Role gating.  A registered user whose role is not admin or
    super-admin is refused by every admin entry point: the panel, the panel
    buttons, and the start of the event, info and text-command flows; a
    user who is not super-admin is refused by the decision buttons, the
    broadcast command and /set_role.  Refused means: the handler behind
    the guard does not run, the answer is "no access", and nothing else in
    the world changes. *)
Theorem regular_user_refused `{Builtins} `{Claude} `{StrLower}
    (w : World) (update : Update) (u : User.t) (data : PanelData) (args : list string) :
  find (fun v => bool_decide (User.telegram_id v = tg_id (effective_user update)))
       (users (database w)) = Some u ->
  let refused : Result (option Z) * World :=
    (Ok None, set_replies (fun l => l ++ [NoAccess]) w) in
  (User.role u = UserRole.USER ->
     cmd_admin update w = refused
     /\ admin_callback data update w = refused
     /\ evt_start update w = refused
     /\ info_start update w = refused
     /\ text_cmd_start update w = refused)
  /\ (User.role u <> UserRole.SUPER_ADMIN ->
     handle_request_decision update w = refused
     /\ broadcast_start update w = refused
     /\ cmd_set_role args update w = refused).
Proof.
  intros Hfind refused. split.
  - intros Hrole.
    assert (User.role u ∉ [UserRole.ADMIN; UserRole.SUPER_ADMIN]) as Hnot.
    { rewrite Hrole. by intros [?|[?|?%elem_of_nil]%elem_of_cons]%elem_of_cons. }
    repeat split; by apply (require_role_refused _ _ _ _ u).
  - intros Hrole.
    assert (User.role u ∉ [UserRole.SUPER_ADMIN]) as Hnot.
    { by intros ?%list_elem_of_singleton. }
    repeat split; by apply (require_role_refused _ _ _ _ u).
Qed.

(** Ann, a regular user, presses an activate button of the panel; Bob, an
    admin, presses an approve button. *)
Lemma regular_user_refused_witness :
  let w := sample.world sample.db0 in
  replies (snd (admin_callback (adm_event_activate 1)
                  (mkUpdate sample.tg_ann (CallbackQuery cb_adm_create_event)) w))
    = [NoAccess]
  /\ AdminRequest.status <$> admin_requests
       (database (snd (@handle_request_decision ascii_text.builtins
                         (mkUpdate sample.tg_bob (CallbackQuery (cb_sa true 1))) w)))
     = [RequestStatus.PENDING].
Proof.
  intros w.
  pose proof (@regular_user_refused ascii_text.builtins ascii_text.claude
                {| str_lower := fun s => s |} w
                (mkUpdate sample.tg_ann (CallbackQuery cb_adm_create_event)) sample.ann
                (adm_event_activate 1) [] ltac:(by vm_compute)) as Hann.
  pose proof (@regular_user_refused ascii_text.builtins ascii_text.claude
                {| str_lower := fun s => s |} w
                (mkUpdate sample.tg_bob (CallbackQuery (cb_sa true 1))) sample.bob
                (adm_event_activate 1) [] ltac:(by vm_compute)) as Hbob.
  cbv zeta in Hann, Hbob.
  destruct Hann as [Hann _], Hbob as [_ Hbob].
  destruct (Hann eq_refl) as (_ & Hcb & _).
  destruct (Hbob ltac:(done)) as (Hdec & _).
  rewrite Hcb, Hdec. by vm_compute.
Defined.

(** ** Primary keys *)

(** The id of a row after the [SET] list of [update_event], of
    [update_info]. *)
Lemma assigned_id (fields : list db.EventField) (e : Event.t) :
  Event.id (foldl (fun e f => db.assign f e) e fields)
    = default (Event.id e) (db.new_id fields).
Proof.
  unfold db.new_id. induction fields as [|f rest IH] using rev_ind; [done|].
  rewrite !foldl_app. cbn [foldl].
  destruct f; cbn; try exact IH; try done.
  by destruct (db.event_status_of_value s).
Qed.

Lemma info_assigned_id (fields : list db.InfoField) (i : Info.t) :
  Info.id (foldl (fun i f => db.info_assign f i) i fields)
    = default (Info.id i) (db.info_new_id fields).
Proof.
  unfold db.info_new_id. induction fields as [|f rest IH] using rev_ind; [done|].
  rewrite !foldl_app. cbn [foldl].
  destruct f; cbn; try exact IH; done.
Qed.

Lemma NoDup_map_key {A} (key : A -> Z) (f : A -> A) (l : list A) :
  (forall x, x ∈ l -> key (f x) = key x) ->
  NoDup (map key l) -> NoDup (map key (map f l)).
Proof.
  intros Hk Hl. rewrite map_map.
  assert (map (fun x => key (f x)) l = map key l) as ->; [|done].
  apply map_ext_in. intros x Hx. apply Hk. by apply list_elem_of_In.
Qed.

Lemma NoDup_filter_key {A} (key : A -> Z) (P : A -> Prop)
    `{!forall x, Decision (P x)} (l : list A) :
  NoDup (map key l) -> NoDup (map key (filter P l)).
Proof.
  induction l as [|x l IH]; [done|]. rewrite filter_cons.
  cbn [map]. intros [Hx Hl]%NoDup_cons.
  destruct (decide (P x)); [|by apply IH].
  cbn [map]. apply NoDup_cons. split; [|by apply IH].
  intros (y & Hy & Hin)%elem_of_map. apply Hx, elem_of_map. exists y.
  split; [done|]. by apply list_elem_of_filter in Hin as [_ ?].
Qed.

(** A row appended under a key that the unique index does not hold. *)
Lemma NoDup_app_key {A} (key : A -> Z) (n : Z) (l : list A) (x : A) :
  key x = n ->
  existsb (fun y => bool_decide (key y = n)) l = false ->
  NoDup (map key l) -> NoDup (map key (l ++ [x])).
Proof.
  intros Hx Hl Hnd. rewrite map_app. apply NoDup_app. split; [done|]. split.
  - intros k (y & Hk & Hy)%elem_of_map [Hk'|[]%elem_of_nil]%elem_of_cons.
    apply (existsb_false_elem _ _ Hl) in Hy. apply bool_decide_eq_false in Hy.
    congruence.
  - cbn. apply NoDup_singleton.
Qed.

(** The rows of key [k] moved to a key [n] that no row holds. *)
Lemma NoDup_move_key {A} (key : A -> Z) (f : A -> A) (k n : Z) (l : list A) :
  (forall x, key (f x) = n) ->
  existsb (fun y => bool_decide (key y = n)) l = false ->
  NoDup (map key l) ->
  NoDup (map key (map (fun x => if bool_decide (key x = k) then f x else x) l)).
Proof.
  intros Hf Hn Hnd.
  assert (forall y, y ∈ l -> key y <> n) as Hfree.
  { intros y Hy. apply (existsb_false_elem _ _ Hn) in Hy.
    by apply bool_decide_eq_false in Hy. }
  clear Hn. induction l as [|x l IH]; [done|].
  cbn [map] in *. apply NoDup_cons in Hnd as [Hx Hl].
  apply NoDup_cons. split; [|apply IH; [done|intros; apply Hfree; by right]].
  intros (y' & Hkey & (y & -> & Hy)%elem_of_map)%elem_of_map.
  destruct (bool_decide (key x = k)) eqn:Hxk, (bool_decide (key y = k)) eqn:Hyk.
  - apply bool_decide_eq_true in Hxk, Hyk. apply Hx, elem_of_map. exists y.
    split; [congruence|done].
  - rewrite Hf in Hkey. apply (Hfree y); [by right|done].
  - rewrite Hf in Hkey. apply (Hfree x); [by left|done].
  - apply Hx, elem_of_map. by exists y.
Qed.

(** [UPDATE ... SET ... WHERE id = k] once the unique index let it
    through: [m] is the id the [SET] list assigns, if any. *)
Lemma NoDup_update_key {A} (key : A -> Z) (f : A -> A) (k : Z) (m : option Z)
    (l : list A) :
  (forall x, key (f x) = default (key x) m) ->
  match m with
  | Some n => existsb (fun x => bool_decide (key x = k)) l && negb (n =? k)
              && existsb (fun y => bool_decide (key y = n)) l = false
  | None => True
  end ->
  NoDup (map key l) ->
  NoDup (map key (map (fun x => if bool_decide (key x = k) then f x else x) l)).
Proof.
  intros Hf Hm Hnd. destruct m as [n|]; cbn in Hf.
  - destruct (existsb (fun x => bool_decide (key x = k)) l) eqn:Hhit; cbn in Hm.
    + destruct (Z.eqb_spec n k) as [->|Hne]; cbn in Hm.
      * apply NoDup_map_key; [|done]. intros x _.
        case_bool_decide; [|done]. by rewrite Hf.
      * by apply (NoDup_move_key key f k n).
    + apply NoDup_map_key; [|done]. intros x Hx.
      apply (existsb_false_elem _ _ Hhit) in Hx. by rewrite Hx.
  - apply NoDup_map_key; [|done]. intros x _. case_bool_decide; [|done]. by rewrite Hf.
Qed.

Lemma NoDup_app_user (tid : Z) (row : User.t) (us : list User.t) :
  User.telegram_id row = tid ->
  find (fun u => bool_decide (User.telegram_id u = tid)) us = None ->
  NoDup (map User.telegram_id us) -> NoDup (map User.telegram_id (us ++ [row])).
Proof.
  intros Hrow Hf Hnd. rewrite map_app. apply NoDup_app. split; [done|]. split.
  - intros k (y & Hk' & Hy)%elem_of_map [Hk|[]%elem_of_nil]%elem_of_cons.
    apply list_elem_of_In in Hy.
    eapply find_none in Hf; [|exact Hy]. cbn in Hf.
    apply bool_decide_eq_false in Hf. congruence.
  - cbn. apply NoDup_singleton.
Qed.

(** What [update_event] and [update_info] leave behind: the database as
    it was, or the rows of the id under their [SET] list, which the unique
    index let through. *)
Lemma update_event_cases (event_id : Z) (fields : list db.EventField) (d : DB) :
  snd (db.update_event event_id fields d) = d
  \/ (snd (db.update_event event_id fields d)
      = set_events (map (fun e => if bool_decide (Event.id e = event_id)
                                  then foldl (fun e f => db.assign f e) e fields
                                  else e)) d
      /\ match db.new_id fields with
         | Some n => existsb (fun e => bool_decide (Event.id e = event_id)) (events d)
                     && negb (n =? event_id)
                     && existsb (fun e => bool_decide (Event.id e = n)) (events d) = false
         | None => True
         end).
Proof.
  unfold db.update_event. destruct fields as [|f rest]; [by left|].
  cbv beta iota. generalize (f :: rest). clear f rest. intros fields.
  destruct (negb (forallb db.encodes fields)); [by left|]. cbv beta iota zeta.
  destruct (db.new_id fields) as [n|].
  - destruct (existsb _ (events d) && negb (n =? event_id)); cbv beta iota.
    + unfold db.fk_event_id.
      destruct (existsb (fun e => bool_decide (Event.id e = n)) (events d)); [by left|].
      repeat case_match; auto.
    + repeat case_match; auto.
  - repeat case_match; auto.
Qed.

Lemma update_info_cases (info_id : Z) (fields : list db.InfoField) (d : DB) :
  snd (db.update_info info_id fields d) = d
  \/ (snd (db.update_info info_id fields d)
      = set_info (map (fun i => if bool_decide (Info.id i = info_id)
                                then let j := foldl (fun i f => db.info_assign f i) i fields in
                                     Info.mk (Info.id j) (Info.category j) (Info.title j)
                                             (Info.content j) (clock d)
                                else i)) d
      /\ match db.info_new_id fields with
         | Some n => existsb (fun i => bool_decide (Info.id i = info_id)) (info d)
                     && negb (n =? info_id)
                     && existsb (fun i => bool_decide (Info.id i = n)) (info d) = false
         | None => True
         end).
Proof.
  unfold db.update_info. destruct fields as [|f rest]; [by left|].
  cbv beta iota. generalize (f :: rest). clear f rest. intros fields.
  destruct (existsb _ fields); [by left|].
  destruct (negb (forallb _ fields)); [by left|]. cbv beta iota zeta.
  destruct (db.info_new_id fields) as [n|]; [|by right].
  destruct (existsb _ (info d) && negb (n =? info_id)
            && existsb (fun i => bool_decide (Info.id i = n)) (info d)); [by left|by right].
Qed.

Ltac keys_step :=
  repeat match goal with
         | |- _ /\ _ => split
         | |- NoDup (map _ (_ ++ [_])) => by eapply NoDup_app_key
         | |- NoDup (map _ (map _ _)) =>
             apply NoDup_map_key; [by intros; repeat case_match|]
         | |- NoDup (map _ (filter _ _)) => apply NoDup_filter_key
         | |- _ => assumption
         end.

(** The unique indexes hold through every statement. *)
Lemma exec_primary_keys (s : Stmt) (d : DB) : primary_keys d -> primary_keys (exec s d).
Proof.
  intros (Ku & Ke & Kr & Ki & Kq & Ka). unfold primary_keys.
  destruct s; cbn [exec].
  - unfold db.upsert_user. repeat case_match; cbn; keys_step.
    all: try (by eapply NoDup_app_user).
    all: unfold db.cascade_username; repeat case_match; cbn; keys_step.
  - unfold db.set_user_role. cbn. keys_step.
  - unfold db.create_event, bind, db.nextval_events. cbn.
    repeat case_match; cbn; keys_step.
  - destruct (update_event_cases event_id fields d) as [->|[-> Hpk]]; [done|].
    cbn. keys_step.
    by apply (NoDup_update_key Event.id _ _ (db.new_id fields)); [apply assigned_id| |].
  - unfold db.delete_event. cbn. keys_step.
  - rewrite register_for_event_eq. cbv zeta.
    repeat case_match; cbn; keys_step.
  - unfold db.create_info, bind, db.nextval_info. cbn.
    repeat case_match; cbn; keys_step.
  - destruct (update_info_cases info_id fields d) as [->|[-> Hpk]]; [done|].
    cbn. keys_step.
    apply (NoDup_update_key Info.id _ _ (db.info_new_id fields)); [|done|done].
    intros i. cbn. apply info_assigned_id.
  - unfold db.delete_info. cbn. keys_step.
  - unfold db.create_admin_request, bind, ret, raise, db.nextval_admin_requests.
    repeat case_match; simplify_eq/=; keys_step.
  - unfold db.approve_request. cbn. keys_step.
  - unfold db.reject_request. cbn. keys_step.
  - unfold db.grant_table_access, bind, db.nextval_admin_table_access. cbn.
    repeat case_match; cbn; keys_step.
Qed.

Lemma Forall_map_key {A} (key : A -> Z) (n : Z) (f : A -> A) (l : list A) :
  (forall x, key (f x) = key x) ->
  Forall (fun x => key x < n) l -> Forall (fun x => key x < n) (map f l).
Proof.
  intros Hk Hl. induction Hl as [|x l Hx _ IH]; cbn; constructor; [|done].
  by rewrite Hk.
Qed.

Lemma Forall_filter_key {A} (key : A -> Z) (n : Z) (P : A -> Prop)
    `{!forall x, Decision (P x)} (l : list A) :
  Forall (fun x => key x < n) l -> Forall (fun x => key x < n) (filter P l).
Proof.
  intros Hl. induction Hl as [|x l Hx _ IH]; [constructor|].
  rewrite filter_cons. destruct (decide (P x)); [by constructor|done].
Qed.

Lemma Forall_key_succ {A} (key : A -> Z) (n : Z) (l : list A) :
  Forall (fun x => key x < n) l -> Forall (fun x => key x < n + 1) l.
Proof. intros Hl. eapply Forall_impl; [exact Hl|]. intros x Hx. cbn in *. lia. Qed.

Lemma Forall_key_app {A} (key : A -> Z) (n : Z) (l : list A) (x : A) :
  key x = n ->
  Forall (fun x => key x < n) l -> Forall (fun x => key x < n + 1) (l ++ [x]).
Proof.
  intros Hx Hl. apply Forall_app. split; [by apply Forall_key_succ|].
  constructor; [lia|constructor].
Qed.

Ltac fresh_step :=
  repeat match goal with
         | |- _ /\ _ => split
         | |- Forall _ (_ ++ [_]) => by apply Forall_key_app
         | |- Forall (fun x => _ < _ + 1) _ => apply Forall_key_succ
         | |- Forall _ (map _ _) => apply Forall_map_key; [by intros; repeat case_match|]
         | |- Forall _ (filter _ _) => apply Forall_filter_key
         | |- _ => assumption
         end.

(** The sequences stay ahead through every statement that assigns no id. *)
Lemma exec_fresh_ids (s : Stmt) (d : DB) :
  keeps_ids s = true -> fresh_ids d -> fresh_ids (exec s d).
Proof.
  intros Hs (He & Hr & Hi & Hq & Ha). unfold fresh_ids.
  destruct s; cbn [exec keeps_ids] in *.
  - unfold db.upsert_user. repeat case_match; cbn; fresh_step.
    all: unfold db.cascade_username; repeat case_match; cbn; fresh_step.
  - unfold db.set_user_role. cbn. fresh_step.
  - unfold db.create_event, bind, db.nextval_events. cbn.
    repeat case_match; cbn; fresh_step.
  - destruct (update_event_cases event_id fields d) as [->|[-> _]]; [done|].
    cbn. fresh_step. apply Forall_map_key; [|done].
    intros e. case_bool_decide; [|done]. rewrite assigned_id.
    by destruct (db.new_id fields).
  - unfold db.delete_event. cbn. fresh_step.
  - rewrite register_for_event_eq. cbv zeta.
    repeat case_match; cbn; fresh_step.
  - unfold db.create_info, bind, db.nextval_info. cbn.
    repeat case_match; cbn; fresh_step.
  - destruct (update_info_cases info_id fields d) as [->|[-> _]]; [done|].
    cbn. fresh_step. apply Forall_map_key; [|done].
    intros i. case_bool_decide; [|done]. cbn. rewrite info_assigned_id.
    by destruct (db.info_new_id fields).
  - unfold db.delete_info. cbn. fresh_step.
  - unfold db.create_admin_request, bind, ret, raise, db.nextval_admin_requests.
    repeat case_match; simplify_eq/=; fresh_step.
  - unfold db.approve_request. cbn. fresh_step.
  - unfold db.reject_request. cbn. fresh_step.
  - unfold db.grant_table_access, bind, db.nextval_admin_table_access. cbn.
    repeat case_match; cbn; fresh_step.
Qed.

Lemma exec_keys (s : Stmt) (d : DB) :
  keeps_ids s = true ->
  fresh_ids d -> primary_keys d -> fresh_ids (exec s d) /\ primary_keys (exec s d).
Proof. intros Hs Hf Hk. split; [by apply exec_fresh_ids|by apply exec_primary_keys]. Qed.

(** X2.  Whatever statements of [db.py] run, and whether they return or
    raise, no two rows of a table come to share a primary key: this holds
    for [update_event] and [update_info] assigning any column, the id
    too.  Each sequence stays ahead of every id of its table as long as no
    [SET] list assigns an id. *)
Theorem primary_keys_kept (l : list Stmt) (d : DB) :
  (primary_keys d -> primary_keys (execs l d))
  /\ (forallb keeps_ids l = true -> fresh_ids d -> fresh_ids (execs l d)).
Proof.
  split.
  - revert d. induction l as [|s l IH]; intros d Hk; [done|]. cbn.
    apply IH. by apply exec_primary_keys.
  - revert d. induction l as [|s l IH]; intros d Hl Hf; [done|]. cbn in *.
    apply andb_prop in Hl as [Hs Hl]. apply IH; [done|]. by apply exec_fresh_ids.
Qed.

(** Statements that fail among statements that pass: the second
    registration names no event, the first [update_event] would take the
    key of the picnic, which is taken. *)
Lemma primary_keys_kept_witness :
  let l := [stmt_create_event "Bible School" (Date 2025 1 15) None None None None None 0
              EventStatus.PENDING (Some "bob");
            stmt_register_for_event 1 "Bob" (Some "bob") (Some 2) None None None;
            stmt_register_for_event 9 "Bob" (Some "bob") (Some 2) None None None;
            stmt_upsert_user 2 (Some "robert") "Bob" None;
            stmt_update_event 2 [db.set_id 1];
            stmt_update_event 2 [db.set_id 40; db.set_created_by (Some "root")];
            stmt_delete_event 1] in
  primary_keys (execs l sample.db0)
  /\ map Event.id (events (execs l sample.db0)) = [40]
  /\ fresh_ids (execs (take 4 l) sample.db0).
Proof.
  intros l. split; [|split].
  - apply (proj1 (primary_keys_kept l sample.db0)).
    repeat split; by apply (bool_decide_unpack _); vm_compute.
  - by vm_compute.
  - apply (proj2 (primary_keys_kept (take 4 l) sample.db0)); [done|].
    repeat split; repeat constructor; by vm_compute.
Defined.

(** ** Applying for admin rights *)

(** [create_admin_request] without a payload. *)
Lemma create_request_ok (d : DB) username request_type telegram_id full_name phone
    requested_table comment :
  (forall r, r ∈ admin_requests d -> AdminRequest.id r < admin_requests_id_seq d) ->
  db.fk_telegram_id (users d) telegram_id = true ->
  let row := AdminRequest.mk (admin_requests_id_seq d) username telegram_id full_name
               phone requested_table request_type None comment
               RequestStatus.PENDING None (clock d) None in
  db.create_admin_request username request_type telegram_id full_name phone
                          requested_table None comment d =
    (Ok row, set_admin_requests (fun rs => rs ++ [row])
               (set_admin_requests_id_seq (fun n => n + 1) d)).
Proof.
  intros Hfresh Hfk row. unfold db.create_admin_request.
  unfold bind, ret, db.nextval_admin_requests.
  cbn [admin_requests users clock set_admin_requests_id_seq].
  by rewrite (existsb_fresh AdminRequest.id _ _ Hfresh), Hfk.
Qed.

Lemma get_user_eq (w : World) (tid : Z) :
  lift_db (db.get_user tid) w =
    (Ok (find (fun v => bool_decide (User.telegram_id v = tid)) (users (database w))), w).
Proof. unfold db.get_user. by rewrite lift_db_gets. Qed.

(** The notification loop: one attempt per super-admin, in order; an
    attempt that fails leaves one record in the log and the loop goes on. *)
Lemma notify_super_admins_log (sa_ids : list Z) (t : Text) :
  forall w, exists w',
    notify_super_admins sa_ids t w = (Ok tt, w')
    /\ database w' = database w
    /\ replies w' = replies w
    /\ sent w' = sent w ++ map (fun sa_id => (sa_id, t)) sa_ids
    /\ log w' = log w ++ map (fun sa_id => LogException "Failed to notify super_admin %s"
                                             [PInt sa_id])
                             (undelivered (delivery w) (length (sent w)) sa_ids).
Proof.
  induction sa_ids as [|sa_id rest IH]; intros w; cbn [notify_super_admins undelivered].
  - exists w. repeat split; try done; cbn; by rewrite app_nil_r.
  - unfold bind at 1, try_except, send_message.
    destruct (delivery w (length (sent w)) sa_id) eqn:Hd.
    + destruct (IH (set_sent (fun l => l ++ [(sa_id, t)]) w))
        as (w' & -> & ? & ? & Hs & Hl).
      exists w'. repeat split; try done.
      * rewrite Hs. cbn. by rewrite <- app_assoc.
      * rewrite Hl. cbn. rewrite length_app. cbn.
        by replace (length (sent w) + 1)%nat with (S (length (sent w))) by lia.
    + unfold logger, modify.
      destruct (IH (set_log (fun l => l ++ [LogException "Failed to notify super_admin %s"
                                              [PInt sa_id]])
                      (set_sent (fun l => l ++ [(sa_id, t)]) w)))
        as (w' & -> & ? & ? & Hs & Hl).
      exists w'. repeat split; try done.
      * rewrite Hs. cbn. by rewrite <- app_assoc.
      * rewrite Hl. cbn. rewrite length_app, <- app_assoc. cbn.
        by replace (length (sent w) + 1)%nat with (S (length (sent w))) by lia.
Qed.

(** A regular user's application is filed. *)
Lemma apply_admin_user (w : World) (update : Update) (u : User.t) :
  let tg := effective_user update in
  let d := database w in
  find (fun v => bool_decide (User.telegram_id v = tg_id tg)) (users d) = Some u ->
  User.role u = UserRole.USER ->
  Forall (fun r => AdminRequest.id r < admin_requests_id_seq d) (admin_requests d) ->
  exists w1,
    cmd_apply_admin update w = (Ok None, w1)
    /\ database w1 =
         set_admin_requests (fun rs => rs ++ [admin_application tg u d])
           (set_admin_requests_id_seq (fun n => n + 1) d)
    /\ map fst (sent w1) =
         map fst (sent w)
         ++ map User.telegram_id
              (filter (fun v => User.role v = UserRole.SUPER_ADMIN) (users d))
    /\ log w1 =
         log w
         ++ map (fun sa_id => LogException "Failed to notify super_admin %s" [PInt sa_id])
              (undelivered (delivery w) (length (sent w))
                 (map User.telegram_id
                    (filter (fun v => User.role v = UserRole.SUPER_ADMIN) (users d)))).
Proof.
  intros tg d Hfind Hrole Hfresh. unfold cmd_apply_admin. fold tg.
  rewrite (bind_ok _ _ _ _ _ (get_user_eq _ _)). fold d. rewrite Hfind, Hrole.
  rewrite bool_decide_eq_false_2
    by (by intros [?|[?|?%elem_of_nil]%elem_of_cons]%elem_of_cons).
  pose proof (find_some_elem _ _ _ Hfind) as [Hu Hid].
  apply bool_decide_eq_true in Hid.
  rewrite Forall_forall in Hfresh.
  assert (db.fk_telegram_id (users d) (Some (tg_id tg)) = true) as Hfk.
  { rewrite <- Hid. by apply fk_of_user. }
  pose proof (create_request_ok d (request_name (tg_username tg) (tg_id tg))
                "admin_access" (Some (tg_id tg)) (Some (User.full_name u)) (User.phone u)
                None (Some "Заявка на получение прав админа") Hfresh Hfk) as Hreq.
  cbv zeta in Hreq.
  erewrite bind_ok; [|apply lift_db_eq; exact Hreq].
  unfold bind at 1, reply, modify.
  erewrite bind_ok; [|by apply lift_db_gets].
  match goal with
  | |- context [bind (notify_super_admins ?ids ?t) _ ?w0] =>
      set (ids0 := ids); set (w0' := w0);
      destruct (notify_super_admins_log ids0 t w0')
        as (w1 & Hn & Hdb & Hrep & Hsent & Hlog)
  end.
  assert (ids0 = map User.telegram_id
                   (filter (fun v => User.role v = UserRole.SUPER_ADMIN) (users d)))
    as Hids by done.
  assert (sent w0' = sent w) as Hs0 by done.
  assert (log w0' = log w) as Hl0 by done.
  assert (delivery w0' = delivery w) as Hdel by done.
  assert (database w0' =
            set_admin_requests (fun rs => rs ++ [admin_application tg u d])
              (set_admin_requests_id_seq (fun n => n + 1) d)) as Hd0 by done.
  clearbody ids0 w0'.
  exists w1. rewrite (bind_ok _ _ _ _ _ Hn). split; [done|].
  rewrite Hdb, Hsent, Hlog, Hs0, Hl0, Hd0, Hdel. split; [done|]. split.
  - rewrite map_app, map_map. cbn. by rewrite map_id, Hids.
  - by rewrite Hids.
Qed.

(** X3.  [/apply_admin] by who asks.  Someone the bot does not know is
    sent to /start, an admin or super-admin is told so, and neither files
    anything.  A regular user files exactly one request: pending, of type
    admin_access, under the Telegram handle, or under the decimal id when
    there is none, with the name and phone of the stored row.  Every
    super-admin is then tried once, in the order of the table; each
    failed delivery leaves one record in the log, and nothing else does,
    and the loop goes on. *)
Theorem apply_admin_by_role (w : World) (update : Update) :
  let tg := effective_user update in
  let d := database w in
  let found := find (fun v => bool_decide (User.telegram_id v = tg_id tg)) (users d) in
  (found = None ->
     cmd_apply_admin update w =
       (Ok None, set_replies (fun l => l ++ [Body (PStr "Сначала отправьте /start.")]) w))
  /\ (forall u, found = Some u -> User.role u <> UserRole.USER ->
     cmd_apply_admin update w =
       (Ok None,
        set_replies (fun l => l ++ [Body (PStr "Вы уже являетесь администратором.")]) w))
  /\ (forall u, found = Some u -> User.role u = UserRole.USER ->
     Forall (fun r => AdminRequest.id r < admin_requests_id_seq d) (admin_requests d) ->
     exists w1,
       cmd_apply_admin update w = (Ok None, w1)
       /\ database w1 =
            set_admin_requests (fun rs => rs ++ [admin_application tg u d])
              (set_admin_requests_id_seq (fun n => n + 1) d)
       /\ map fst (sent w1) =
            map fst (sent w)
            ++ map User.telegram_id
                 (filter (fun v => User.role v = UserRole.SUPER_ADMIN) (users d))
       /\ log w1 =
            log w
            ++ map (fun sa_id => LogException "Failed to notify super_admin %s"
                                   [PInt sa_id])
                 (undelivered (delivery w) (length (sent w))
                    (map User.telegram_id
                       (filter (fun v => User.role v = UserRole.SUPER_ADMIN) (users d))))).
Proof.
  intros tg d found. subst found. repeat split.
  - intros Hfind. unfold cmd_apply_admin. fold tg.
    rewrite (bind_ok _ _ _ _ _ (get_user_eq _ _)). fold d. by rewrite Hfind.
  - intros u Hfind Hrole. unfold cmd_apply_admin. fold tg.
    rewrite (bind_ok _ _ _ _ _ (get_user_eq _ _)). fold d. rewrite Hfind.
    rewrite bool_decide_eq_true_2; [done|]. destruct (User.role u); [done| |].
    + apply elem_of_cons. by left.
    + apply elem_of_cons. right. apply elem_of_cons. by left.
  - intros u Hfind Hrole Hfresh. by apply apply_admin_user.
Qed.

(** Ann applies: her request is the second one, and Root is tried.  It is
    the second delivery of the day, the one that fails, so it is logged. *)
Lemma apply_admin_by_role_witness :
  let w := set_sent (fun _ => [(7, Welcome "Ann")]) (sample.world sample.db0) in
  let w1 := snd (cmd_apply_admin
                   (mkUpdate sample.tg_ann (Command "apply_admin" "/apply_admin")) w) in
  map AdminRequest.username (admin_requests (database w1)) = ["bob"; "ann"]
  /\ map fst (sent w1) = [7; 1]
  /\ log w1 = [LogException "Failed to notify super_admin %s" [PInt 1]].
Proof.
  intros w w1.
  pose proof (apply_admin_by_role w
                (mkUpdate sample.tg_ann (Command "apply_admin" "/apply_admin")))
    as Hall.
  cbv zeta in Hall. destruct Hall as (_ & _ & Huser).
  destruct (Huser sample.ann ltac:(by vm_compute) eq_refl
              ltac:(repeat constructor; by vm_compute))
    as (w1' & Hrun & Hdb & Hsent & Hlog).
  assert (w1 = w1') as Hw1 by exact (f_equal snd Hrun).
  rewrite Hw1, Hdb, Hsent, Hlog. clear. by vm_compute.
Defined.

(** Approving an [admin_access] request that names no table. *)
Lemma approve_admin_access `{Builtins} (w : World) (tg_su : TgUser) (su : User.t)
    (rid : Z) (r : AdminRequest.t) :
  find (fun v => bool_decide (User.telegram_id v = tg_id tg_su)) (users (database w))
    = Some su ->
  User.role su = UserRole.SUPER_ADMIN ->
  find (db.pending_with_id rid) (admin_requests (database w)) = Some r ->
  AdminRequest.request_type r = "admin_access" ->
  nonempty (AdminRequest.requested_table r) = None ->
  exists w3,
    handle_request_decision (mkUpdate tg_su (CallbackQuery (cb_sa true rid))) w
      = (Ok None, w3)
    /\ users (database w3)
       = promoted (AdminRequest.username r) UserRole.ADMIN (users (database w))
    /\ replies w3
       = replies w ++ [Decided rid "admin_access" true (AdminRequest.username r)]
    /\ exists l, log w3
         = log w ++ LogInfo "Granted admin role to @%s" [PStr (AdminRequest.username r)]
                    :: l.
Proof.
  intros Hsu Hrole Hfind Hty Htable. unfold handle_request_decision.
  rewrite (require_role_allowed _ _ (mkUpdate tg_su _) _ su Hsu)
    by (rewrite Hrole; by apply list_elem_of_singleton).
  unfold handle_request_decision_body. cbn [content].
  rewrite (bind_ok _ _ _ _ _ (cached_db_user_set _ _)).
  set (w' := set_user_data (insert "db_user" (PUser su)) w).
  assert (lift_db (db.approve_request rid (User.username su)) w'
          = (Ok (Some (db.reviewed RequestStatus.APPROVED (User.username su)
                         (clock (database w)) r)),
             approved_world rid (User.username su) w')) as Happ.
  { unfold lift_db, db.approve_request. cbn [database w' set_user_data]. by rewrite Hfind. }
  rewrite (bind_ok _ _ _ _ _ Happ).
  unfold _apply_approval. cbn [db.reviewed AdminRequest.request_type
    AdminRequest.username AdminRequest.requested_table AdminRequest.telegram_id
    AdminRequest.id].
  rewrite Hty, Htable. cbn [String.eqb Ascii.eqb Bool.eqb].
  unfold bind, ret, lift_db, db.set_user_role, logger, reply, modify.
  cbn [fst snd].
  destruct (AdminRequest.telegram_id r) as [tid|].
  - destruct (negb (tid =? 0)).
    + unfold try_except, send_message. cbn [delivery sent set_replies set_log].
      match goal with |- context [delivery ?a ?n tid] =>
        destruct (delivery a n tid) end.
      * eexists. split; [reflexivity|]. repeat split. by exists [].
      * eexists. split; [reflexivity|]. repeat split.
        eexists [_]. cbn. by rewrite <- app_assoc.
    + eexists. split; [reflexivity|]. repeat split. by exists [].
  - eexists. split; [reflexivity|]. repeat split. by exists [].
Qed.

(** X4.  An application and its approval.  After a regular user applied
    and a super-admin approved that request, the users promoted to admin
    are exactly those whose stored handle equals the name the request was
    filed under: the applicant's Telegram handle, or the decimal id when
    there is none.  So an applicant whose stored handle is that name is an
    admin afterwards; when no stored handle equals it (an applicant without
    a handle, say), no row of [users] changes, and still the reviewer is
    told the request is approved and the grant is logged. *)
Theorem admin_application_round_trip `{Builtins} (w : World) (update : Update)
    (tg_su : TgUser) (u su : User.t) :
  let tg := effective_user update in
  let d := database w in
  let name := request_name (tg_username tg) (tg_id tg) in
  let rid := admin_requests_id_seq d in
  find (fun v => bool_decide (User.telegram_id v = tg_id tg)) (users d) = Some u ->
  User.role u = UserRole.USER ->
  Forall (fun r => AdminRequest.id r < admin_requests_id_seq d) (admin_requests d) ->
  find (fun v => bool_decide (User.telegram_id v = tg_id tg_su)) (users d) = Some su ->
  User.role su = UserRole.SUPER_ADMIN ->
  exists w1,
    cmd_apply_admin update w = (Ok None, w1)
    /\ forall w2, database w2 = database w1 ->
       exists w3,
         handle_request_decision (mkUpdate tg_su (CallbackQuery (cb_sa true rid))) w2
           = (Ok None, w3)
         /\ users (database w3) = promoted name UserRole.ADMIN (users d)
         /\ (User.username u = Some name ->
               find (fun v => bool_decide (User.telegram_id v = tg_id tg))
                    (users (database w3)) = Some (with_role UserRole.ADMIN u))
         /\ ((forall v, v ∈ users d -> User.username v <> Some name) ->
               users (database w3) = users d)
         /\ replies w3 = replies w2 ++ [Decided rid "admin_access" true name]
         /\ LogInfo "Granted admin role to @%s" [PStr name] ∈ log w3.
Proof.
  intros tg d name rid Hu Hrole Hfresh Hsu Hsurole.
  destruct (apply_admin_user w update u Hu Hrole Hfresh) as (w1 & Hrun & Hdb & _).
  fold tg d in Hdb. exists w1. split; [done|]. intros w2 Hw2.
  rewrite Hdb in Hw2.
  assert (users (database w2) = users d) as Husers by (by rewrite Hw2).
  assert (find (db.pending_with_id rid) (admin_requests (database w2))
          = Some (admin_application tg u d)) as Hreq.
  { rewrite Hw2. cbn [admin_requests set_admin_requests set_admin_requests_id_seq].
    apply find_app_none.
    - apply find_none_elem. intros r Hr. rewrite Forall_forall in Hfresh.
      apply Hfresh in Hr. unfold db.pending_with_id.
      rewrite bool_decide_eq_false_2; [done|]. subst rid. lia.
    - unfold db.pending_with_id. cbn. by rewrite !bool_decide_eq_true_2. }
  rewrite <- Husers in Hsu.
  destruct (approve_admin_access w2 tg_su su rid _ Hsu Hsurole Hreq eq_refl eq_refl)
    as (w3 & Hdec & Hus & Hrep & l & Hlog).
  cbn [admin_application AdminRequest.username] in Hus, Hrep, Hlog. fold name in Hus, Hrep, Hlog.
  rewrite Husers in Hus.
  exists w3. split; [done|]. split; [done|]. split; [|split; [|split; [done|]]].
  - intros Hname. rewrite Hus. unfold promoted.
    rewrite find_map_stable by (intros x; by case_match).
    rewrite Hu. cbn. by rewrite bool_decide_eq_true_2.
  - intros Hnone. rewrite Hus. unfold promoted. apply map_fixed.
    intros v Hv. rewrite bool_decide_eq_false_2; [done|]. by apply Hnone.
  - rewrite Hlog. apply elem_of_app. right. by left.
Qed.

(** Ann applies and Root approves: Ann is an admin. *)
Lemma admin_application_round_trip_witness :
  let w := sample.world sample.db0 in
  let w1 := snd (cmd_apply_admin
                   (mkUpdate sample.tg_ann (Command "apply_admin" "/apply_admin")) w) in
  let w3 := snd (@handle_request_decision ascii_text.builtins
                   (mkUpdate sample.tg_root (CallbackQuery (cb_sa true 2))) w1) in
  map User.role (users (database w3))
    = [UserRole.SUPER_ADMIN; UserRole.ADMIN; UserRole.ADMIN].
Proof.
  intros w w1 w3.
  destruct (@admin_application_round_trip ascii_text.builtins w
              (mkUpdate sample.tg_ann (Command "apply_admin" "/apply_admin"))
              sample.tg_root sample.ann sample.root
              ltac:(by vm_compute) eq_refl ltac:(repeat constructor; by vm_compute)
              ltac:(by vm_compute) eq_refl) as (w1' & Hrun & Hnext).
  destruct (Hnext w1' eq_refl) as (w3' & Hdec & Hus & _).
  change (admin_requests_id_seq (database w)) with 2 in Hdec.
  subst w3 w1. rewrite Hrun. cbn [snd]. rewrite Hdec. cbn [snd]. rewrite Hus.
  by vm_compute.
Defined.

(** ** The activate and archive buttons of the panel *)

(** [create_admin_request] with the payload of an event request. *)
Lemma create_payload_request_ok (d : DB) username request_type telegram_id full_name
    comment (event_id : Z) (event_title : string) :
  (forall r, r ∈ admin_requests d -> AdminRequest.id r < admin_requests_id_seq d) ->
  db.fk_telegram_id (users d) telegram_id = true ->
  let payload : gmap string PyVal :=
    {[ "event_id" := PInt event_id; "event_title" := PStr event_title ]} in
  let row := AdminRequest.mk (admin_requests_id_seq d) username telegram_id full_name
               None None request_type (Some payload) comment
               RequestStatus.PENDING None (clock d) None in
  db.create_admin_request username request_type telegram_id full_name None None
                          (Some payload) comment d =
    (Ok row, set_admin_requests (fun rs => rs ++ [row])
               (set_admin_requests_id_seq (fun n => n + 1) d)).
Proof.
  intros Hfresh Hfk payload row. unfold db.create_admin_request.
  assert (bool_decide (payload = ∅) = false) as ->.
  { apply bool_decide_eq_false. apply insert_non_empty. }
  assert (bool_decide (map_Forall (fun _ v => json_serializable v = true) payload) = true)
    as ->.
  { apply bool_decide_eq_true. apply map_Forall_insert_2; [done|].
    by apply map_Forall_singleton. }
  unfold bind, ret, db.nextval_admin_requests.
  cbn [admin_requests users clock set_admin_requests_id_seq].
  by rewrite (existsb_fresh AdminRequest.id _ _ Hfresh), Hfk.
Qed.

Lemma get_event_eq (w : World) (event_id : Z) :
  lift_db (db.get_event event_id) w =
    (Ok (find (fun e => bool_decide (Event.id e = event_id)) (events (database w))), w).
Proof. unfold db.get_event. by rewrite lift_db_gets. Qed.


(** An admin's press files a request and leaves the event as it is. *)
Lemma event_activate_admin (w : World) (u : User.t) (event_id : Z) (ev : Event.t) :
  let d := database w in
  user_data w !! "db_user" = Some (PUser u) ->
  u ∈ users d ->
  User.role u <> UserRole.SUPER_ADMIN ->
  Forall (fun r => AdminRequest.id r < admin_requests_id_seq d) (admin_requests d) ->
  find (fun e => bool_decide (Event.id e = event_id)) (events d) = Some ev ->
  exists w1,
    _event_activate event_id w = (Ok tt, w1)
    /\ database w1 =
         set_admin_requests
           (fun rs => rs ++ [activation_request u event_id (Event.title ev) d])
           (set_admin_requests_id_seq (fun n => n + 1) d).
Proof.
  intros d Hu Hin Hrole Hfresh Hev. unfold _event_activate.
  rewrite (bind_ok _ _ _ _ _ (cached_db_user_eq _ _ Hu)).
  rewrite bool_decide_eq_false_2 by done.
  rewrite (bind_ok _ _ _ _ _ (get_event_eq _ _)). fold d. rewrite Hev.
  rewrite Forall_forall in Hfresh.
  pose proof (create_payload_request_ok d
                (request_name (User.username u) (User.telegram_id u))
                "event_activation" (Some (User.telegram_id u)) (Some (User.full_name u))
                (Some ("Запрос на активацию мероприятия «" +:+ Event.title ev +:+ "»"))
                event_id (Event.title ev) Hfresh (proj2 (fk_of_user u _ Hin))) as Hreq.
  cbv zeta in Hreq.
  erewrite bind_ok; [|apply lift_db_eq; exact Hreq].
  unfold bind at 1, reply, modify.
  erewrite bind_ok; [|by apply lift_db_gets].
  match goal with
  | |- context [notify_super_admins ?ids ?t ?w0] =>
      destruct (notify_super_admins_ok ids t w0) as (w1 & Hn & Hdb & _)
  end.
  exists w1. split; [done|]. by rewrite Hdb.
Qed.





Lemma archive_event_eq (event_id : Z) (d : DB) :
  db.archive_event event_id d =
    (Ok (db.with_status EventStatus.ARCHIVED
           <$> find (fun e => bool_decide (Event.id e = event_id)) (events d)),
     set_events (fun es => with_status_at EventStatus.ARCHIVED event_id es) d).
Proof. reflexivity. Qed.

Lemma event_archive_eq (w : World) (event_id : Z) :
  exists w1,
    _event_archive event_id w = (Ok tt, w1)
    /\ database w1 =
         set_events (fun es => with_status_at EventStatus.ARCHIVED event_id es) (database w)
    /\ user_data w1 = user_data w.
Proof.
  unfold _event_archive.
  erewrite bind_ok; [|apply lift_db_eq, archive_event_eq].
  destruct (find _ _); cbn; eexists; (split; [reflexivity|done]).
Qed.

(** X6.  The "archive" button needs no review.  An admin's press sets the
    event to archived at once and files nothing.  The way back is not
    open to the same admin: pressing "activate" next leaves the event
    archived and files a request for a super-admin to decide. *)
Theorem admin_archives_without_review (w : World) (update : Update) (u : User.t)
    (event_id : Z) (ev : Event.t) :
  let tg := effective_user update in
  let d := database w in
  find (fun v => bool_decide (User.telegram_id v = tg_id tg)) (users d) = Some u ->
  User.role u = UserRole.ADMIN ->
  Forall (fun r => AdminRequest.id r < admin_requests_id_seq d) (admin_requests d) ->
  find (fun e => bool_decide (Event.id e = event_id)) (events d) = Some ev ->
  exists w1,
    admin_callback (adm_event_archive event_id) update w = (Ok None, w1)
    /\ database w1 =
         set_events (fun es => with_status_at EventStatus.ARCHIVED event_id es) d
    /\ exists w2,
         admin_callback (adm_event_activate event_id) update w1 = (Ok None, w2)
         /\ events (database w2) = with_status_at EventStatus.ARCHIVED event_id (events d)
         /\ admin_requests (database w2) =
              admin_requests d ++ [activation_request u event_id (Event.title ev) d].
Proof.
  intros tg d Hu Hrole Hfresh Hev.
  assert (User.role u ∈ [UserRole.ADMIN; UserRole.SUPER_ADMIN]) as Hallowed.
  { rewrite Hrole. apply elem_of_cons. by left. }
  pose proof (find_some_elem _ _ _ Hu) as [Hin _].
  unfold admin_callback at 1.
  rewrite (require_role_allowed _ _ _ _ u Hu Hallowed). unfold admin_callback_body.
  destruct (event_archive_eq (set_user_data (insert "db_user" (PUser u)) w) event_id)
    as (w1 & Hrun & Hdb & Hud).
  rewrite (bind_ok _ _ _ _ _ Hrun). exists w1. split; [done|].
  change (database (set_user_data _ w)) with d in Hdb. split; [done|].
  assert (users (database w1) = users d) as Husers by (by rewrite Hdb).
  unfold admin_callback.
  rewrite (require_role_allowed _ _ _ _ u) by (by rewrite ?Husers).
  unfold admin_callback_body.
  destruct (event_activate_admin (set_user_data (insert "db_user" (PUser u)) w1) u
              event_id (db.with_status EventStatus.ARCHIVED ev))
    as (w2 & Hrun2 & Hdb2).
  - apply lookup_insert_eq.
  - cbn [database set_user_data]. by rewrite Husers.
  - by rewrite Hrole.
  - cbn [database set_user_data]. by rewrite Hdb.
  - cbn [database set_user_data]. rewrite Hdb. cbn [events set_events].
    unfold with_status_at. rewrite find_map_stable by (intros x; by case_match).
    rewrite Hev. cbn. pose proof (find_some_elem _ _ _ Hev) as [_ Hid].
    by rewrite Hid.
  - rewrite (bind_ok _ _ _ _ _ Hrun2). exists w2. split; [done|].
    rewrite Hdb2. cbn [database set_user_data]. by rewrite Hdb.
Qed.

(** Bob archives the picnic and then asks for it back. *)
Lemma admin_archives_without_review_witness :
  let w := sample.world sample.db0 in
  let press data := admin_callback data
                      (mkUpdate sample.tg_bob (CallbackQuery cb_adm_create_event)) in
  let w1 := snd (press (adm_event_archive 1) w) in
  let w2 := snd (press (adm_event_activate 1) w1) in
  map Event.status (events (database w1)) = [EventStatus.ARCHIVED]
  /\ map Event.status (events (database w2)) = [EventStatus.ARCHIVED]
  /\ map AdminRequest.request_type (admin_requests (database w2))
     = ["broadcast"; "event_activation"].
Proof.
  intros w press w1 w2.
  destruct (admin_archives_without_review w
              (mkUpdate sample.tg_bob (CallbackQuery cb_adm_create_event)) sample.bob 1
              sample.picnic ltac:(by vm_compute) eq_refl
              ltac:(repeat constructor; by vm_compute) ltac:(by vm_compute))
    as (w1' & Hrun & Hdb & w2' & Hrun2 & Hev & Hreq).
  assert (w1 = w1') as Hw1 by exact (f_equal snd Hrun).
  assert (w2 = w2') as Hw2.
  { unfold w2. rewrite Hw1. exact (f_equal snd Hrun2). }
  rewrite Hw2, Hw1, Hdb, Hev, Hreq. clear. vm_compute. by repeat split.
Defined.

(** ** Confirming a first registration *)

(** The press on "yes" of an actor who holds no registration yet. *)
Lemma confirm_first_eq (w : World) (tg : TgUser) (event_id : Z)
    (name : string) (phone level : option string) (title : PyVal) :
  let d := database w in
  let row := EventRegistration.mk (event_registrations_id_seq d) event_id (tg_username tg)
               (Some (tg_id tg)) name phone level None (clock d) in
  find (db.reg_conflict event_id (Some (tg_id tg))) (event_registrations d) = None ->
  Forall (fun r => EventRegistration.id r < event_registrations_id_seq d)
         (event_registrations d) ->
  user_data w !! "reg_event_id" = Some (PInt event_id) ->
  user_data w !! "reg_name" = Some (PStr name) ->
  user_data w !! "reg_phone" = Some (py_opt phone) ->
  user_data w !! "reg_level" = Some (py_opt level) ->
  user_data w !! "reg_event_title" = Some title ->
  confirm (mkUpdate tg (CallbackQuery (cb_reg_confirm true))) w =
    if db.fk_event_id (events d) event_id && db.fk_telegram_id (users d) (Some (tg_id tg))
    then (Ok (Some END),
          set_replies (fun l => l ++ [Registered title])
            (set_database
               (fun _ => set_event_registrations (fun rs => rs ++ [row])
                           (set_event_registrations_id_seq (fun n => n + 1) d)) w))
    else (Ok (Some END),
          set_replies (fun l => l ++ [RegFailed])
            (set_log (fun l => l ++ [LogException "Registration failed" []])
               (set_database
                  (fun _ => set_event_registrations_id_seq (fun n => n + 1) d) w))).
Proof.
  intros d row Hnew Hfresh Hid Hname Hphone Hlevel Htitle.
  rewrite Forall_forall in Hfresh.
  unfold confirm. cbn [content negb effective_user]. eff.
  rewrite Hid, Hname, Hphone, Hlevel. cbn.
  assert (forall S, @sql_text_opt S (Some (py_opt phone)) = ret phone) as Hp
    by (intros; apply sql_text_opt_py_opt).
  assert (forall S, @sql_text_opt S (Some (py_opt level)) = ret level) as Hl
    by (intros; apply sql_text_opt_py_opt).
  rewrite Hp, Hl. unfold ret.
  rewrite register_for_event_eq. cbv zeta. fold d. rewrite Hnew.
  rewrite (existsb_fresh EventRegistration.id _ _ Hfresh).
  destruct (db.fk_event_id (events d) event_id) eqn:He; cbn [negb andb]; [|by cbn].
  unfold db.fk_telegram_id.
  destruct (existsb _ (users d)) eqn:Ht; cbn [negb andb]; [|by cbn].
  cbn. by rewrite Htitle.
Qed.

(** X7.  A first confirmation.  When the actor holds no registration for
    the event yet, the press on "yes" ends the conversation and consumes
    an id in every case.  If the event still exists and the actor has a
    row in [users], the registration is appended with the collected
    fields, whatever the capacity, the number of registrations and the
    status of the event are by then.  If the event is gone, or the actor
    never sent /start, the statement fails: the failure is logged, the
    actor gets the error message and no row is stored. *)
Theorem confirm_first_registration (w : World) (tg : TgUser) (event_id : Z)
    (name : string) (phone level : option string) (title : PyVal) :
  let d := database w in
  let yes := confirm (mkUpdate tg (CallbackQuery (cb_reg_confirm true))) w in
  let row := EventRegistration.mk (event_registrations_id_seq d) event_id (tg_username tg)
               (Some (tg_id tg)) name phone level None (clock d) in
  find (db.reg_conflict event_id (Some (tg_id tg))) (event_registrations d) = None ->
  Forall (fun r => EventRegistration.id r < event_registrations_id_seq d)
         (event_registrations d) ->
  user_data w !! "reg_event_id" = Some (PInt event_id) ->
  user_data w !! "reg_name" = Some (PStr name) ->
  user_data w !! "reg_phone" = Some (py_opt phone) ->
  user_data w !! "reg_level" = Some (py_opt level) ->
  user_data w !! "reg_event_title" = Some title ->
  fst yes = Ok (Some END)
  /\ event_registrations_id_seq (database (snd yes)) = event_registrations_id_seq d + 1
  /\ (db.fk_event_id (events d) event_id = true ->
      db.fk_telegram_id (users d) (Some (tg_id tg)) = true ->
      event_registrations (database (snd yes)) = event_registrations d ++ [row]
      /\ replies (snd yes) = replies w ++ [Registered title]
      /\ log (snd yes) = log w)
  /\ (db.fk_event_id (events d) event_id = false
      \/ db.fk_telegram_id (users d) (Some (tg_id tg)) = false ->
      event_registrations (database (snd yes)) = event_registrations d
      /\ replies (snd yes) = replies w ++ [RegFailed]
      /\ log (snd yes) = log w ++ [LogException "Registration failed" []]).
Proof.
  intros d yes row Hnew Hfresh Hid Hname Hphone Hlevel Htitle.
  subst yes.
  rewrite (confirm_first_eq w tg event_id name phone level title) by done.
  fold d.
  destruct (db.fk_event_id (events d) event_id),
    (db.fk_telegram_id (users d) (Some (tg_id tg))); cbn.
  all: split; [done|]; split; [done|]; split.
  all: try (by intros ? ?).
  all: try (by intros [?|?]).
Qed.

(** Zed never sent /start; the picnic is there, but his confirmation
    fails and Ann's row stays the only one. *)
Lemma confirm_first_registration_witness :
  let w := set_user_data
             (fun _ => <["reg_event_id" := PInt 1]>
                         (<["reg_name" := PStr "Zed"]>
                            (<["reg_phone" := PNone]>
                               (<["reg_level" := PNone]>
                                  {["reg_event_title" := PStr "Picnic"]}))))
             (sample.world sample.db0) in
  let yes := confirm (mkUpdate (mkTgUser 99 None "Zed" "Zed")
                        (CallbackQuery (cb_reg_confirm true))) w in
  replies (snd yes) = [RegFailed]
  /\ map EventRegistration.full_name (event_registrations (database (snd yes))) = ["Ann"].
Proof.
  intros w yes.
  pose proof (confirm_first_registration w (mkTgUser 99 None "Zed" "Zed") 1 "Zed"
                None None (PStr "Picnic")
                ltac:(by vm_compute) ltac:(repeat constructor; by vm_compute)
                ltac:(by vm_compute) ltac:(by vm_compute) ltac:(by vm_compute)
                ltac:(by vm_compute) ltac:(by vm_compute)) as Hall.
  cbv zeta in Hall. destruct Hall as (_ & _ & _ & Hfail).
  destruct (Hfail ltac:(right; by vm_compute)) as (Hrows & Hrep & _).
  subst yes. rewrite Hrows, Hrep. clear. vm_compute. by repeat split.
Defined.

(** ** The registration conversation, end to end *)

Lemma feed_step (c : ConversationHandler) (s s' : option Z) (u : Update)
    (rest : list Update) (w w' : World) :
  handle_update c s u w = (Ok s', w') -> feed c s (u :: rest) w = feed c s' rest w'.
Proof. intros Hstep. cbn [feed]. by rewrite Hstep. Qed.

Section RegistrationWalk.
Context `{Builtins} `{Claude}.

Lemma walk_name (w : World) (tg : TgUser) (c : Content) (raw : string) :
  answer_text c = Some raw ->
  handle_update reg_conv (Some ASK_NAME) (mkUpdate tg c) w =
    (Ok (Some ASK_PHONE),
     set_replies (fun l => l ++ [RegAskPhone])
       (match answer raw with
        | Some text => set_user_data (insert "reg_name" (PStr text)) w
        | None => w
        end)).
Proof.
  intros Hc. unfold handle_update, answer.
  destruct c as [t|n t|cb]; cbn in Hc; [| |done].
  - simplify_eq. cbn. unfold ask_name. eff. by destruct (negb _ && negb _).
  - destruct (String.eqb n "skip") eqn:Hn; [|done]. simplify_eq.
    cbn. rewrite Hn. cbn. unfold ask_name. eff. by destruct (negb _ && negb _).
Qed.

Lemma walk_phone (w : World) (tg : TgUser) (c : Content) (raw : string) :
  answer_text c = Some raw ->
  handle_update reg_conv (Some ASK_PHONE) (mkUpdate tg c) w =
    (Ok (Some ASK_LEVEL),
     set_replies (fun l => l ++ [RegAskLevel])
       (set_user_data (insert "reg_phone" (py_opt (answer raw))) w)).
Proof.
  intros Hc. unfold handle_update, answer.
  destruct c as [t|n t|cb]; cbn in Hc; [| |done].
  - simplify_eq. cbn. unfold ask_phone. eff. by destruct (negb _ && negb _).
  - destruct (String.eqb n "skip") eqn:Hn; [|done]. simplify_eq.
    cbn. rewrite Hn. cbn. unfold ask_phone. eff. by destruct (negb _ && negb _).
Qed.

Lemma walk_level (w : World) (tg : TgUser) (c : Content) (raw : string) :
  answer_text c = Some raw ->
  exists prompt,
    handle_update reg_conv (Some ASK_LEVEL) (mkUpdate tg c) w =
      (Ok (Some CONFIRM),
       set_replies (fun l => l ++ [prompt])
         (set_user_data (insert "reg_level" (py_opt (answer raw))) w)).
Proof.
  intros Hc. unfold handle_update, answer.
  destruct c as [t|n t|cb]; cbn in Hc; [| |done].
  - simplify_eq. cbn. unfold ask_level. eff. destruct (negb _ && negb _); by eexists.
  - destruct (String.eqb n "skip") eqn:Hn; [|done]. simplify_eq.
    cbn. rewrite Hn. cbn. unfold ask_level. eff. destruct (negb _ && negb _); by eexists.
Qed.

Lemma walk_start (w : World) (tg : TgUser) (event_id : Z) (ev : Event.t) (u : User.t) :
  let d := database w in
  find (fun e => bool_decide (Event.id e = event_id)) (events d) = Some ev ->
  Event.max_participants ev <= 0
  \/ Z.of_nat (length (filter (fun r => EventRegistration.event_id r = event_id)
                              (event_registrations d)))
     < Event.max_participants ev ->
  find (fun v => bool_decide (User.telegram_id v = tg_id tg)) (users d) = Some u ->
  User.full_name u <> "" ->
  exists prompt,
    handle_update reg_conv None (mkUpdate tg (CallbackQuery (cb_reg_start event_id))) w =
      (Ok (Some ASK_NAME),
       set_replies (fun l => l ++ [prompt])
         (set_user_data
            (fun ud => <["reg_name" := PStr (User.full_name u)]>
                         (<["reg_event_title" := PStr (Event.title ev)]>
                            (<["reg_event_id" := PInt event_id]> ud))) w)).
Proof.
  intros d Hev Hopen Hu Hname.
  destruct (reg_start_open w tg event_id ev Hev Hopen) as (prompt & _ & Hstart).
  fold d in Hstart. rewrite Hu in Hstart.
  apply String.eqb_neq in Hname. rewrite Hname in Hstart.
  exists prompt. unfold handle_update. cbn [reg_conv entry_points find fst snd content
    CallbackQueryHandler]. by rewrite (bind_ok _ _ _ _ _ Hstart).
Qed.

Lemma walk_confirm (w : World) (tg : TgUser) (event_id : Z)
    (name : string) (phone level : option string) (title : PyVal) :
  let d := database w in
  let row := EventRegistration.mk (event_registrations_id_seq d) event_id (tg_username tg)
               (Some (tg_id tg)) name phone level None (clock d) in
  find (db.reg_conflict event_id (Some (tg_id tg))) (event_registrations d) = None ->
  Forall (fun r => EventRegistration.id r < event_registrations_id_seq d)
         (event_registrations d) ->
  user_data w !! "reg_event_id" = Some (PInt event_id) ->
  user_data w !! "reg_name" = Some (PStr name) ->
  user_data w !! "reg_phone" = Some (py_opt phone) ->
  user_data w !! "reg_level" = Some (py_opt level) ->
  user_data w !! "reg_event_title" = Some title ->
  db.fk_event_id (events d) event_id = true ->
  db.fk_telegram_id (users d) (Some (tg_id tg)) = true ->
  handle_update reg_conv (Some CONFIRM)
                (mkUpdate tg (CallbackQuery (cb_reg_confirm true))) w =
    (Ok None,
     set_replies (fun l => l ++ [Registered title])
       (set_database
          (fun _ => set_event_registrations (fun rs => rs ++ [row])
                      (set_event_registrations_id_seq (fun n => n + 1) d)) w)).
Proof.
  intros d row Hnew Hfresh Hid Hname Hphone Hlevel Htitle Hfe Hft.
  pose proof (confirm_first_eq w tg event_id name phone level title Hnew Hfresh Hid Hname
                Hphone Hlevel Htitle) as Hyes.
  cbv zeta in Hyes. fold d in Hyes. rewrite Hfe, Hft in Hyes.
  unfold handle_update.
  cbn [reg_conv states state_handlers fallbacks find fst snd content app
       CallbackQueryHandler CommandHandler MessageHandler Z.eqb ASK_NAME ASK_PHONE
       ASK_LEVEL CONFIRM Pos.eqb].
  by rewrite (bind_ok _ _ _ _ _ Hyes).
Qed.

(** X8.  The registration conversation from the button to the row.  A
    known user with a stored name, holding no registration for the event,
    starts on an event with seats left, answers the three questions and
    confirms.  Each answer is a text or the command /skip; it counts as
    given unless its stripped text is empty or is exactly "/skip".  The
    conversation is over afterwards and exactly one registration has been
    appended: under the event and the actor's identity, with the name
    given, or else the stored name, and with the phone and the level
    given, or else none. *)
Theorem registration_walk (w : World) (tg : TgUser) (event_id : Z) (ev : Event.t)
    (u : User.t) (c_name c_phone c_level : Content) (raw_name raw_phone raw_level : string) :
  let d := database w in
  let updates :=
    [mkUpdate tg (CallbackQuery (cb_reg_start event_id));
     mkUpdate tg c_name; mkUpdate tg c_phone; mkUpdate tg c_level;
     mkUpdate tg (CallbackQuery (cb_reg_confirm true))] in
  let row :=
    EventRegistration.mk (event_registrations_id_seq d) event_id (tg_username tg)
      (Some (tg_id tg)) (default (User.full_name u) (answer raw_name))
      (answer raw_phone) (answer raw_level) None (clock d) in
  find (fun e => bool_decide (Event.id e = event_id)) (events d) = Some ev ->
  Event.max_participants ev <= 0
  \/ Z.of_nat (length (filter (fun r => EventRegistration.event_id r = event_id)
                              (event_registrations d)))
     < Event.max_participants ev ->
  find (fun v => bool_decide (User.telegram_id v = tg_id tg)) (users d) = Some u ->
  User.full_name u <> "" ->
  find (db.reg_conflict event_id (Some (tg_id tg))) (event_registrations d) = None ->
  Forall (fun r => EventRegistration.id r < event_registrations_id_seq d)
         (event_registrations d) ->
  answer_text c_name = Some raw_name ->
  answer_text c_phone = Some raw_phone ->
  answer_text c_level = Some raw_level ->
  exists w',
    feed reg_conv None updates w = (None, w')
    /\ event_registrations (database w') = event_registrations d ++ [row]
    /\ last (replies w') = Some (Registered (PStr (Event.title ev))).
Proof.
  intros d updates row Hev Hopen Hu Hfull Hnew Hfresh Hn Hp Hl. subst updates.
  destruct (walk_start w tg event_id ev u Hev Hopen Hu Hfull) as (prompt & Hstart).
  rewrite (feed_step _ _ _ _ _ _ _ Hstart).
  rewrite (feed_step _ _ _ _ _ _ _ (walk_name _ tg c_name raw_name Hn)).
  rewrite (feed_step _ _ _ _ _ _ _ (walk_phone _ tg c_phone raw_phone Hp)).
  destruct (walk_level
              (set_replies (fun l => l ++ [RegAskLevel])
                 (set_user_data (insert "reg_phone" (py_opt (answer raw_phone)))
                    (set_replies (fun l => l ++ [RegAskPhone])
                       (match answer raw_name with
                        | Some text =>
                            set_user_data (insert "reg_name" (PStr text))
                              (set_replies (fun l => l ++ [prompt])
                                 (set_user_data
                                    (fun ud =>
                                       <["reg_name" := PStr (User.full_name u)]>
                                         (<["reg_event_title" := PStr (Event.title ev)]>
                                            (<["reg_event_id" := PInt event_id]> ud))) w))
                        | None =>
                            set_replies (fun l => l ++ [prompt])
                              (set_user_data
                                 (fun ud =>
                                    <["reg_name" := PStr (User.full_name u)]>
                                      (<["reg_event_title" := PStr (Event.title ev)]>
                                         (<["reg_event_id" := PInt event_id]> ud))) w)
                        end))))
              tg c_level raw_level Hl) as (prompt' & Hlevel).
  rewrite (feed_step _ _ _ _ _ _ _ Hlevel).
  pose proof (find_some_elem _ _ _ Hev) as [Hein Heid].
  pose proof (find_some_elem _ _ _ Hu) as [Huin Huid].
  apply bool_decide_eq_true in Huid.
  assert (db.fk_event_id (events d) event_id = true) as Hfe.
  { by apply (existsb_elem _ _ ev). }
  assert (db.fk_telegram_id (users d) (Some (tg_id tg)) = true) as Hft.
  { rewrite <- Huid. by apply fk_of_user. }
  erewrite feed_step; [|apply (walk_confirm _ tg event_id
                                 (default (User.full_name u) (answer raw_name))
                                 (answer raw_phone) (answer raw_level)
                                 (PStr (Event.title ev)))].
  - cbn [feed]. eexists. split; [reflexivity|].
    destruct (answer raw_name); cbn; (split; [done|]); by rewrite last_snoc.
  - by destruct (answer raw_name).
  - by destruct (answer raw_name).
  - destruct (answer raw_name); cbn; by rewrite !lookup_insert_ne, ?lookup_insert_eq by done.
  - destruct (answer raw_name); cbn;
      rewrite !lookup_insert_ne by done; by rewrite lookup_insert_eq.
  - destruct (answer raw_name); cbn;
      rewrite lookup_insert_ne by done; by rewrite lookup_insert_eq.
  - destruct (answer raw_name); cbn; by rewrite lookup_insert_eq.
  - destruct (answer raw_name); cbn; rewrite !lookup_insert_ne by done;
      by rewrite lookup_insert_eq.
  - by destruct (answer raw_name).
  - by destruct (answer raw_name).
Qed.

End RegistrationWalk.

(** Bob registers for the picnic, which has two seats: he gives another
    name, skips the phone and tells his level. *)
Lemma registration_walk_witness :
  let w := sample.world (sample.db_of 2) in
  let updates :=
    [mkUpdate sample.tg_bob (CallbackQuery (cb_reg_start 1));
     mkUpdate sample.tg_bob (TextMessage " Robert ");
     mkUpdate sample.tg_bob (Command "skip" "/skip");
     mkUpdate sample.tg_bob (TextMessage "beginner");
     mkUpdate sample.tg_bob (CallbackQuery (cb_reg_confirm true))] in
  let w' := snd (feed (@reg_conv ascii_text.builtins) None updates w) in
  map (fun r => (EventRegistration.full_name r, EventRegistration.phone r,
                 EventRegistration.level r))
      (event_registrations (database w'))
  = [("Ann", None, None); ("Robert", None, Some "beginner")].
Proof.
  intros w updates w'.
  destruct (@registration_walk ascii_text.builtins w sample.tg_bob 1 (sample.picnic_of 2)
              sample.bob (TextMessage " Robert ") (Command "skip" "/skip")
              (TextMessage "beginner") " Robert " "/skip" "beginner"
              ltac:(by vm_compute) ltac:(right; by vm_compute) ltac:(by vm_compute)
              ltac:(done) ltac:(by vm_compute) ltac:(repeat constructor; by vm_compute)
              eq_refl eq_refl eq_refl) as (w1 & Hfeed & Hrows & _).
  assert (w' = w1) as Hw by exact (f_equal snd Hfeed).
  rewrite Hw, Hrows. clear. vm_compute. by repeat split.
Defined.

(** ** The event conversation, end to end *)

Section EventWalk.
Context `{Builtins} `{Claude}.

Lemma walk_evt_start (w : World) (update : Update) (u : User.t) :
  content update = CallbackQuery cb_adm_create_event ->
  find (fun v => bool_decide (User.telegram_id v = tg_id (effective_user update)))
       (users (database w)) = Some u ->
  User.role u ∈ [UserRole.ADMIN; UserRole.SUPER_ADMIN] ->
  handle_update evt_conv None update w =
    (Ok (Some EVT_TITLE),
     set_replies (fun l => l ++ [EvtAskTitle])
       (set_user_data (insert "db_user" (PUser u)) w)).
Proof.
  intros Hc Hu Hrole. unfold handle_update. rewrite Hc.
  cbn [evt_conv entry_points find fst snd CallbackQueryHandler].
  unfold evt_start. unfold bind at 1.
  by rewrite (require_role_allowed _ _ _ _ u Hu Hrole).
Qed.

Lemma walk_evt_title (w : World) (tg : TgUser) (raw : string) :
  handle_update evt_conv (Some EVT_TITLE) (mkUpdate tg (TextMessage raw)) w =
    (Ok (Some EVT_DATE),
     set_replies (fun l => l ++ [EvtAskDate])
       (set_user_data (insert "evt_title" (PStr (str_strip raw))) w)).
Proof. reflexivity. Qed.

Lemma walk_evt_date (w : World) (tg : TgUser) (raw : string) (dt : date) :
  date_fromisoformat (str_strip raw) = Some dt ->
  handle_update evt_conv (Some EVT_DATE) (mkUpdate tg (TextMessage raw)) w =
    (Ok (Some EVT_TIME),
     set_replies (fun l => l ++ [EvtAskTime])
       (set_user_data (insert "evt_date" (PDate dt)) w)).
Proof.
  intros Hd. unfold handle_update. cbn. unfold evt_date. eff. by rewrite Hd.
Qed.

Lemma walk_evt_time (w : World) (tg : TgUser) (c : Content) (raw : string) :
  answer_text c = Some raw ->
  handle_update evt_conv (Some EVT_TIME) (mkUpdate tg c) w =
    (Ok (Some EVT_PLACE),
     set_replies (fun l => l ++ [EvtAskPlace])
       (set_user_data (insert "evt_time" (py_opt (optional_answer raw))) w)).
Proof.
  intros Hc. unfold handle_update, optional_answer.
  destruct c as [t|n t|cb]; cbn in Hc; [| |done].
  - simplify_eq. cbn. unfold evt_time. eff. by destruct (String.eqb (str_strip _) "/skip").
  - destruct (String.eqb n "skip") eqn:Hn; [|done]. simplify_eq.
    cbn. rewrite Hn. cbn. unfold evt_time. eff. by destruct (String.eqb (str_strip _) "/skip").
Qed.

Lemma walk_evt_place (w : World) (tg : TgUser) (c : Content) (raw : string) :
  answer_text c = Some raw ->
  handle_update evt_conv (Some EVT_PLACE) (mkUpdate tg c) w =
    (Ok (Some EVT_DESC),
     set_replies (fun l => l ++ [EvtAskDesc])
       (set_user_data (insert "evt_place" (py_opt (optional_answer raw))) w)).
Proof.
  intros Hc. unfold handle_update, optional_answer.
  destruct c as [t|n t|cb]; cbn in Hc; [| |done].
  - simplify_eq. cbn. unfold evt_place. eff. by destruct (String.eqb (str_strip _) "/skip").
  - destruct (String.eqb n "skip") eqn:Hn; [|done]. simplify_eq.
    cbn. rewrite Hn. cbn. unfold evt_place. eff. by destruct (String.eqb (str_strip _) "/skip").
Qed.

Lemma walk_evt_desc (w : World) (tg : TgUser) (c : Content) (raw : string) :
  answer_text c = Some raw ->
  handle_update evt_conv (Some EVT_DESC) (mkUpdate tg c) w =
    (Ok (Some EVT_MAX),
     set_replies (fun l => l ++ [EvtAskMax])
       (set_user_data (insert "evt_desc" (py_opt (optional_answer raw))) w)).
Proof.
  intros Hc. unfold handle_update, optional_answer.
  destruct c as [t|n t|cb]; cbn in Hc; [| |done].
  - simplify_eq. cbn. unfold evt_desc. eff. by destruct (String.eqb (str_strip _) "/skip").
  - destruct (String.eqb n "skip") eqn:Hn; [|done]. simplify_eq.
    cbn. rewrite Hn. cbn. unfold evt_desc. eff. by destruct (String.eqb (str_strip _) "/skip").
Qed.

Lemma walk_evt_max (w : World) (tg : TgUser) (c : Content) (raw : string)
    (title dt : PyVal) :
  answer_text c = Some raw ->
  user_data w !! "evt_title" = Some title ->
  user_data w !! "evt_date" = Some dt ->
  exists prompt,
    handle_update evt_conv (Some EVT_MAX) (mkUpdate tg c) w =
      (Ok (Some EVT_CONFIRM),
       set_replies (fun l => l ++ [prompt])
         (set_user_data (insert "evt_max" (PInt (seats_answer raw))) w)).
Proof.
  intros Hc Ht Hd. unfold handle_update, seats_answer.
  assert (forall text,
            evt_max (mkUpdate tg (match c with
                                  | TextMessage _ => TextMessage text
                                  | _ => Command "skip" text
                                  end)) w =
              (Ok (Some EVT_CONFIRM),
               set_replies (fun l => l ++ [EvtConfirmPrompt title dt
                                             (user_data w !! "evt_time")
                                             (user_data w !! "evt_place")])
                 (set_user_data
                    (insert "evt_max"
                       (PInt (if String.eqb (str_strip text) "/skip" then 0
                              else default 0 (int_of_str (str_strip text))))) w)))
    as Hmax.
  { intros text. unfold evt_max.
    assert (message_text (mkUpdate tg (match c with
                                       | TextMessage _ => TextMessage text
                                       | _ => Command "skip" text
                                       end)) w = (Ok text, w)) as Hm
      by (by destruct c).
    rewrite (bind_ok _ _ _ _ _ Hm).
    destruct (String.eqb (str_strip text) "/skip"); [|destruct (int_of_str _)]; eff;
      rewrite !lookup_insert_ne by done; rewrite Ht; cbn;
      rewrite ?lookup_insert_ne by done; rewrite Hd; cbn;
      by rewrite ?lookup_insert_ne by done. }
  destruct c as [t|n t|cb]; cbn in Hc; [| |done].
  - simplify_eq. cbn. eexists. by rewrite (bind_ok _ _ _ _ _ (Hmax raw)).
  - destruct (String.eqb n "skip") eqn:Hn; [|done]. simplify_eq.
    apply String.eqb_eq in Hn as ->.
    cbn. eexists. by rewrite (bind_ok _ _ _ _ _ (Hmax raw)).
Qed.

Lemma walk_evt_confirm (w : World) (tg : TgUser) (u : User.t)
    (title : string) (dt : date) (time place description : option string) (m : Z) :
  let d := database w in
  let super := bool_decide (User.role u = UserRole.SUPER_ADMIN) in
  let event :=
    Event.mk (events_id_seq d) title None dt None time place description m
      (if super then EventStatus.ACTIVE else EventStatus.PENDING)
      (User.username u) (clock d) in
  user_data w !! "db_user" = Some (PUser u) ->
  u ∈ users d ->
  fresh_ids d ->
  user_data w !! "evt_title" = Some (PStr title) ->
  user_data w !! "evt_date" = Some (PDate dt) ->
  user_data w !! "evt_time" = Some (py_opt time) ->
  user_data w !! "evt_place" = Some (py_opt place) ->
  user_data w !! "evt_desc" = Some (py_opt description) ->
  user_data w !! "evt_max" = Some (PInt m) ->
  int32 m = true ->
  exists w',
    handle_update evt_conv (Some EVT_CONFIRM)
                  (mkUpdate tg (CallbackQuery (cb_evt_confirm true))) w = (Ok None, w')
    /\ events (database w') = events d ++ [event]
    /\ admin_requests (database w') =
         admin_requests d
         ++ (if super then [] else [creation_request u (events_id_seq d) title d]).
Proof.
  intros d super event Hu Hin (Hev & _ & _ & Hreq & _) Htitle Hdate Htime Hplace Hdesc Hmax
         Hfits.
  rewrite Forall_forall in Hev. rewrite Forall_forall in Hreq.
  destruct (fk_of_user u _ Hin) as [Hfk_name Hfk_id].
  unfold handle_update.
  cbn [evt_conv states state_handlers fallbacks find fst snd content app
       CallbackQueryHandler CommandHandler MessageHandler Z.eqb EVT_TITLE EVT_DATE
       EVT_TIME EVT_PLACE EVT_DESC EVT_MAX EVT_CONFIRM Pos.eqb].
  unfold evt_confirm, cached_db_user. cbn [content negb]. eff.
  rewrite Hu. cbn. rewrite Htitle. cbn. rewrite Hdate. cbn.
  rewrite Htime, Hplace, Hdesc, Hmax. rewrite !sql_text_opt_py_opt. cbn.
  rewrite Hfits. cbn.
  rewrite create_event_ok by done. cbn.
  subst event super. fold d.
  destruct (bool_decide (User.role u = UserRole.SUPER_ADMIN)) eqn:Hrole; cbn.
  - assert (forall e, e ∈ events (set_events_id_seq (fun n => n + 1) d) ->
                      Event.id e <> events_id_seq d) as Hnew.
    { intros e He. apply Hev in He. lia. }
    pose proof (activate_appended (set_events_id_seq (fun n => n + 1) d)
                  (Event.mk (events_id_seq d) title None dt None time place description m
                     EventStatus.PENDING (User.username u) (clock d)) Hnew) as Hact.
    cbn in Hact. rewrite Hact. cbn. eexists. split; [reflexivity|].
    cbn. by rewrite app_nil_r.
  - erewrite create_event_request_ok; [|exact Hreq|exact Hfk_id]. cbn.
    match goal with
    | |- context [notify_super_admins ?ids ?t ?w0] =>
        destruct (notify_super_admins_ok ids t w0) as (w' & -> & Hdb & _ & _)
    end.
    cbn. eexists. split; [reflexivity|]. cbn. by rewrite Hdb.
Qed.

(** X9.  The event conversation from the panel to the row.  An admin or
    a super-admin opens the flow, gives a title and a date that
    [fromisoformat] reads, answers the four remaining questions by a text
    or by /skip, and confirms.  The conversation is over afterwards and
    exactly one event has been appended, created by the actor: with the
    stripped title, that date, and the time, place and description given
    (none for a stripped text that is exactly "/skip"), and with the number
    of seats read from the last answer (0 for /skip and for a text that is
    no number), a number within the 32 bits of the column.  A super-admin's
    event is active and no request is filed;
    an admin's event is pending and one event_creation request naming it
    is filed. *)
Theorem event_creation_walk (w : World) (tg : TgUser) (u : User.t)
    (raw_title raw_date : string) (dt : date) (c_time c_place c_desc c_max : Content)
    (raw_time raw_place raw_desc raw_max : string) :
  let d := database w in
  let super := bool_decide (User.role u = UserRole.SUPER_ADMIN) in
  let updates :=
    [mkUpdate tg (CallbackQuery cb_adm_create_event);
     mkUpdate tg (TextMessage raw_title); mkUpdate tg (TextMessage raw_date);
     mkUpdate tg c_time; mkUpdate tg c_place; mkUpdate tg c_desc; mkUpdate tg c_max;
     mkUpdate tg (CallbackQuery (cb_evt_confirm true))] in
  let event :=
    Event.mk (events_id_seq d) (str_strip raw_title) None dt None
      (optional_answer raw_time) (optional_answer raw_place) (optional_answer raw_desc)
      (seats_answer raw_max)
      (if super then EventStatus.ACTIVE else EventStatus.PENDING)
      (User.username u) (clock d) in
  find (fun v => bool_decide (User.telegram_id v = tg_id tg)) (users d) = Some u ->
  User.role u ∈ [UserRole.ADMIN; UserRole.SUPER_ADMIN] ->
  fresh_ids d ->
  date_fromisoformat (str_strip raw_date) = Some dt ->
  answer_text c_time = Some raw_time ->
  answer_text c_place = Some raw_place ->
  answer_text c_desc = Some raw_desc ->
  answer_text c_max = Some raw_max ->
  int32 (seats_answer raw_max) = true ->
  exists w',
    feed evt_conv None updates w = (None, w')
    /\ events (database w') = events d ++ [event]
    /\ admin_requests (database w') =
         admin_requests d
         ++ (if super then []
             else [creation_request u (events_id_seq d) (str_strip raw_title) d]).
Proof.
  intros d super updates event Hu Hrole Hfresh Hdate Ht Hp Hd Hm Hfits. subst updates.
  pose proof (find_some_elem _ _ _ Hu) as [Hin _].
  erewrite feed_step by (by apply (walk_evt_start _ _ u)).
  erewrite feed_step by apply walk_evt_title.
  erewrite feed_step by (by apply walk_evt_date).
  erewrite feed_step by (by apply walk_evt_time).
  erewrite feed_step by (by apply walk_evt_place).
  erewrite feed_step by (by apply walk_evt_desc).
  match goal with
  | |- context [feed _ (Some EVT_MAX) _ ?w6] =>
      destruct (walk_evt_max w6 tg c_max raw_max (PStr (str_strip raw_title)) (PDate dt) Hm)
        as (prompt & Hmax)
  end.
  { cbn. rewrite !lookup_insert_ne by done. apply lookup_insert_eq. }
  { cbn. rewrite !lookup_insert_ne by done. apply lookup_insert_eq. }
  rewrite (feed_step _ _ _ _ _ _ _ Hmax).
  match goal with
  | |- context [feed _ (Some EVT_CONFIRM) _ ?w7] =>
      destruct (walk_evt_confirm w7 tg u (str_strip raw_title) dt
                  (optional_answer raw_time) (optional_answer raw_place)
                  (optional_answer raw_desc) (seats_answer raw_max))
        as (w' & Hconfirm & Hevents & Hrequests)
  end.
  all: try (cbn; rewrite ?lookup_insert_ne by done; by apply lookup_insert_eq).
  all: try done.
  rewrite (feed_step _ _ _ _ _ _ _ Hconfirm). cbn [feed].
  exists w'. by split.
Qed.

End EventWalk.

(** Bob, an admin, creates the Bible school: the event is pending and a
    request is filed with it. *)
Lemma event_creation_walk_witness :
  let w := sample.world sample.db0 in
  let updates :=
    [mkUpdate sample.tg_bob (CallbackQuery cb_adm_create_event);
     mkUpdate sample.tg_bob (TextMessage " Bible School ");
     mkUpdate sample.tg_bob (TextMessage "2025-01-15");
     mkUpdate sample.tg_bob (Command "skip" "/skip");
     mkUpdate sample.tg_bob (TextMessage "Hall");
     mkUpdate sample.tg_bob (TextMessage "/skip");
     mkUpdate sample.tg_bob (TextMessage "twelve");
     mkUpdate sample.tg_bob (CallbackQuery (cb_evt_confirm true))] in
  let w' := snd (feed (@evt_conv ascii_text.builtins) None updates w) in
  map (fun e => (Event.title e, Event.place e, Event.max_participants e, Event.status e))
      (events (database w'))
  = [("Picnic", None, 1, EventStatus.ACTIVE);
     ("Bible School", Some "Hall", 0, EventStatus.PENDING)]
  /\ map AdminRequest.request_type (admin_requests (database w'))
     = ["broadcast"; "event_creation"].
Proof.
  intros w updates w'.
  destruct (@event_creation_walk ascii_text.builtins w sample.tg_bob sample.bob
              " Bible School " "2025-01-15" (Date 2025 1 15)
              (Command "skip" "/skip") (TextMessage "Hall") (TextMessage "/skip")
              (TextMessage "twelve") "/skip" "Hall" "/skip" "twelve"
              ltac:(by vm_compute) ltac:(apply elem_of_cons; by left)
              ltac:(repeat split; repeat constructor; by vm_compute)
              ltac:(by vm_compute) eq_refl eq_refl eq_refl eq_refl eq_refl)
    as (w1 & Hfeed & Hevents & Hrequests).
  assert (w' = w1) as Hw by exact (f_equal snd Hfeed).
  rewrite Hw, Hevents, Hrequests. clear. vm_compute. by repeat split.
Defined.

(** ** Events created by a text command *)

Lemma dict_get_eq {S} (items : list (string * PyVal)) (k : string) :
  @dict_get S (PDict items) k = ret (dict_lookup items k).
Proof. reflexivity. Qed.

(** The confirmed [create_event] command, computed. *)
Lemma text_cmd_create_eq `{Builtins} (w : World) (tg : TgUser)
    (u : User.t) (result params : list (string * PyVal))
    (title date_start time place description : option string) (seats : option Z) :
  let d := database w in
  let given := match date_start with
               | Some s => negb (String.eqb s "")
               | None => false
               end in
  let failed (w0 : World) : Result (option Z) * World :=
    (Ok (Some END),
     set_replies (fun l => l ++ [AiFailed])
       (set_log (fun l => l ++ [LogException "AI command execution error" []]) w0)) in
  user_data w !! "db_user" = Some (PUser u) ->
  Forall (fun e => Event.id e < events_id_seq d) (events d) ->
  user_data w !! "ai_cmd_result" = Some (PDict result) ->
  dict_lookup result "action" = Some (PStr "create_event") ->
  dict_lookup result "params" = Some (PDict params) ->
  dict_lookup params "title" = PStr <$> title ->
  dict_lookup params "date_start" = PStr <$> date_start ->
  dict_lookup params "time" = PStr <$> time ->
  dict_lookup params "place" = PStr <$> place ->
  dict_lookup params "description" = PStr <$> description ->
  dict_lookup params "max_participants" = PInt <$> seats ->
  text_cmd_confirm (mkUpdate tg (CallbackQuery (cb_ai_confirm true))) w =
    match (if given then date_start ≫= date_fromisoformat else Some (today w)) with
    | Some dt =>
        let row := Event.mk (events_id_seq d) (default "Без названия" title) None dt
                     None time place description (default 0 seats)
                     EventStatus.PENDING (User.username u) (clock d) in
        if negb (int32 (default 0 seats)) then failed w
        else if negb (db.fk_username (users d) (User.username u))
        then failed (set_database (set_events_id_seq (fun n => n + 1)) w)
        else
          (Ok (Some END),
           set_replies (fun l => l ++ [AiEventCreated (Event.title row) (Event.id row)])
             (set_database
                (fun _ => set_events (fun es => es ++ [row])
                            (set_events_id_seq (fun n => n + 1) d)) w))
    | None => failed w
    end.
Proof.
  intros d given failed Hu Hfresh Hres Haction Hparams Htitle Hdate Htime Hplace Hdesc
         Hseats.
  rewrite Forall_forall in Hfresh.
  unfold dict_lookup in *.
  unfold text_cmd_confirm, cached_db_user. cbn [content negb]. eff.
  rewrite Hres. cbn. rewrite Haction, Hparams. cbn. rewrite Hu. cbn.
  rewrite Hdate, Htitle, Htime, Hplace, Hdesc, Hseats.
  assert (forall (o : option string) S, @sql_text_opt S (PStr <$> o) = ret o) as Hopt
    by (by intros [x|] S).
  assert (forall S, @sql_text S (default (PStr "Без названия") (PStr <$> title))
                    = ret (default "Без названия" title)) as Ht
    by (by destruct title).
  assert (forall S, @sql_int S (default (PInt 0) (PInt <$> seats))
                    = if int32 (default 0 seats) then ret (default 0 seats)
                      else raise DataError)
    as Hs by (by destruct seats).
  rewrite Ht, !Hopt, Hs. unfold ret, raise. subst given failed.
  assert (forall dt,
            db.create_event (default "Без названия" title) dt None None time place
              description (default 0 seats) EventStatus.PENDING (User.username u)
              (database w)
            = if db.fk_username (users (database w)) (User.username u)
              then (Ok (Event.mk (events_id_seq d) (default "Без названия" title) None dt
                          None time place description (default 0 seats)
                          EventStatus.PENDING (User.username u) (clock d)),
                    set_events (fun es => es ++
                       [Event.mk (events_id_seq d) (default "Без названия" title) None dt
                          None time place description (default 0 seats)
                          EventStatus.PENDING (User.username u) (clock d)])
                      (set_events_id_seq (fun n => n + 1) d))
              else (Raise (ForeignKeyViolationError "events_created_by_fkey"),
                    set_events_id_seq (fun n => n + 1) d)) as Hcreate.
  { intros dt. destruct (db.fk_username _ _) eqn:Hfk.
    - by rewrite create_event_ok.
    - by rewrite create_event_no_creator. }
  destruct date_start as [s|]; cbn [fmap option_fmap option_map truthy mbind option_bind].
  - destruct (String.eqb s "") eqn:Hempty; cbn [negb].
    + destruct (int32 (default 0 seats)); [|done]. rewrite Hcreate.
      by destruct (db.fk_username _ _).
    + destruct (date_fromisoformat s) as [dt|] eqn:Hiso; [|done].
      destruct (int32 (default 0 seats)); [|done]. rewrite Hcreate.
      by destruct (db.fk_username _ _).
  - destruct (int32 (default 0 seats)); [|done]. rewrite Hcreate.
    by destruct (db.fk_username _ _).
Qed.


(** X10.  An event created through the text command.  The confirmed
    command is [create_event] with a title, a date and the optional
    fields as texts, and the number of seats as an integer, each present
    or left out; the admin is whoever the role guard cached.  The
    conversation ends, no request is filed and nobody is notified,
    whatever happens.  A missing title becomes "Без названия", a missing
    or empty date becomes today.  When the date can be read, the seats
    fit the 32 bits of the column and the cached handle is still
    somebody's, the event is created pending for every role, a
    super-admin's too, so it stays pending until somebody uses the panel.
    In every other case the failure is logged, the admin gets the error
    message and no event is stored. *)
Theorem text_command_creates_pending `{Builtins} (w : World) (tg : TgUser)
    (u : User.t) (result params : list (string * PyVal))
    (title date_start time place description : option string) (seats : option Z) :
  let d := database w in
  let yes := text_cmd_confirm (mkUpdate tg (CallbackQuery (cb_ai_confirm true))) w in
  let given := match date_start with
               | Some s => negb (String.eqb s "")
               | None => false
               end in
  let date := if given then date_start ≫= date_fromisoformat else Some (today w) in
  let failed :=
    events (database (snd yes)) = events d
    /\ replies (snd yes) = replies w ++ [AiFailed]
    /\ log (snd yes) = log w ++ [LogException "AI command execution error" []] in
  user_data w !! "db_user" = Some (PUser u) ->
  Forall (fun e => Event.id e < events_id_seq d) (events d) ->
  user_data w !! "ai_cmd_result" = Some (PDict result) ->
  dict_lookup result "action" = Some (PStr "create_event") ->
  dict_lookup result "params" = Some (PDict params) ->
  dict_lookup params "title" = PStr <$> title ->
  dict_lookup params "date_start" = PStr <$> date_start ->
  dict_lookup params "time" = PStr <$> time ->
  dict_lookup params "place" = PStr <$> place ->
  dict_lookup params "description" = PStr <$> description ->
  dict_lookup params "max_participants" = PInt <$> seats ->
  fst yes = Ok (Some END)
  /\ admin_requests (database (snd yes)) = admin_requests d
  /\ sent (snd yes) = sent w
  /\ match date with
     | Some dt =>
         if int32 (default 0 seats) && db.fk_username (users d) (User.username u)
         then events (database (snd yes)) =
                events d ++ [Event.mk (events_id_seq d) (default "Без названия" title)
                               None dt None time place description (default 0 seats)
                               EventStatus.PENDING (User.username u) (clock d)]
         else failed
     | None => failed
     end.
Proof.
  intros d yes given date failed Hu Hfresh Hres Haction Hparams Htitle Hdate Htime Hplace
         Hdesc Hseats.
  subst yes failed date.
  rewrite (text_cmd_create_eq w tg u result params title date_start time place
             description seats) by done.
  fold d given.
  destruct (if given then date_start ≫= date_fromisoformat else Some (today w)) as [dt|];
    [|by cbn].
  cbv zeta.
  destruct (int32 (default 0 seats)); [|by cbn].
  destruct (db.fk_username (users d) (User.username u)); by cbn.
Qed.

(** Root, the super-admin, confirms a command that names no date: the
    event is dated today and is pending.  The same command with more seats
    than the column holds stores nothing. *)
Lemma text_command_creates_pending_witness :
  let command (seats : Z) :=
    [("action", PStr "create_event");
     ("params", PDict [("title", PStr "Choir"); ("time", PStr "18:00");
                       ("max_participants", PInt seats)])] in
  let w (seats : Z) :=
    set_user_data (fun _ => <["db_user" := PUser sample.root]>
                              {["ai_cmd_result" := PDict (command seats)]})
      (sample.world sample.db0) in
  let yes (seats : Z) :=
    @text_cmd_confirm ascii_text.builtins
      (mkUpdate sample.tg_root (CallbackQuery (cb_ai_confirm true))) (w seats) in
  map (fun e => (Event.title e, Event.date_start e, Event.status e))
      (events (database (snd (yes 40))))
  = [("Picnic", Date 2025 1 15, EventStatus.ACTIVE);
     ("Choir", Date 2025 1 1, EventStatus.PENDING)]
  /\ events (database (snd (yes 3000000000))) = [sample.picnic]
  /\ replies (snd (yes 3000000000)) = [AiFailed].
Proof.
  intros command w yes.
  pose proof (@text_command_creates_pending ascii_text.builtins (w 40)
                sample.tg_root sample.root (command 40)
                [("title", PStr "Choir"); ("time", PStr "18:00");
                 ("max_participants", PInt 40)]
                (Some "Choir") None (Some "18:00") None None (Some 40)
                ltac:(by vm_compute)
                ltac:(repeat constructor; by vm_compute) ltac:(by vm_compute)
                eq_refl eq_refl eq_refl eq_refl eq_refl eq_refl eq_refl eq_refl) as Hok.
  pose proof (@text_command_creates_pending ascii_text.builtins (w 3000000000)
                sample.tg_root sample.root (command 3000000000)
                [("title", PStr "Choir"); ("time", PStr "18:00");
                 ("max_participants", PInt 3000000000)]
                (Some "Choir") None (Some "18:00") None None (Some 3000000000)
                ltac:(by vm_compute)
                ltac:(repeat constructor; by vm_compute) ltac:(by vm_compute)
                eq_refl eq_refl eq_refl eq_refl eq_refl eq_refl eq_refl eq_refl) as Hbad.
  cbv zeta in Hok, Hbad.
  destruct Hok as (_ & _ & _ & Hok), Hbad as (_ & _ & _ & Hbad).
  cbn [mbind option_bind] in Hok, Hbad.
  change (int32 (default 0 (Some 40))
          && db.fk_username (users (database (w 40))) (User.username sample.root))
    with true in Hok.
  change (int32 (default 0 (Some 3000000000))
          && db.fk_username (users (database (w 3000000000))) (User.username sample.root))
    with false in Hbad.
  cbv iota in Hok, Hbad. destruct Hbad as (Hev & Hrep & _).
  split; [|split].
  - change (yes 40) with (@text_cmd_confirm ascii_text.builtins
      (mkUpdate sample.tg_root (CallbackQuery (cb_ai_confirm true))) (w 40)).
    rewrite Hok. clear. by vm_compute.
  - etrans; [exact Hev|]. clear. by vm_compute.
  - etrans; [exact Hrep|]. clear. by vm_compute.
Defined.

(** ** The quick role change *)

Lemma set_user_role_eq (username : string) (role : UserRole.t) (d : DB) :
  db.set_user_role username role d =
    (Ok (bool_decide
           (length (filter (fun v => bool_decide (User.username v = Some username) = true)
                           (users d)) = 1%nat)),
     set_users (promoted username role) d).
Proof. reflexivity. Qed.

(** X11.  [/set_role] in the hands of a super-admin.  With fewer than two
    words after the command the usage line is sent, with a second word
    that, lowered, is no role the list of roles is sent, and nothing is
    stored in either case.  Otherwise the leading "@" of the first word
    are dropped and every user stored under that handle gets the role.
    Nothing protects the caller: a super-admin who names the own handle
    with a lower role has that role afterwards and is refused by the
    decision buttons from then on. *)
Theorem set_role_command `{Builtins} `{StrLower} (w : World) (update : Update)
    (su : User.t) (args : list string) :
  let d := database w in
  let w0 := set_user_data (insert "db_user" (PUser su)) w in
  find (fun v => bool_decide (User.telegram_id v = tg_id (effective_user update)))
       (users d) = Some su ->
  User.role su = UserRole.SUPER_ADMIN ->
  ((length args < 2)%nat ->
     cmd_set_role args update w =
       (Ok None,
        set_replies
          (fun l => l ++ [Body (PStr "Использование: /set_role <username> <user|admin|super_admin>")])
          w0))
  /\ (forall a0 a1 rest, args = a0 :: a1 :: rest ->
      user_role_of_value (str_lower a1) = None ->
      cmd_set_role args update w =
        (Ok None,
         set_replies
           (fun l => l ++ [Body (PStr ("Неизвестная роль: " +:+ str_lower a1
                                       +:+ ". Допустимые: user, admin, super_admin"))])
           w0))
  /\ (forall a0 a1 rest role, args = a0 :: a1 :: rest ->
      user_role_of_value (str_lower a1) = Some role ->
      exists w1,
        cmd_set_role args update w = (Ok None, w1)
        /\ database w1 = set_users (promoted (lstrip_at a0) role) d
        /\ (User.username su = Some (lstrip_at a0) -> role <> UserRole.SUPER_ADMIN ->
            forall (request_id : Z) (approve : bool),
              handle_request_decision
                (mkUpdate (effective_user update) (CallbackQuery (cb_sa approve request_id)))
                w1
              = (Ok None, set_replies (fun l => l ++ [NoAccess]) w1))).
Proof.
  intros d w0 Hsu Hrole.
  assert (cmd_set_role args update w = cmd_set_role_body args update w0) as Hpass.
  { unfold cmd_set_role. apply (require_role_allowed _ _ _ _ su Hsu).
    rewrite Hrole. by apply list_elem_of_singleton. }
  rewrite Hpass. repeat split.
  - intros Hlen. destruct args as [|a0 [|a1 rest]]; cbn in Hlen; try lia; done.
  - intros a0 a1 rest -> Hnone. unfold cmd_set_role_body. cbv zeta. by rewrite Hnone.
  - intros a0 a1 rest role -> Hsome. unfold cmd_set_role_body. cbv zeta. rewrite Hsome.
    erewrite bind_ok; [|apply lift_db_eq, set_user_role_eq].
    match goal with
    | |- context [bool_decide (length ?l = 1%nat)] =>
        destruct (bool_decide (length l = 1%nat))
    end.
    all: eexists; split; [reflexivity|]; split; [done|].
    all: intros Hname Hlower request_id approve.
    all: apply (require_role_refused _ _ _ _ (with_role role su)).
    all: try (by intros ?%list_elem_of_singleton).
    all: cbn; unfold promoted; rewrite find_map_stable by (intros x; by case_match).
    all: fold d; rewrite Hsu; cbn; by rewrite bool_decide_eq_true_2.
Qed.

(** Root gives the own handle the role of a user, and cannot decide on
    Bob's request any more. *)
Lemma set_role_command_witness :
  let w := sample.world sample.db0 in
  let w1 := snd (@cmd_set_role ascii_str_lower ["@root"; "USER"]
                   (mkUpdate sample.tg_root (Command "set_role" "/set_role @root USER")) w) in
  let w2 := snd (@handle_request_decision ascii_text.builtins
                   (mkUpdate sample.tg_root (CallbackQuery (cb_sa true 1))) w1) in
  map User.role (users (database w1)) = [UserRole.USER; UserRole.ADMIN; UserRole.USER]
  /\ replies w2 = replies w1 ++ [NoAccess]
  /\ map AdminRequest.status (admin_requests (database w2)) = [RequestStatus.PENDING].
Proof.
  intros w w1 w2.
  pose proof (@set_role_command ascii_text.builtins ascii_str_lower w
                (mkUpdate sample.tg_root (Command "set_role" "/set_role @root USER"))
                sample.root ["@root"; "USER"] ltac:(by vm_compute) eq_refl) as Hall.
  cbv zeta in Hall. destruct Hall as (_ & _ & Hset).
  destruct (Hset "@root" "USER" [] UserRole.USER eq_refl ltac:(by vm_compute))
    as (w1' & Hrun & Hdb & Hlock).
  specialize (Hlock ltac:(by vm_compute) ltac:(done) 1 true).
  assert (w1 = w1') as Hw1 by exact (f_equal snd Hrun).
  assert (w2 = set_replies (fun l => l ++ [NoAccess]) w1') as Hw2.
  { unfold w2. rewrite Hw1. exact (f_equal snd Hlock). }
  rewrite Hw2, Hw1. cbn [replies database set_replies]. rewrite Hdb.
  split; [by vm_compute|]. split; [done|]. clear. by vm_compute.
Defined.

(** ** The first super-admin *)

Lemma with_role_same (v : User.t) : with_role (User.role v) v = v.
Proof. by destruct v. Qed.

Lemma get_user_by_username_eq (w : World) (name : string) :
  lift_db (db.get_user_by_username name) w =
    (Ok (find (fun v => bool_decide (User.username v = Some name)) (users (database w))), w).
Proof. unfold db.get_user_by_username. by rewrite lift_db_gets. Qed.

(** [post_init], computed. *)
Lemma post_init_eq (w : World) (name : string) :
  let d := database w in
  let booted := set_log (fun l => l ++ [LogInfo "DB pool ready" []])
                  (set_log (fun l => l ++ [LogInfo "Database initialised" []]) w) in
  post_init name w =
    (Ok tt,
     if String.eqb name "" then booted
     else match find (fun v => bool_decide (User.username v = Some name)) (users d) with
          | Some v =>
              if bool_decide (User.role v = UserRole.SUPER_ADMIN) then booted
              else set_log (fun l => l ++ [LogInfo "Set %s as super_admin" [PStr name]])
                     (set_database (set_users (promoted name UserRole.SUPER_ADMIN)) booted)
          | None => booted
          end).
Proof.
  intros d booted. unfold post_init. unfold bind at 1 2, logger, modify. fold booted.
  destruct (String.eqb name ""); cbn [negb]; [done|].
  rewrite (bind_ok _ _ _ _ _ (get_user_by_username_eq _ _)).
  change (database booted) with d.
  destruct (find _ (users d)) as [v|]; [|done].
  destruct (bool_decide (User.role v = UserRole.SUPER_ADMIN)); cbn [negb]; [done|].
  erewrite bind_ok; [|apply lift_db_eq, set_user_role_eq]. reflexivity.
Qed.

(** X12.  The bootstrap of the first super-admin at start-up, handles
    being unique.  It never raises.  With a configured handle, the user
    stored under it is a super-admin afterwards and no other row of any
    table changes; running it again changes nothing.  It acts on stored
    rows only: when nobody is stored under the handle yet, or no handle is
    configured, the database stays as it is, so a user who first sends
    /start after the start-up is not promoted by it. *)
Theorem bootstrap_super_admin (w : World) (name : string) :
  let d := database w in
  let w1 := snd (post_init name w) in
  (forall v v', v ∈ users d -> v' ∈ users d ->
     User.username v = Some name -> User.username v' = Some name -> v = v') ->
  fst (post_init name w) = Ok tt
  /\ database w1 =
       (if String.eqb name "" then d
        else set_users (promoted name UserRole.SUPER_ADMIN) d)
  /\ (name <> "" -> forall v, v ∈ users (database w1) ->
        User.username v = Some name -> User.role v = UserRole.SUPER_ADMIN)
  /\ database (snd (post_init name w1)) = database w1
  /\ ((forall v, v ∈ users d -> User.username v <> Some name) -> database w1 = d).
Proof.
  intros d w1 Huniq.
  assert (forall v, find (fun x => bool_decide (User.username x = Some name)) (users d)
                    = Some v ->
                    User.role v = UserRole.SUPER_ADMIN ->
                    promoted name UserRole.SUPER_ADMIN (users d) = users d) as Hsame.
  { intros v Hfind Hrole. apply find_some_elem in Hfind as [Hin Hname].
    apply bool_decide_eq_true in Hname.
    apply map_fixed. intros x Hx. case_match eqn:Hhit; [|done].
    apply bool_decide_eq_true in Hhit.
    rewrite (Huniq x v) by done.
    rewrite <- Hrole. apply with_role_same. }
  assert (find (fun x => bool_decide (User.username x = Some name)) (users d) = None ->
          promoted name UserRole.SUPER_ADMIN (users d) = users d) as Hnone.
  { intros Hfind. apply map_fixed. intros x Hx.
    pose proof (find_none _ _ Hfind x ltac:(by apply list_elem_of_In)) as Hx'.
    cbn in Hx'. by rewrite Hx'. }
  assert (database w1 =
            (if String.eqb name "" then d
             else set_users (promoted name UserRole.SUPER_ADMIN) d)) as Hdb.
  { subst w1. rewrite post_init_eq. cbn [snd]. fold d.
    destruct (String.eqb name ""); [done|].
    destruct (find _ (users d)) as [v|] eqn:Hfind.
    - destruct (bool_decide (User.role v = UserRole.SUPER_ADMIN)) eqn:Hrole; [|done].
      apply bool_decide_eq_true in Hrole. cbn [database set_log].
      unfold set_users. rewrite (Hsame v eq_refl Hrole). fold d. by rewrite db_eta.
    - cbn [database set_log]. unfold set_users. rewrite (Hnone eq_refl). fold d.
      by rewrite db_eta. }
  assert (forall v, v ∈ promoted name UserRole.SUPER_ADMIN (users d) ->
                    User.username v = Some name -> User.role v = UserRole.SUPER_ADMIN)
    as Hall.
  { intros v (x & -> & Hx)%elem_of_map Hname. case_match eqn:Hhit; [done|].
    apply bool_decide_eq_false in Hhit. done. }
  split; [by rewrite post_init_eq|]. split; [done|]. split; [|split].
  - intros Hne v. rewrite Hdb. apply String.eqb_neq in Hne. rewrite Hne. apply Hall.
  - rewrite post_init_eq. cbn [snd]. rewrite Hdb.
    destruct (String.eqb name "") eqn:Hname; [done|].
    cbn [users set_users].
    destruct (find _ (promoted name UserRole.SUPER_ADMIN (users d))) as [v|] eqn:Hfind;
      [|done].
    apply find_some_elem in Hfind as [Hin Hv]. apply bool_decide_eq_true in Hv.
    by rewrite (bool_decide_eq_true_2 _ (Hall v Hin Hv)).
  - intros Hmiss. rewrite Hdb. destruct (String.eqb name ""); [done|].
    unfold set_users. rewrite Hnone; [fold d; by rewrite db_eta|].
    apply find_none_elem. intros x Hx. apply bool_decide_eq_false. by apply Hmiss.
Qed.

(** Bob is the configured handle: the start-up makes him a super-admin
    and leaves Root and Ann as they are. *)
Lemma bootstrap_super_admin_witness :
  let w := sample.world sample.db0 in
  map User.role (users (database (snd (post_init "bob" w))))
  = [UserRole.SUPER_ADMIN; UserRole.SUPER_ADMIN; UserRole.USER].
Proof.
  intros w.
  pose proof (bootstrap_super_admin w "bob") as Hall. cbv zeta in Hall.
  destruct Hall as (_ & Hdb & _).
  - intros v v' Hv Hv' Hn Hn'.
    repeat (apply elem_of_cons in Hv as [->|Hv]);
      repeat (apply elem_of_cons in Hv' as [->|Hv']);
      try done; solve [by apply elem_of_nil in Hv | by apply elem_of_nil in Hv'].
  - rewrite Hdb. clear. by vm_compute.
Defined.

(** ** First contact *)

Lemma require_role_unknown (allowed : list UserRole.t)
    (func : Update -> Eff World (option Z)) (update : Update) (w : World) :
  find (fun v => bool_decide (User.telegram_id v = tg_id (effective_user update)))
       (users (database w)) = None ->
  require_role allowed func update w
  = (Ok None, set_replies (fun l => l ++ [PleaseStartFirst]) w).
Proof.
  intros Hfind. unfold require_role, db.get_user.
  unfold bind at 1. rewrite lift_db_gets, Hfind. by eff.
Qed.

(** X13.  First contact.  Somebody the bot has no row for is sent to
    /start by every guarded entry point.  /start then stores the person as
    a regular user, without a phone, under the Telegram name (the first
    name, or "Unknown", when there is none), unless the Telegram handle is
    stored for somebody else: then the statement fails, /start raises and
    the person stays unknown.  Once stored, the person is found by the
    guard and, being a regular user, is refused by the admin entry points
    with "no access". *)
Theorem first_contact (w : World) (tg : TgUser) (before after : Content) (text : string) :
  let d := database w in
  let row := User.mk (tg_id tg) (tg_username tg) (start_name tg) None UserRole.USER
                     (clock d) in
  let w1 := set_replies (fun l => l ++ [Welcome (start_name tg)])
              (set_database (set_users (fun us => us ++ [row])) w) in
  find (fun v => bool_decide (User.telegram_id v = tg_id tg)) (users d) = None ->
  cmd_admin (mkUpdate tg before) w
    = (Ok None, set_replies (fun l => l ++ [PleaseStartFirst]) w)
  /\ (db.username_taken (users d) (tg_id tg) (tg_username tg) = true ->
      cmd_start (mkUpdate tg (Command "start" text)) w
        = (Raise (UniqueViolationError "users_username_key"), w))
  /\ (db.username_taken (users d) (tg_id tg) (tg_username tg) = false ->
      cmd_start (mkUpdate tg (Command "start" text)) w = (Ok None, w1)
      /\ lift_db (db.get_user (tg_id tg)) w1 = (Ok (Some row), w1)
      /\ cmd_admin (mkUpdate tg after) w1
         = (Ok None, set_replies (fun l => l ++ [NoAccess]) w1)).
Proof.
  intros d row w1 Hnew. split; [by apply require_role_unknown|].
  assert (db.upsert_user (tg_id tg) (tg_username tg) (start_name tg) None d =
            if db.username_taken (users d) (tg_id tg) (tg_username tg)
            then (Raise (UniqueViolationError "users_username_key"), d)
            else (Ok row, set_users (fun us => us ++ [row]) d)) as Hup.
  { unfold db.upsert_user. by rewrite Hnew. }
  split.
  - intros Htaken. rewrite Htaken in Hup. unfold cmd_start. cbn [effective_user].
    fold (start_name tg).
    erewrite bind_raise; [|apply lift_db_eq; exact Hup]. unfold d.
    by rewrite set_database_same.
  - intros Hfree. rewrite Hfree in Hup.
    assert (find (fun v => bool_decide (User.telegram_id v = tg_id tg)) (users (database w1))
            = Some row) as Hfound.
    { cbn. apply find_app_none; [done|]. by apply bool_decide_eq_true. }
    split; [|split].
    + unfold cmd_start. cbn [effective_user]. fold (start_name tg).
      erewrite bind_ok; [|apply lift_db_eq; exact Hup]. reflexivity.
    + by rewrite get_user_eq, Hfound.
    + apply (require_role_refused _ _ (mkUpdate tg after) _ row Hfound).
      by intros [?|[?|?%elem_of_nil]%elem_of_cons]%elem_of_cons.
Qed.

(** Zed has no row yet and nobody holds his handle. *)
Lemma first_contact_witness :
  let tg := mkTgUser 99 (Some "zed") "Zed" "" in
  let w := sample.world sample.db0 in
  let w1 := snd (cmd_start (mkUpdate tg (Command "start" "/start")) w) in
  replies (snd (cmd_admin (mkUpdate tg (Command "admin" "/admin")) w)) = [PleaseStartFirst]
  /\ map User.full_name (users (database w1)) = ["Root"; "Bob"; "Ann"; "Zed"]
  /\ replies (snd (cmd_admin (mkUpdate tg (Command "admin" "/admin")) w1))
     = [Welcome "Zed"; NoAccess].
Proof.
  intros tg w w1.
  pose proof (first_contact w tg (Command "admin" "/admin") (Command "admin" "/admin")
                "/start" ltac:(by vm_compute)) as Hall.
  cbv zeta in Hall. destruct Hall as (Hbefore & _ & Hstart).
  destruct (Hstart ltac:(by vm_compute)) as (Hrun & _ & Hafter).
  assert (w1 = snd (Ok None : Result (option Z), _)) as Hw1 by exact (f_equal snd Hrun).
  cbn [snd] in Hw1.
  rewrite Hbefore, Hw1, Hafter. clear. by vm_compute.
Defined.

(** ** Info entries need no review *)

Lemma filter_fresh_app {A} (key : A -> Z) (n : Z) (l : list A) (x : A) :
  key x = n -> Forall (fun y => key y < n) l ->
  filter (fun y => key y <> n) (l ++ [x]) = l
  /\ filter (fun y => key y = n) (l ++ [x]) = [x].
Proof.
  intros Hx Hl. rewrite !filter_app, !filter_cons, !filter_nil.
  rewrite decide_False by (intros ?; done). rewrite decide_True by done.
  assert (filter (fun y => key y <> n) l = l) as ->.
  { induction Hl as [|y l Hy _ IH]; [done|]. rewrite filter_cons, decide_True by lia.
    by rewrite IH. }
  assert (filter (fun y => key y = n) l = []) as ->.
  { induction Hl as [|y l Hy _ IH]; [done|]. by rewrite filter_cons, decide_False by lia. }
  by rewrite app_nil_r.
Qed.

Ltac lookups :=
  repeat first [rewrite lookup_insert_eq | rewrite lookup_insert_ne by done | progress cbn].

(** X14.  Info entries, unlike events, need no review.  An admin or a
    super-admin who walks the info conversation (category, title, content,
    confirm) has appended exactly one entry, with the three stripped texts,
    and the conversation is over.  Any admin's press on the delete button
    of that entry removes it at once, and the table is as it was before. *)
Theorem info_walk_and_delete `{Builtins} (w : World) (tg : TgUser) (u : User.t)
    (raw_category raw_title raw_content : string) (press : Content) :
  let d := database w in
  let updates :=
    [mkUpdate tg (CallbackQuery cb_adm_create_info);
     mkUpdate tg (TextMessage raw_category); mkUpdate tg (TextMessage raw_title);
     mkUpdate tg (TextMessage raw_content);
     mkUpdate tg (CallbackQuery (cb_info_confirm true))] in
  let row := Info.mk (info_id_seq d) (str_strip raw_category) (str_strip raw_title)
                     (str_strip raw_content) (clock d) in
  find (fun v => bool_decide (User.telegram_id v = tg_id tg)) (users d) = Some u ->
  User.role u ∈ [UserRole.ADMIN; UserRole.SUPER_ADMIN] ->
  Forall (fun i => Info.id i < info_id_seq d) (info d) ->
  exists w1,
    feed info_conv None updates w = (None, w1)
    /\ info (database w1) = info d ++ [row]
    /\ last (replies w1) = Some (InfoSaved (info_id_seq d))
    /\ exists w2,
         admin_callback (adm_info_delete (info_id_seq d)) (mkUpdate tg press) w1
           = (Ok None, w2)
         /\ info (database w2) = info d
         /\ last (replies w2) = Some (Body (PStr "Информация удалена.")).
Proof.
  intros d updates row Hu Hrole Hfresh. subst updates.
  assert (handle_update info_conv None (mkUpdate tg (CallbackQuery cb_adm_create_info)) w
          = (Ok (Some INFO_CATEGORY),
             set_replies (fun l => l ++ [InfoAskCategory])
               (set_user_data (insert "db_user" (PUser u)) w))) as Hstart.
  { unfold handle_update.
    cbn [info_conv entry_points find fst snd content CallbackQueryHandler].
    unfold info_start. unfold bind at 1.
    by rewrite (require_role_allowed _ _ (mkUpdate tg _) _ u Hu Hrole). }
  rewrite (feed_step _ _ _ _ _ _ _ Hstart).
  erewrite feed_step by reflexivity.
  erewrite feed_step by reflexivity.
  erewrite feed_step.
  2: { unfold handle_update. cbn. unfold info_content. eff. lookups. reflexivity. }
  erewrite feed_step.
  2: { unfold handle_update.
       cbn [info_conv states state_handlers fallbacks find fst snd content app
            CallbackQueryHandler CommandHandler MessageHandler Z.eqb INFO_CATEGORY
            INFO_TITLE INFO_CONTENT INFO_CONFIRM Pos.eqb].
       unfold info_confirm. cbn [content negb]. eff. lookups.
       unfold db.create_info, bind, db.nextval_info. cbn [info set_info_id_seq].
       rewrite (existsb_fresh Info.id) by (by apply Forall_forall).
       cbn. reflexivity. }
  cbn [feed]. eexists. split; [reflexivity|]. cbn [database set_replies set_database
    set_user_data info set_info replies]. split; [done|]. split; [by rewrite last_snoc|].
  unfold admin_callback.
  erewrite (require_role_allowed _ _ (mkUpdate tg press) _ u); [|exact Hu|exact Hrole].
  unfold admin_callback_body, _info_delete, bind, lift_db, db.delete_info.
  cbn [database set_replies set_database set_user_data info set_info fst snd].
  destruct (filter_fresh_app Info.id (info_id_seq d) (info d) row eq_refl Hfresh)
    as [Hkeep Hhit].
  fold d row. change (info (set_info_id_seq (fun n => n + 1) d)) with (info d).
  rewrite Hhit. cbn [length]. rewrite bool_decide_eq_true_2 by done.
  eexists. split; [reflexivity|]. cbn [database set_replies set_database set_user_data
    info set_info replies]. split; [done|]. by rewrite last_snoc.
Qed.

(** Bob adds the office hours and takes them out again. *)
Lemma info_walk_and_delete_witness :
  let w := sample.world sample.db0 in
  let updates :=
    [mkUpdate sample.tg_bob (CallbackQuery cb_adm_create_info);
     mkUpdate sample.tg_bob (TextMessage "contact");
     mkUpdate sample.tg_bob (TextMessage " Office ");
     mkUpdate sample.tg_bob (TextMessage "Mon-Fri 9-17");
     mkUpdate sample.tg_bob (CallbackQuery (cb_info_confirm true))] in
  let w1 := snd (feed (@info_conv ascii_text.builtins) None updates w) in
  let w2 := snd (admin_callback (adm_info_delete 1)
                   (mkUpdate sample.tg_bob (CallbackQuery cb_adm_create_info)) w1) in
  map Info.title (info (database w1)) = ["Office"] /\ info (database w2) = [].
Proof.
  intros w updates w1 w2.
  destruct (@info_walk_and_delete ascii_text.builtins w sample.tg_bob sample.bob
              "contact" " Office " "Mon-Fri 9-17" (CallbackQuery cb_adm_create_info)
              ltac:(by vm_compute) ltac:(apply elem_of_cons; by left)
              ltac:(by constructor))
    as (w1' & Hfeed & Hinfo & _ & w2' & Hpress & Hgone & _).
  assert (w1 = w1') as Hw1 by exact (f_equal snd Hfeed).
  assert (w2 = w2') as Hw2.
  { unfold w2. rewrite Hw1. exact (f_equal snd Hpress). }
  rewrite Hw2, Hw1, Hinfo, Hgone. clear. by vm_compute.
Defined.

(** ** Rejecting a request *)

(** X15.  A rejection marks the request and does nothing else.  When a
    super-admin rejects a pending request, of whatever type and payload,
    the rows of that request become rejected, with the reviewer and the
    time, and every other table stays as it is: a rejected event stays
    pending, a rejected applicant stays a user, no broadcast is sent.  The
    reviewer is told, and the requester, when the request carries a
    non-zero telegram id, is tried once; if that delivery fails, one
    record of it is logged, otherwise nothing is, and nothing raises. *)
Theorem rejection_only_marks `{Builtins} (w : World) (tg_su : TgUser) (su : User.t)
    (rid : Z) (r : AdminRequest.t) :
  let d := database w in
  let notice :=
    match AdminRequest.telegram_id r with
    | Some tid =>
        if negb (tid =? 0)
        then [(tid, DecisionNotice (AdminRequest.id r) (AdminRequest.request_type r) false)]
        else []
    | None => []
    end in
  find (fun v => bool_decide (User.telegram_id v = tg_id tg_su)) (users d) = Some su ->
  User.role su = UserRole.SUPER_ADMIN ->
  find (db.pending_with_id rid) (admin_requests d) = Some r ->
  exists w3,
    handle_request_decision (mkUpdate tg_su (CallbackQuery (cb_sa false rid))) w
      = (Ok None, w3)
    /\ database w3 =
         set_admin_requests
           (map (fun x => if db.pending_with_id rid x
                          then db.reviewed RequestStatus.REJECTED (User.username su)
                                           (clock d) x
                          else x)) d
    /\ replies w3 = replies w ++ [Decided rid (AdminRequest.request_type r) false
                                          (AdminRequest.username r)]
    /\ sent w3 = sent w ++ notice
    /\ log w3 =
         log w
         ++ map (fun tid => LogException "Failed to notify requester %s" [PInt tid])
              (undelivered (delivery w) (length (sent w)) (map fst notice)).
Proof.
  intros d notice Hsu Hrole Hfind. unfold handle_request_decision.
  rewrite (require_role_allowed _ _ (mkUpdate tg_su _) _ su Hsu)
    by (rewrite Hrole; by apply list_elem_of_singleton).
  unfold handle_request_decision_body. cbn [content].
  rewrite (bind_ok _ _ _ _ _ (cached_db_user_set _ _)).
  set (w' := set_user_data (insert "db_user" (PUser su)) w).
  assert (lift_db (db.reject_request rid (User.username su)) w'
          = (Ok (Some (db.reviewed RequestStatus.REJECTED (User.username su) (clock d) r)),
             set_database
               (set_admin_requests
                  (map (fun x => if db.pending_with_id rid x
                                 then db.reviewed RequestStatus.REJECTED (User.username su)
                                                  (clock d) x
                                 else x))) w')) as Hrej.
  { unfold lift_db, db.reject_request. cbn [database w' set_user_data]. fold d.
    by rewrite Hfind. }
  rewrite (bind_ok _ _ _ _ _ Hrej).
  cbn [db.reviewed AdminRequest.request_type AdminRequest.username
       AdminRequest.telegram_id AdminRequest.id].
  unfold bind, ret, reply, modify. cbn [fst snd]. subst notice.
  destruct (AdminRequest.telegram_id r) as [tid|].
  - destruct (negb (tid =? 0)).
    + unfold try_except, send_message, logger, modify.
      cbn [map fst undelivered].
      change (delivery w' ) with (delivery w).
      match goal with |- context [delivery ?a ?n tid] =>
        change (delivery a n tid) with (delivery w (length (sent w)) tid)
      end.
      destruct (delivery w (length (sent w)) tid).
      * eexists. split; [reflexivity|]. cbn. repeat split; try done.
        by rewrite app_nil_r.
      * eexists. split; [reflexivity|]. by cbn.
    + eexists. split; [reflexivity|]. cbn. repeat split; try done;
        by rewrite app_nil_r.
  - eexists. split; [reflexivity|]. cbn. repeat split; try done;
      by rewrite app_nil_r.
Qed.

(** Root rejects Bob's broadcast: nothing is sent but the notice to Bob,
    and the request is rejected.  The notice is the second delivery of the
    day, the one that fails, so it is logged. *)
Lemma rejection_only_marks_witness :
  let w := set_sent (fun _ => [(7, Welcome "Ann")]) (sample.world sample.db0) in
  let w3 := snd (@handle_request_decision ascii_text.builtins
                   (mkUpdate sample.tg_root (CallbackQuery (cb_sa false 1))) w) in
  map AdminRequest.status (admin_requests (database w3)) = [RequestStatus.REJECTED]
  /\ sent w3 = [(7, Welcome "Ann"); (2, DecisionNotice 1 "broadcast" false)]
  /\ log w3 = [LogException "Failed to notify requester %s" [PInt 2]].
Proof.
  intros w w3.
  destruct (@rejection_only_marks ascii_text.builtins w sample.tg_root sample.root 1
              sample.bc_request ltac:(by vm_compute) eq_refl ltac:(by vm_compute))
    as (w3' & Hrun & Hdb & _ & Hsent & Hlog).
  assert (w3 = w3') as Hw3 by exact (f_equal snd Hrun).
  rewrite Hw3, Hdb, Hsent, Hlog. clear. by vm_compute.
Defined.

(** ** The broadcast conversation, end to end *)

(** X16.  The broadcast conversation.  A super-admin who sends
    /broadcast, then a text, then confirms has had the stripped text tried
    once for every stored user, in the order of the table, whichever
    deliveries fail; the report counts the deliveries that got through,
    the conversation is over and the database is untouched.  The same
    three updates from a stored user who is not a super-admin send
    nothing: the command is refused and the rest finds no conversation. *)
Theorem broadcast_walk `{Builtins} (w : World) (tg : TgUser) (u : User.t)
    (command raw : string) :
  let d := database w in
  let updates :=
    [mkUpdate tg (Command "broadcast" command); mkUpdate tg (TextMessage raw);
     mkUpdate tg (CallbackQuery (cb_bc_confirm true))] in
  let R := map User.telegram_id (users d) in
  let total := Z.of_nat (length R) in
  find (fun v => bool_decide (User.telegram_id v = tg_id tg)) (users d) = Some u ->
  (User.role u = UserRole.SUPER_ADMIN ->
     exists w',
       feed bc_conv None updates w = (None, w')
       /\ sent w' = sent w ++ map (fun tid => (tid, Body (PStr (str_strip raw)))) R
       /\ last (replies w') =
            Some (BroadcastReport
                    (total - Z.of_nat (failures (delivery w) (length (sent w)) R)) total)
       /\ database w' = d)
  /\ (User.role u <> UserRole.SUPER_ADMIN ->
      feed bc_conv None updates w = (None, set_replies (fun l => l ++ [NoAccess]) w)).
Proof.
  intros d updates R total Hu. subst updates. split.
  - intros Hrole.
    assert (handle_update bc_conv None (mkUpdate tg (Command "broadcast" command)) w
            = (Ok (Some BC_TEXT),
               set_replies (fun l => l ++ [BcAskText])
                 (set_user_data (insert "db_user" (PUser u)) w))) as Hstart.
    { unfold handle_update. cbn [bc_conv entry_points find fst snd content CommandHandler
        String.eqb Ascii.eqb Bool.eqb].
      unfold broadcast_start. unfold bind at 1.
      rewrite (require_role_allowed _ _ (mkUpdate tg _) _ u Hu)
        by (rewrite Hrole; by apply list_elem_of_singleton).
      reflexivity. }
    rewrite (feed_step _ _ _ _ _ _ _ Hstart).
    erewrite feed_step.
    2: { unfold handle_update. cbn. unfold broadcast_text. eff. lookups. reflexivity. }
    erewrite feed_step.
    2: { unfold handle_update.
         cbn [bc_conv states state_handlers fallbacks find fst snd content app
              CallbackQueryHandler CommandHandler MessageHandler Z.eqb BC_TEXT BC_CONFIRM
              Pos.eqb].
         unfold broadcast_confirm. cbn [content negb]. eff.
         rewrite broadcast_loop_spec. cbn. lookups. reflexivity. }
    cbn [feed]. eexists. split; [reflexivity|].
    cbn [sent replies database set_replies set_sent set_database set_user_data].
    split; [done|]. split; [|done]. by rewrite last_snoc.
  - intros Hrole.
    assert (handle_update bc_conv None (mkUpdate tg (Command "broadcast" command)) w
            = (Ok None, set_replies (fun l => l ++ [NoAccess]) w)) as Hstart.
    { unfold handle_update. cbn [bc_conv entry_points find fst snd content CommandHandler
        String.eqb Ascii.eqb Bool.eqb].
      unfold broadcast_start. unfold bind at 1.
      rewrite (require_role_refused _ _ (mkUpdate tg _) _ u Hu)
        by (by intros ?%list_elem_of_singleton).
      reflexivity. }
    rewrite (feed_step _ _ _ _ _ _ _ Hstart). reflexivity.
Qed.

(** Root broadcasts; the second of the three deliveries fails. *)
Lemma broadcast_walk_witness :
  let w := sample.world sample.db0 in
  let updates :=
    [mkUpdate sample.tg_root (Command "broadcast" "/broadcast");
     mkUpdate sample.tg_root (TextMessage " Service at ten ");
     mkUpdate sample.tg_root (CallbackQuery (cb_bc_confirm true))] in
  let w' := snd (feed (@bc_conv ascii_text.builtins) None updates w) in
  sent w' = [(1, Body (PStr "Service at ten")); (2, Body (PStr "Service at ten"));
             (7, Body (PStr "Service at ten"))]
  /\ last (replies w') = Some (BroadcastReport 2 3).
Proof.
  intros w updates w'.
  pose proof (@broadcast_walk ascii_text.builtins w sample.tg_root sample.root
                "/broadcast" " Service at ten " ltac:(by vm_compute)) as Hall.
  cbv zeta in Hall. destruct Hall as [Hsuper _].
  destruct (Hsuper eq_refl) as (w1 & Hfeed & Hsent & Hlast & _).
  assert (w' = w1) as Hw by exact (f_equal snd Hfeed).
  rewrite Hw, Hsent, Hlast. clear. by vm_compute.
Defined.

(** ** Table access *)

(** X17.  Granting and listing table access.  For a handle that some
    user carries, [grant_table_access] returns, and afterwards
    [get_admin_tables] lists the table for that handle; granting the same
    table again adds no row; the tables listed for every other handle are
    what they were.  For a handle nobody carries, a grant that is not
    already there fails on the foreign key and stores nothing. *)
Theorem grant_then_listed (d : DB) (username table_name : string) :
  let grant := db.grant_table_access username table_name in
  let listed (name : string) (d0 : DB) : list string :=
    match fst (db.get_admin_tables name d0) with Ok l => l | Raise _ => [] end in
  Forall (fun a => TableAccess.id a < admin_table_access_id_seq d) (admin_table_access d) ->
  (db.fk_username (users d) (Some username) = true ->
     fst (grant d) = Ok tt
     /\ table_name ∈ listed username (snd (grant d))
     /\ admin_table_access (snd (grant (snd (grant d)))) = admin_table_access (snd (grant d))
     /\ forall other, other <> username ->
          listed other (snd (grant d)) = listed other d)
  /\ (db.fk_username (users d) (Some username) = false ->
      table_name ∉ listed username d ->
      fst (grant d) = Raise (ForeignKeyViolationError "admin_table_access_username_fkey")
      /\ admin_table_access (snd (grant d)) = admin_table_access d).
Proof.
  intros grant listed Hfresh.
  set (hit := fun a : TableAccess.t =>
                bool_decide (TableAccess.username a = username)
                && bool_decide (TableAccess.table_name a = table_name)).
  set (row := TableAccess.mk (admin_table_access_id_seq d) username table_name (clock d)).
  assert (grant d =
            if existsb hit (admin_table_access d)
            then (Ok tt, set_admin_table_access_id_seq (fun n => n + 1) d)
            else if negb (db.fk_username (users d) (Some username))
            then (Raise (ForeignKeyViolationError "admin_table_access_username_fkey"),
                  set_admin_table_access_id_seq (fun n => n + 1) d)
            else (Ok tt, set_admin_table_access (fun l => l ++ [row])
                           (set_admin_table_access_id_seq (fun n => n + 1) d))) as Hgrant.
  { subst grant. unfold db.grant_table_access, bind, db.nextval_admin_table_access.
    cbn [admin_table_access users clock set_admin_table_access_id_seq].
    fold hit. destruct (existsb hit _); [done|].
    rewrite (existsb_fresh TableAccess.id) by (by apply Forall_forall). done. }
  assert (forall d0, existsb hit (admin_table_access d0) = true ->
                     admin_table_access (snd (grant d0)) = admin_table_access d0) as Hagain.
  { intros d0 Hex. subst grant.
    unfold db.grant_table_access, bind, db.nextval_admin_table_access.
    cbn [admin_table_access users clock set_admin_table_access_id_seq snd].
    fold hit. by rewrite Hex. }
  assert (forall d0, existsb hit (admin_table_access d0) = true ->
                     table_name ∈ listed username d0) as Hlisted.
  { intros d0 (a & Ha & Hhit)%existsb_true_elem. subst listed. cbn.
    apply andb_prop in Hhit as [Hn Ht].
    apply bool_decide_eq_true in Hn. apply bool_decide_eq_true in Ht.
    apply elem_of_map. exists a. split; [done|]. by apply list_elem_of_filter. }
  split.
  - intros Hfk. rewrite Hgrant, Hfk. cbn [negb].
    destruct (existsb hit (admin_table_access d)) eqn:Hex; cbn [fst snd].
    + split; [done|]. split; [by apply Hlisted|]. split; [by apply Hagain|].
      by intros other Hother.
    + split; [done|].
      assert (existsb hit (admin_table_access
                (set_admin_table_access (fun l => l ++ [row])
                   (set_admin_table_access_id_seq (fun n => n + 1) d))) = true) as Hnow.
      { cbn. rewrite existsb_app. cbn. subst hit. cbn.
        rewrite !bool_decide_eq_true_2 by done. by rewrite orb_true_r. }
      split; [by apply Hlisted|]. split; [by apply Hagain|].
      intros other Hother. subst listed. cbn.
      rewrite filter_app, filter_cons, filter_nil.
      rewrite decide_False by (cbn; congruence). by rewrite app_nil_r.
  - intros Hfk Hnot. rewrite Hgrant, Hfk. cbn [negb].
    destruct (existsb hit (admin_table_access d)) eqn:Hex; [|done].
    exfalso. by apply Hnot, Hlisted.
Qed.

(** Bob is granted the events table, twice. *)
Lemma grant_then_listed_witness :
  let d1 := snd (db.grant_table_access "bob" "events" sample.db0) in
  let d2 := snd (db.grant_table_access "bob" "events" d1) in
  fst (db.get_admin_tables "bob" d2) = Ok ["events"].
Proof.
  intros d1 d2.
  pose proof (grant_then_listed sample.db0 "bob" "events" ltac:(by constructor)) as Hall.
  cbv zeta in Hall. destruct Hall as [Hknown _].
  destruct (Hknown ltac:(by vm_compute)) as (_ & _ & Hsame & _).
  unfold db.get_admin_tables, gets. cbn [fst]. subst d2 d1. rewrite Hsame.
  by vm_compute.
Defined.

(** ** The text command conversation, end to end *)

Lemma text_cmd_parse_eq `{Builtins} `{Claude} (w : World) (tg : TgUser) (u : User.t)
    (raw : string) (result : list (string * PyVal)) :
  let tables :=
    match nonempty (User.username u) with
    | Some n => map TableAccess.table_name
                    (filter (fun a => TableAccess.username a = n)
                            (admin_table_access (database w)))
    | None => []
    end in
  user_data w !! "db_user" = Some (PUser u) ->
  parse_admin_command (str_strip raw) (User.username u) tables = PDict result ->
  text_cmd_parse (mkUpdate tg (TextMessage raw)) w =
    (Ok (Some WAIT_CONFIRM),
     set_replies (fun l => l ++ [AiConfirmPrompt (dict_lookup result "confirmation")])
       (set_user_data (insert "ai_cmd_result" (PDict result)) w)).
Proof.
  intros tables Hu Hparse. unfold text_cmd_parse, cached_db_user. eff. rewrite Hu. cbn.
  subst tables.
  destruct (nonempty (User.username u)); rewrite ?set_database_same, Hparse; by cbn.
Qed.


(** X18.  The text command conversation.  An admin or super-admin opens
    it and sends a text.  The language model is asked about the stripped
    text, with the admin's stored handle and the tables granted to that
    handle; what it answers is kept and, on "yes", executed.  When the
    answer is a [create_event] command (its title, date and optional
    fields texts, its seats an integer within the 32 bits of the column,
    each present or left out) with a readable date, the conversation ends
    with exactly one event appended, pending, created by the admin, and
    with no request filed. *)
Theorem text_command_walk `{Builtins} `{Claude} (w : World) (tg : TgUser) (u : User.t)
    (raw : string) (result params : list (string * PyVal))
    (title date_start time place description : option string) (seats : option Z)
    (dt : date) :
  let d := database w in
  let updates :=
    [mkUpdate tg (CallbackQuery cb_adm_text_cmd); mkUpdate tg (TextMessage raw);
     mkUpdate tg (CallbackQuery (cb_ai_confirm true))] in
  let tables :=
    match nonempty (User.username u) with
    | Some n => map TableAccess.table_name
                    (filter (fun a => TableAccess.username a = n) (admin_table_access d))
    | None => []
    end in
  find (fun v => bool_decide (User.telegram_id v = tg_id tg)) (users d) = Some u ->
  User.role u ∈ [UserRole.ADMIN; UserRole.SUPER_ADMIN] ->
  Forall (fun e => Event.id e < events_id_seq d) (events d) ->
  parse_admin_command (str_strip raw) (User.username u) tables = PDict result ->
  dict_lookup result "action" = Some (PStr "create_event") ->
  dict_lookup result "params" = Some (PDict params) ->
  dict_lookup params "title" = PStr <$> title ->
  dict_lookup params "date_start" = PStr <$> date_start ->
  dict_lookup params "time" = PStr <$> time ->
  dict_lookup params "place" = PStr <$> place ->
  dict_lookup params "description" = PStr <$> description ->
  dict_lookup params "max_participants" = PInt <$> seats ->
  (if match date_start with Some s => negb (String.eqb s "") | None => false end
   then date_start ≫= date_fromisoformat else Some (today w)) = Some dt ->
  int32 (default 0 seats) = true ->
  exists w',
    feed ai_conv None updates w = (None, w')
    /\ events (database w') =
         events d ++ [Event.mk (events_id_seq d) (default "Без названия" title) None dt
                        None time place description (default 0 seats)
                        EventStatus.PENDING (User.username u) (clock d)]
    /\ admin_requests (database w') = admin_requests d.
Proof.
  intros d updates tables Hu Hrole Hfresh Hparse Haction Hparams Htitle Hdate Htime Hplace
         Hdesc Hseats Hdt Hfits. subst updates.
  pose proof (find_some_elem _ _ _ Hu) as [Hin _].
  destruct (fk_of_user u _ Hin) as [Hfk _].
  assert (handle_update ai_conv None (mkUpdate tg (CallbackQuery cb_adm_text_cmd)) w
          = (Ok (Some WAIT_TEXT_CMD),
             set_replies (fun l => l ++ [AiAskCommand])
               (set_user_data (insert "db_user" (PUser u)) w))) as Hstart.
  { unfold handle_update.
    cbn [ai_conv entry_points find fst snd content CallbackQueryHandler].
    unfold text_cmd_start. unfold bind at 1.
    by rewrite (require_role_allowed _ _ (mkUpdate tg _) _ u Hu Hrole). }
  rewrite (feed_step _ _ _ _ _ _ _ Hstart).
  set (w1 := set_replies (fun l => l ++ [AiAskCommand])
               (set_user_data (insert "db_user" (PUser u)) w)).
  set (w2 := set_replies
               (fun l => l ++ [AiConfirmPrompt (dict_lookup result "confirmation")])
               (set_user_data (insert "ai_cmd_result" (PDict result)) w1)).
  assert (handle_update ai_conv (Some WAIT_TEXT_CMD) (mkUpdate tg (TextMessage raw)) w1
          = (Ok (Some WAIT_CONFIRM), w2)) as Hparsed.
  { unfold handle_update. cbn [ai_conv states state_handlers fallbacks find fst snd
      content app MessageHandler Z.eqb WAIT_TEXT_CMD WAIT_CONFIRM].
    by rewrite (bind_ok _ _ _ _ _
                  (text_cmd_parse_eq w1 tg u raw result
                     ltac:(apply lookup_insert_eq) Hparse)). }
  rewrite (feed_step _ _ _ _ _ _ _ Hparsed).
  pose proof (text_cmd_create_eq w2 tg u result params title date_start time place
                description seats) as Hyes.
  cbv zeta in Hyes.
  change (database w2) with d in Hyes. change (today w2) with (today w) in Hyes.
  rewrite Hdt, Hfits in Hyes. fold d in Hfk. rewrite Hfk in Hyes. cbn [negb] in Hyes.
  specialize (Hyes ltac:(cbn; rewrite lookup_insert_ne by done; apply lookup_insert_eq)
                   Hfresh ltac:(apply lookup_insert_eq) Haction Hparams Htitle Hdate
                   Htime Hplace Hdesc Hseats).
  erewrite feed_step.
  2: { unfold handle_update. cbn [ai_conv states state_handlers fallbacks find fst snd
         content app MessageHandler CallbackQueryHandler CommandHandler Z.eqb
         WAIT_TEXT_CMD WAIT_CONFIRM Pos.eqb].
       by rewrite (bind_ok _ _ _ _ _ Hyes). }
  cbn [feed]. eexists. split; [reflexivity|]. by cbn.
Qed.

(** Bob, an admin, has the choir rehearsal created by text: it is dated
    today, it is pending, and no request is filed for it. *)
Lemma text_command_walk_witness :
  let w := sample.world sample.db0 in
  let updates :=
    [mkUpdate sample.tg_bob (CallbackQuery cb_adm_text_cmd);
     mkUpdate sample.tg_bob (TextMessage "choir at six");
     mkUpdate sample.tg_bob (CallbackQuery (cb_ai_confirm true))] in
  let w' := snd (feed (@ai_conv ascii_text.builtins choir_claude) None updates w) in
  map (fun e => (Event.title e, Event.date_start e, Event.status e, Event.created_by e))
      (events (database w'))
  = [("Picnic", Date 2025 1 15, EventStatus.ACTIVE, Some "root");
     ("Choir", Date 2025 1 1, EventStatus.PENDING, Some "bob")]
  /\ length (admin_requests (database w')) = 1%nat.
Proof.
  intros w updates w'.
  destruct (@text_command_walk ascii_text.builtins choir_claude w sample.tg_bob sample.bob
              "choir at six" choir_command
              [("title", PStr "Choir"); ("time", PStr "18:00")]
              (Some "Choir") None (Some "18:00") None None None (Date 2025 1 1)
              ltac:(by vm_compute) ltac:(apply elem_of_cons; by left)
              ltac:(repeat constructor; by vm_compute) eq_refl
              eq_refl eq_refl eq_refl eq_refl eq_refl eq_refl eq_refl eq_refl eq_refl
              eq_refl)
    as (w1 & Hfeed & Hevents & Hrequests).
  assert (w' = w1) as Hw by exact (f_equal snd Hfeed).
  rewrite Hw, Hevents, Hrequests. clear. by vm_compute.
Defined.

(** ** A changed handle *)

(** X19.  A user who comes back under another handle.  When a stored
    user sends /start with a new handle that nobody else holds, the row
    takes the new handle, and what refers to users by handle with a
    cascade follows: the events the user created and the tables granted
    to the user are now under the new handle, and nothing is left under
    the old one.  What merely records a handle does not follow: the
    requests and the registrations filed under the old handle keep it. *)
Theorem handle_change_cascades (d : DB) (u : User.t) (o n full_name : string)
    (phone : option string) :
  let tid := User.telegram_id u in
  let d1 := snd (db.upsert_user tid (Some n) full_name phone d) in
  let listed (name : string) (d0 : DB) : list string :=
    map TableAccess.table_name
        (filter (fun a => TableAccess.username a = name) (admin_table_access d0)) in
  find (fun v => bool_decide (User.telegram_id v = tid)) (users d) = Some u ->
  User.username u = Some o ->
  o <> n ->
  db.username_taken (users d) tid (Some n) = false ->
  listed n d = [] ->
  fst (db.upsert_user tid (Some n) full_name phone d)
    = Ok (User.mk tid (Some n) full_name (User.phone u) (User.role u) (User.created_at u))
  /\ (forall e, e ∈ events d1 -> Event.created_by e <> Some o)
  /\ map Event.id (filter (fun e => Event.created_by e = Some n) (events d1))
     = map Event.id (filter (fun e => Event.created_by e = Some o
                                       \/ Event.created_by e = Some n) (events d))
  /\ listed n d1 = listed o d
  /\ listed o d1 = []
  /\ admin_requests d1 = admin_requests d
  /\ event_registrations d1 = event_registrations d.
Proof.
  intros tid d1 listed Hu Ho Hne Hfree Hnone.
  pose proof (upsert_known d u (Some n) full_name phone Hu) as Hup.
  cbv zeta in Hup. cbn [db.upsert_user_set User.username db.coalesce] in Hup.
  fold tid in Hup. rewrite Hfree, Ho in Hup.
  unfold db.cascade_username in Hup. rewrite bool_decide_eq_false_2 in Hup by done.
  subst d1. rewrite Hup. cbn [fst snd]. split; [done|].
  cbn [events admin_table_access admin_requests event_registrations
       set_admin_table_access set_events set_users].
  split; [|split; [|split; [|split; [|done]]]].
  - intros e (e0 & -> & He0)%elem_of_map. case_match eqn:Hhit; cbn; [congruence|].
    by apply bool_decide_eq_false in Hhit.
  - induction (events d) as [|e es IH]; [done|]. cbn [map].
    rewrite !filter_cons.
    destruct (bool_decide (Event.created_by e = Some o)) eqn:Hhit.
    + apply bool_decide_eq_true in Hhit. cbn [Event.created_by].
      rewrite decide_True by done. rewrite decide_True by (by left). cbn. by rewrite IH.
    + apply bool_decide_eq_false in Hhit.
      destruct (decide (Event.created_by e = Some n)) as [Hn|Hn].
      * rewrite decide_True by (by right). cbn. by rewrite IH.
      * rewrite decide_False by (by intros [?|?]). done.
  - subst listed. cbn in Hnone |- *.
    induction (admin_table_access d) as [|a l IH]; [done|]. cbn [map].
    rewrite filter_cons in Hnone. rewrite !filter_cons.
    destruct (decide (TableAccess.username a = n)) as [Hn|Hn]; [done|].
    destruct (bool_decide (TableAccess.username a = o)) eqn:Hhit.
    + apply bool_decide_eq_true in Hhit. cbn [TableAccess.username].
      rewrite decide_True by done. rewrite decide_True by done. cbn. by rewrite IH.
    + apply bool_decide_eq_false in Hhit.
      rewrite decide_False by done. rewrite decide_False by done. by apply IH.
  - subst listed. cbn.
    induction (admin_table_access d) as [|a l IH]; [done|]. cbn [map].
    rewrite filter_cons.
    destruct (bool_decide (TableAccess.username a = o)) eqn:Hhit.
    + cbn [TableAccess.username]. by rewrite decide_False by done.
    + apply bool_decide_eq_false in Hhit. by rewrite decide_False by done.
Qed.

(** Bob comes back as "robert": the school he created is under the new
    handle; his broadcast request still names "bob". *)
Lemma handle_change_cascades_witness :
  let d1 := snd (db.upsert_user 2 (Some "robert") "Bob" None sample.db_events) in
  map Event.id (filter (fun e => Event.created_by e = Some "robert") (events d1)) = [2]
  /\ map AdminRequest.username (admin_requests d1) = ["bob"; "bob"; "bob"; "bob"].
Proof.
  intros d1.
  pose proof (handle_change_cascades sample.db_events sample.bob "bob" "robert" "Bob" None
                ltac:(by vm_compute) eq_refl ltac:(done) ltac:(by vm_compute) eq_refl)
    as Hall.
  cbv zeta in Hall. destruct Hall as (_ & _ & Hids & _ & _ & Hreq & _).
  change (User.telegram_id sample.bob) with 2 in Hids, Hreq.
  subst d1. rewrite Hids, Hreq. clear. by vm_compute.
Defined.

(** ** An answer of the language model that is no object *)

(** X20.  [parse_admin_command] hands on whatever JSON value the model
    wrote.  When that value is not an object (a list, a number, a text),
    the parse step stores it, then fails on reading the confirmation:
    the handler raises, the admin gets no reply, and the conversation
    keeps waiting for a text.  Nothing is written to the database. *)
Theorem text_command_not_an_object `{Builtins} `{Claude} (w : World) (tg : TgUser)
    (u : User.t) (raw : string) :
  let tables :=
    match nonempty (User.username u) with
    | Some n => map TableAccess.table_name
                    (filter (fun a => TableAccess.username a = n)
                            (admin_table_access (database w)))
    | None => []
    end in
  let result := parse_admin_command (str_strip raw) (User.username u) tables in
  let w' := set_user_data (insert "ai_cmd_result" result) w in
  user_data w !! "db_user" = Some (PUser u) ->
  (forall items, result <> PDict items) ->
  text_cmd_parse (mkUpdate tg (TextMessage raw)) w = (Raise AttributeError, w')
  /\ feed ai_conv (Some WAIT_TEXT_CMD) [mkUpdate tg (TextMessage raw)] w
     = (Some WAIT_TEXT_CMD, w').
Proof.
  intros tables result w' Hu Hnot.
  assert (text_cmd_parse (mkUpdate tg (TextMessage raw)) w = (Raise AttributeError, w'))
    as Hraise.
  { unfold text_cmd_parse, cached_db_user. eff. rewrite Hu. cbn.
    subst w' result tables.
    destruct (nonempty (User.username u)); rewrite ?set_database_same.
    all: match goal with
         | |- context [dict_get ?r _] => destruct r eqn:Hr; try done
         end.
    all: by edestruct Hnot. }
  split; [done|]. cbn [feed]. unfold handle_update.
  cbn [ai_conv states state_handlers fallbacks find fst snd content app MessageHandler
       Z.eqb WAIT_TEXT_CMD WAIT_CONFIRM].
  by rewrite (bind_raise _ _ _ _ _ Hraise).
Qed.

(** The model answers with a list: Bob's text is met with silence. *)
Lemma text_command_not_an_object_witness :
  let w := set_user_data (insert "db_user" (PUser sample.bob)) (sample.world sample.db0) in
  let after := feed (@ai_conv ascii_text.builtins list_claude) (Some WAIT_TEXT_CMD)
                 [mkUpdate sample.tg_bob (TextMessage "choir at six")] w in
  fst after = Some WAIT_TEXT_CMD /\ replies (snd after) = [].
Proof.
  intros w after.
  pose proof (@text_command_not_an_object ascii_text.builtins list_claude w sample.tg_bob
                sample.bob "choir at six" ltac:(by vm_compute) ltac:(done)) as Hall.
  cbv zeta in Hall. destruct Hall as [_ Hfeed].
  subst after. rewrite Hfeed. clear. by vm_compute.
Defined.

(** ** What every handler keeps

    A relation between the database before and after is kept by a handler
    when it is kept by each statement the handler runs: the handlers reach
    the database through [lift_db] only. *)

Section Keeps.
Context `{Builtins} `{Claude} `{StrLower}.
Variable R : DB -> DB -> Prop.
Hypothesis R_refl : forall d, R d d.
Hypothesis R_trans : forall d1 d2 d3, R d1 d2 -> R d2 d3 -> R d1 d3.
Hypothesis R_stmt : forall s d, plain_stmt s = true -> R d (exec s d).

Lemma keeps_pure {A} (m : Eff World A) :
  (forall w, database (snd (m w)) = database w) -> keeps R m.
Proof. intros Hm w. rewrite Hm. apply R_refl. Qed.

Lemma keeps_bind {A B} (m : Eff World A) (k : A -> Eff World B) :
  keeps R m -> (forall a, keeps R (k a)) -> keeps R (bind m k).
Proof.
  intros Hm Hk w. unfold bind. specialize (Hm w).
  destruct (m w) as [[a|e] w']; cbn in *; [|done].
  eapply R_trans; [exact Hm|apply Hk].
Qed.

Lemma keeps_try {A} (m : Eff World A) (h : Exn -> Eff World A) :
  keeps R m -> (forall e, keeps R (h e)) -> keeps R (try_except m h).
Proof.
  intros Hm Hh w. unfold try_except. specialize (Hm w).
  destruct (m w) as [[a|e] w']; cbn in *; [done|].
  eapply R_trans; [exact Hm|apply Hh].
Qed.

Lemma keeps_lift_db {A} (m : Eff DB A) :
  (forall d, R d (snd (m d))) -> keeps R (lift_db m).
Proof.
  intros Hm w. unfold lift_db. specialize (Hm (database w)).
  by destruct (m (database w)) as [r d].
Qed.

Lemma keeps_read {A} (f : DB -> A) : keeps R (lift_db (gets f)).
Proof. apply keeps_lift_db. intros d. apply R_refl. Qed.

Lemma keeps_ret {A} (a : A) : keeps R (ret a).
Proof. by apply keeps_pure. Qed.
Lemma keeps_raise {A} (e : Exn) : keeps R (@raise World A e).
Proof. by apply keeps_pure. Qed.
Lemma keeps_gets {A} (f : World -> A) : keeps R (gets f).
Proof. by apply keeps_pure. Qed.
Lemma keeps_reply (t : Text) : keeps R (reply t).
Proof. by apply keeps_pure. Qed.
Lemma keeps_logger (r : LogRecord) : keeps R (logger r).
Proof. by apply keeps_pure. Qed.
Lemma keeps_user_data_set (k : string) (v : PyVal) : keeps R (user_data_set k v).
Proof. by apply keeps_pure. Qed.
Lemma keeps_user_data_get (k : string) : keeps R (user_data_get k).
Proof. by apply keeps_pure. Qed.
Lemma keeps_user_data_item (k : string) : keeps R (user_data_item k).
Proof. apply keeps_pure. intros w. unfold user_data_item. by destruct (_ !! _). Qed.
Lemma keeps_send_message (chat_id : Z) (t : Text) : keeps R (send_message chat_id t).
Proof. apply keeps_pure. intros w. unfold send_message. by destruct (delivery _ _ _). Qed.
Lemma keeps_message_text (update : Update) : keeps R (message_text update).
Proof. apply keeps_pure. intros w. unfold message_text. by destruct (content update). Qed.
Lemma keeps_sql_int (v : PyVal) : keeps R (sql_int v).
Proof.
  apply keeps_pure. intros w. destruct v; try done. cbn. by destruct (int32 z).
Qed.
Lemma keeps_sql_id (v : PyVal) : keeps R (sql_id v).
Proof. apply keeps_pure. intros w. by destruct v. Qed.
Lemma keeps_sql_text (v : PyVal) : keeps R (sql_text v).
Proof. apply keeps_pure. intros w. by destruct v. Qed.
Lemma keeps_sql_text_opt (v : option PyVal) : keeps R (sql_text_opt v).
Proof. apply keeps_pure. intros w. unfold sql_text_opt. by destruct v as [[]|]. Qed.
Lemma keeps_sql_date (v : PyVal) : keeps R (sql_date v).
Proof. apply keeps_pure. intros w. by destruct v. Qed.
Lemma keeps_dict_get (v : PyVal) (k : string) : keeps R (dict_get v k).
Proof. apply keeps_pure. intros w. by destruct v. Qed.
Lemma keeps_py_int (v : PyVal) : keeps R (py_int v).
Proof.
  apply keeps_pure. intros w. destruct v; try done. cbn. by destruct (int_of_str _).
Qed.
Lemma keeps_cached_db_user : keeps R cached_db_user.
Proof.
  apply keeps_pure. intros w. unfold cached_db_user. eff.
  destruct (_ !! _) as [[]|]; try done. all: by case_match.
Qed.

Lemma keeps_notify (sa_ids : list Z) (t : Text) : keeps R (notify_super_admins sa_ids t).
Proof.
  apply keeps_pure. intros w.
  destruct (notify_super_admins_ok sa_ids t w) as (w' & Hrun & Hdb & _).
  by rewrite Hrun.
Qed.

Lemma keeps_broadcast_loop (message : Text) (ids : list Z) (acc : Z) :
  keeps R (broadcast_loop message ids acc).
Proof. apply keeps_pure. intros w. by rewrite broadcast_loop_spec. Qed.

Ltac stmt_of_goal :=
  lazymatch goal with
  | |- _ _ (snd (db.upsert_user ?a ?b ?c ?e _)) => constr:(stmt_upsert_user a b c e)
  | |- _ _ (snd (db.set_user_role ?a ?b _)) => constr:(stmt_set_user_role a b)
  | |- _ _ (snd (db.create_event ?a ?b ?c ?e ?f ?g ?h ?i ?j ?k _)) =>
      constr:(stmt_create_event a b c e f g h i j k)
  | |- _ _ (snd (db.update_event ?a ?b _)) => constr:(stmt_update_event a b)
  | |- _ _ (snd (db.delete_event ?a _)) => constr:(stmt_delete_event a)
  | |- _ _ (snd (db.register_for_event ?a ?b ?c ?e ?f ?g ?h _)) =>
      constr:(stmt_register_for_event a b c e f g h)
  | |- _ _ (snd (db.create_info ?a ?b ?c _)) => constr:(stmt_create_info a b c)
  | |- _ _ (snd (db.update_info ?a ?b _)) => constr:(stmt_update_info a b)
  | |- _ _ (snd (db.delete_info ?a _)) => constr:(stmt_delete_info a)
  | |- _ _ (snd (db.create_admin_request ?a ?b ?c ?e ?f ?g ?h ?i _)) =>
      constr:(stmt_create_admin_request a b c e f g h i)
  | |- _ _ (snd (db.approve_request ?a ?b _)) => constr:(stmt_approve_request a b)
  | |- _ _ (snd (db.reject_request ?a ?b _)) => constr:(stmt_reject_request a b)
  | |- _ _ (snd (db.grant_table_access ?a ?b _)) => constr:(stmt_grant_table_access a b)
  end.

Ltac keeps_stmt :=
  apply keeps_lift_db; intros ?; unfold db.activate_event, db.archive_event;
  let s := stmt_of_goal in
  first
    [ match goal with
      | Hs : forall s d, plain_stmt s = true -> _ d (exec s d) |- _ => exact (Hs s _ eq_refl)
      end
    | match goal with
      | Hr : forall u r d, _ d (exec (stmt_set_user_role u r) d) |- _ => exact (Hr _ _ _)
      end ].

Ltac keeps_go :=
  repeat (intros; cbv zeta;
    match goal with
    | |- keeps _ (ret _) => apply keeps_ret
    | |- keeps _ (raise _) => apply keeps_raise
    | |- keeps _ (gets _) => apply keeps_gets
    | |- keeps _ (reply _) => apply keeps_reply
    | |- keeps _ (logger _) => apply keeps_logger
    | |- keeps _ (user_data_set _ _) => apply keeps_user_data_set
    | |- keeps _ (user_data_get _) => apply keeps_user_data_get
    | |- keeps _ (user_data_item _) => apply keeps_user_data_item
    | |- keeps _ (send_message _ _) => apply keeps_send_message
    | |- keeps _ (message_text _) => apply keeps_message_text
    | |- keeps _ (sql_int _) => apply keeps_sql_int
    | |- keeps _ (sql_id _) => apply keeps_sql_id
    | |- keeps _ (sql_text _) => apply keeps_sql_text
    | |- keeps _ (sql_text_opt _) => apply keeps_sql_text_opt
    | |- keeps _ (sql_date _) => apply keeps_sql_date
    | |- keeps _ (dict_get _ _) => apply keeps_dict_get
    | |- keeps _ (py_int _) => apply keeps_py_int
    | |- keeps _ cached_db_user => apply keeps_cached_db_user
    | |- keeps _ (notify_super_admins _ _) => apply keeps_notify
    | |- keeps _ (broadcast_loop _ _ _) => apply keeps_broadcast_loop
    | |- keeps _ (lift_db _) => first [by apply keeps_read | keeps_stmt]
    | |- keeps _ (bind _ _) => apply keeps_bind
    | |- keeps _ (try_except _ _) => apply keeps_try
    | |- keeps _ (match ?x with _ => _ end) => destruct x
    end).

Lemma keeps_require_role (allowed : list UserRole.t)
    (func : Update -> Eff World (option Z)) (update : Update) :
  (forall u, keeps R (func u)) -> keeps R (require_role allowed func update).
Proof. intros Hf. unfold require_role. keeps_go. intros. apply Hf. Qed.

(** *** The handlers of the conversations *)

Lemma keeps_registration (update : Update) :
  keeps R (reg_start update) /\ keeps R (ask_name update) /\ keeps R (ask_phone update)
  /\ keeps R (ask_level update) /\ keeps R (confirm update) /\ keeps R (cancel update).
Proof.
  unfold reg_start, ask_name, ask_phone, ask_level, confirm, cancel.
  repeat split; keeps_go.
Qed.

Lemma keeps_event (update : Update) :
  keeps R (evt_start update) /\ keeps R (evt_title update) /\ keeps R (evt_date update)
  /\ keeps R (evt_time update) /\ keeps R (evt_place update) /\ keeps R (evt_desc update)
  /\ keeps R (evt_max update) /\ keeps R (evt_confirm update)
  /\ keeps R (evt_cancel update).
Proof.
  unfold evt_start, evt_title, evt_date, evt_time, evt_place, evt_desc, evt_max,
    evt_confirm, evt_cancel.
  repeat split; try apply keeps_require_role; unfold evt_start_body; keeps_go.
Qed.

Lemma keeps_info (update : Update) :
  keeps R (info_start update) /\ keeps R (info_category update)
  /\ keeps R (info_title update) /\ keeps R (info_content update)
  /\ keeps R (info_confirm update) /\ keeps R (info_cancel update).
Proof.
  unfold info_start, info_category, info_title, info_content, info_confirm, info_cancel.
  repeat split; try apply keeps_require_role; unfold info_start_body; keeps_go.
Qed.

Lemma keeps_text_cmd (update : Update) :
  keeps R (text_cmd_start update) /\ keeps R (text_cmd_parse update)
  /\ keeps R (text_cmd_confirm update) /\ keeps R (text_cmd_cancel update).
Proof.
  unfold text_cmd_start, text_cmd_parse, text_cmd_confirm, text_cmd_cancel.
  repeat split; try apply keeps_require_role; unfold text_cmd_start_body; keeps_go.
Qed.

Lemma keeps_broadcast (update : Update) :
  keeps R (broadcast_start update) /\ keeps R (broadcast_text update)
  /\ keeps R (broadcast_confirm update) /\ keeps R (broadcast_cancel update).
Proof.
  unfold broadcast_start, broadcast_text, broadcast_confirm, broadcast_cancel.
  repeat split; try apply keeps_require_role; unfold broadcast_start_body; keeps_go.
Qed.

Lemma keeps_handle_update (c : ConversationHandler) (state : option Z) (update : Update) :
  (forall h : Handler,
     h ∈ entry_points c ++ concat (map snd (states c)) ++ fallbacks c ->
     keeps R (snd h update)) ->
  keeps R (handle_update c state update).
Proof.
  intros Hall. unfold handle_update.
  destruct (find _ _) as [h|] eqn:Hfind; [|by apply keeps_ret].
  apply keeps_bind; [|intros; apply keeps_ret]. apply Hall.
  apply find_some_elem in Hfind as [Hin _].
  destruct state as [s|].
  - apply elem_of_app. right. apply elem_of_app in Hin as [Hin|Hin].
    + apply elem_of_app. left. unfold state_handlers in Hin.
      destruct (find _ (states c)) as [kv|] eqn:Hkv; [|by apply elem_of_nil in Hin].
      apply find_some_elem in Hkv as [Hkv _].
      apply list_elem_of_In, in_concat. exists (snd kv). split.
      * apply in_map. by apply list_elem_of_In.
      * by apply list_elem_of_In.
    + apply elem_of_app. by right.
  - apply elem_of_app. by left.
Qed.

Lemma keeps_conversation (f : Flow) (state : option Z) (update : Update) :
  keeps R (handle_update (conversation f) state update).
Proof.
  apply keeps_handle_update. intros h Hh.
  destruct (keeps_registration update) as (? & ? & ? & ? & ? & ?).
  destruct (keeps_event update) as (? & ? & ? & ? & ? & ? & ? & ? & ?).
  destruct (keeps_info update) as (? & ? & ? & ? & ? & ?).
  destruct (keeps_text_cmd update) as (? & ? & ? & ?).
  destruct (keeps_broadcast update) as (? & ? & ? & ?).
  destruct f; cbn in Hh;
    repeat (apply elem_of_cons in Hh as [->|Hh]; [done|]); by apply elem_of_nil in Hh.
Qed.

(** *** The commands and buttons outside the conversations *)

Lemma keeps_cmd_start (update : Update) : keeps R (cmd_start update).
Proof. unfold cmd_start. keeps_go. Qed.

Lemma keeps_cmd_admin (update : Update) : keeps R (cmd_admin update).
Proof. unfold cmd_admin. apply keeps_require_role. unfold cmd_admin_body. keeps_go. Qed.

Lemma keeps_cmd_apply_admin (update : Update) : keeps R (cmd_apply_admin update).
Proof. unfold cmd_apply_admin. keeps_go. Qed.

Lemma keeps_admin_callback (data : PanelData) (update : Update) :
  keeps R (admin_callback data update).
Proof.
  unfold admin_callback. apply keeps_require_role.
  unfold admin_callback_body, _event_activate, _event_archive, _info_delete. keeps_go.
Qed.

(** The handlers that write a role keep what [set_user_role] keeps too. *)
Lemma keeps_decision (update : Update) :
  (forall u r d, R d (exec (stmt_set_user_role u r) d)) ->
  keeps R (handle_request_decision update).
Proof.
  intros Hrole. unfold handle_request_decision. apply keeps_require_role.
  unfold handle_request_decision_body, _apply_approval. keeps_go.
Qed.

Lemma keeps_cmd_set_role (args : list string) (update : Update) :
  (forall u r d, R d (exec (stmt_set_user_role u r) d)) ->
  keeps R (cmd_set_role args update).
Proof.
  intros Hrole. unfold cmd_set_role. apply keeps_require_role.
  unfold cmd_set_role_body. keeps_go.
Qed.

Lemma keeps_post_init (name : string) :
  (forall u r d, R d (exec (stmt_set_user_role u r) d)) ->
  keeps R (post_init name).
Proof. intros Hrole. unfold post_init. keeps_go. Qed.

End Keeps.

(** X21.  The keys hold through whatever the bot is sent.  In a database
    where no two rows of a table share a primary key and every sequence is
    ahead of the ids of its table, this is still so after any sequence of
    updates, routed to any of the handlers, by whomever and in whatever
    conversation state, whether the handlers return or raise; and after
    the start-up hook as well. *)
Theorem keys_through_handlers `{Builtins} `{Claude} `{StrLower}
    (l : list (Route * Update)) (name : string) (w : World) :
  fresh_ids (database w) -> primary_keys (database w) ->
  (fresh_ids (database (serve l w)) /\ primary_keys (database (serve l w)))
  /\ (fresh_ids (database (snd (post_init name w)))
      /\ primary_keys (database (snd (post_init name w)))).
Proof.
  set (R := fun d d' : DB =>
              fresh_ids d /\ primary_keys d -> fresh_ids d' /\ primary_keys d').
  assert (forall d, R d d) as R_refl by (by intros d; unfold R).
  assert (forall d1 d2 d3, R d1 d2 -> R d2 d3 -> R d1 d3) as R_trans.
  { intros d1 d2 d3 H12 H23. unfold R in *. intros Hd1. by apply H23, H12. }
  assert (forall s d, plain_stmt s = true -> R d (exec s d)) as R_stmt.
  { intros s d Hs. unfold R. intros [Hf Hk]. apply exec_keys; [|done|done].
    by destruct s. }
  assert (forall u r d, R d (exec (stmt_set_user_role u r) d)) as R_role.
  { intros u r d. unfold R. intros [Hf Hk]. by apply exec_keys. }
  assert (forall r update, keeps R (dispatch r update)) as Hroute.
  { intros [f state| | | |data| |args] update; cbn [dispatch].
    - by apply keeps_conversation.
    - by apply keeps_cmd_start.
    - by apply keeps_cmd_admin.
    - by apply keeps_cmd_apply_admin.
    - by apply keeps_admin_callback.
    - by apply keeps_decision.
    - by apply keeps_cmd_set_role. }
  intros Hf Hk. split.
  - revert w Hf Hk. induction l as [|[r update] rest IH]; intros w Hf Hk; [done|].
    cbn [serve]. destruct (Hroute r update w (conj Hf Hk)) as [Hf' Hk']. by apply IH.
  - assert (keeps R (post_init name)) as Hpost by (by apply keeps_post_init).
    by apply (Hpost w).
Qed.

(** Zed says hello, Ann applies, Root approves. *)
Lemma keys_through_handlers_witness :
  let l := [(route_start, mkUpdate (mkTgUser 99 (Some "zed") "Zed" "Zed")
                            (Command "start" "/start"));
            (route_apply_admin, mkUpdate sample.tg_ann (Command "apply_admin" "/apply_admin"));
            (route_decision, mkUpdate sample.tg_root (CallbackQuery (cb_sa true 2)))] in
  primary_keys
    (database (@serve ascii_text.builtins ascii_text.claude ascii_str_lower l
                 (sample.world sample.db0))).
Proof.
  intros l.
  apply (@keys_through_handlers ascii_text.builtins ascii_text.claude ascii_str_lower l ""
           (sample.world sample.db0)).
  - repeat split; repeat constructor; by vm_compute.
  - repeat split; by apply (bool_decide_unpack _); vm_compute.
Defined.


(** ** Who can change a role *)

Lemma roles_kept_refl (d : DB) : roles_kept d d.
Proof. exists []. cbn. by rewrite app_nil_r. Qed.

Lemma roles_kept_same (d d' : DB) : users d' = users d -> roles_kept d d'.
Proof. intros Hu. exists []. cbn. by rewrite app_nil_r, Hu. Qed.

Lemma roles_kept_trans (d1 d2 d3 : DB) :
  roles_kept d1 d2 -> roles_kept d2 d3 -> roles_kept d1 d3.
Proof.
  intros [n1 H1] [n2 H2]. exists (n1 ++ n2).
  by rewrite H2, H1, map_app, app_assoc.
Qed.

(** Every statement but [set_user_role] keeps the roles. *)
Lemma roles_kept_stmt (s : Stmt) (d : DB) : plain_stmt s = true -> roles_kept d (exec s d).
Proof.
  destruct s; cbn [plain_stmt exec]; intros Hs; try done.
  - unfold db.upsert_user.
    destruct (find _ (users d)) as [old|] eqn:Hfind.
    + destruct (db.username_taken _ _ _); [apply roles_kept_refl|].
      cbn [snd]. exists []. rewrite users_cascade. cbn. rewrite app_nil_r, map_map.
      apply map_ext. intros v. by case_match.
    + destruct (db.username_taken _ _ _); [apply roles_kept_refl|].
      cbn [snd]. eexists [_]. cbn. by rewrite map_app.
  - apply roles_kept_same. unfold db.create_event, bind, db.nextval_events. cbn.
    by repeat case_match.
  - apply roles_kept_same.
    by destruct (update_event_cases event_id fields d) as [->|[-> _]].
  - by apply roles_kept_same.
  - apply roles_kept_same. rewrite register_for_event_eq. cbv zeta. by repeat case_match.
  - apply roles_kept_same. unfold db.create_info, bind, db.nextval_info. cbn.
    by repeat case_match.
  - apply roles_kept_same.
    by destruct (update_info_cases info_id fields d) as [->|[-> _]].
  - by apply roles_kept_same.
  - apply roles_kept_same.
    unfold db.create_admin_request, bind, ret, raise, db.nextval_admin_requests.
    by repeat case_match; simplify_eq/=.
  - by apply roles_kept_same.
  - by apply roles_kept_same.
  - apply roles_kept_same. unfold db.grant_table_access, bind, db.nextval_admin_table_access.
    cbn. by repeat case_match.
Qed.

(** Under kept roles, who was no super-admin is none. *)
Lemma roles_kept_not_super (d d' : DB) (tid : Z) :
  roles_kept d d' ->
  (forall v, v ∈ users d -> User.telegram_id v = tid -> User.role v <> UserRole.SUPER_ADMIN) ->
  forall v, v ∈ users d' -> User.telegram_id v = tid -> User.role v <> UserRole.SUPER_ADMIN.
Proof.
  intros [new Hnew] Hold v Hv Htid.
  assert ((User.telegram_id v, User.role v)
            ∈ map (fun x => (User.telegram_id x, User.role x)) (users d')) as Hin.
  { apply elem_of_map. by exists v. }
  rewrite Hnew in Hin. apply elem_of_app in Hin as [Hin|Hin].
  - apply elem_of_map in Hin as (x & [= Hx1 Hx2] & Hx). rewrite Hx2.
    apply Hold; [done|]. by rewrite <- Hx1.
  - apply elem_of_map in Hin as (x & [= Hx1 Hx2] & Hx). by rewrite Hx2.
Qed.

(** One update. *)
Lemma roles_kept_dispatch `{Builtins} `{Claude} `{StrLower} (r : Route) (update : Update)
    (w : World) :
  (writes_roles r = true ->
   forall v, v ∈ users (database w) ->
             User.telegram_id v = tg_id (effective_user update) ->
             User.role v <> UserRole.SUPER_ADMIN) ->
  roles_kept (database w) (database (snd (dispatch r update w))).
Proof.
  intros Hactor.
  pose proof roles_kept_refl as R_refl. pose proof roles_kept_trans as R_trans.
  pose proof roles_kept_stmt as R_stmt.
  assert (forall allowed func,
            allowed = [UserRole.SUPER_ADMIN] ->
            (forall v, v ∈ users (database w) ->
                       User.telegram_id v = tg_id (effective_user update) ->
                       User.role v <> UserRole.SUPER_ADMIN) ->
            database (snd (require_role allowed func update w)) = database w) as Hguard.
  { intros allowed func -> Hnot.
    destruct (find (fun v => bool_decide (User.telegram_id v
                                           = tg_id (effective_user update)))
                   (users (database w))) as [u|] eqn:Hfind.
    - rewrite (require_role_refused _ _ _ _ u Hfind); [done|].
      intros Hrole%list_elem_of_singleton.
      apply find_some_elem in Hfind as [Hin Hid]. apply bool_decide_eq_true in Hid.
      by apply (Hnot u Hin Hid).
    - by rewrite (require_role_unknown _ _ _ _ Hfind). }
  destruct r as [f state| | | |data| |args]; cbn [dispatch writes_roles] in *.
  - by apply keeps_conversation.
  - by apply keeps_cmd_start.
  - by apply keeps_cmd_admin.
  - by apply keeps_cmd_apply_admin.
  - by apply keeps_admin_callback.
  - apply roles_kept_same. unfold handle_request_decision.
    by rewrite (Hguard _ _ eq_refl (Hactor eq_refl)).
  - apply roles_kept_same. unfold cmd_set_role.
    by rewrite (Hguard _ _ eq_refl (Hactor eq_refl)).
Qed.

(** X22.  Only a super-admin can change a role.  Take any sequence of
    updates, routed to any of the handlers in any conversation state, in
    which the updates that reach the decision buttons or /set_role come
    from actors who are not stored as super-admin at the outset.  After
    all of them, every stored user has the role of the outset, and who was
    added on the way is a plain user. *)
Theorem roles_only_by_super_admin `{Builtins} `{Claude} `{StrLower}
    (l : list (Route * Update)) (w : World) :
  (forall r update, (r, update) ∈ l -> writes_roles r = true ->
     forall v, v ∈ users (database w) ->
               User.telegram_id v = tg_id (effective_user update) ->
               User.role v <> UserRole.SUPER_ADMIN) ->
  roles_kept (database w) (database (serve l w)).
Proof.
  assert (forall w0, roles_kept (database w) (database w0) ->
            (forall r update, (r, update) ∈ l -> writes_roles r = true ->
               forall v, v ∈ users (database w) ->
                         User.telegram_id v = tg_id (effective_user update) ->
                         User.role v <> UserRole.SUPER_ADMIN) ->
            roles_kept (database w) (database (serve l w0))) as Hgen.
  { induction l as [|[r update] rest IH]; intros w0 Hkept Hactors; [done|].
    cbn [serve]. apply IH.
    - eapply roles_kept_trans; [exact Hkept|]. apply roles_kept_dispatch.
      intros Hr. apply (roles_kept_not_super (database w)); [done|].
      apply (Hactors r update); [by left|done].
    - intros r' update' Hin. apply Hactors. by right. }
  intros Hactors. apply Hgen; [apply roles_kept_refl|done].
Qed.

Lemma roles_only_by_super_admin_witness :
  let l := [(route_start, mkUpdate (mkTgUser 99 (Some "zed") "Zed" "Zed")
                            (Command "start" "/start"));
            (route_set_role ["@ann"; "super_admin"],
             mkUpdate sample.tg_ann (Command "set_role" "/set_role @ann super_admin"));
            (route_decision, mkUpdate sample.tg_bob (CallbackQuery (cb_sa true 1)))] in
  roles_kept sample.db0
    (database (@serve ascii_text.builtins ascii_text.claude ascii_str_lower l
                 (sample.world sample.db0))).
Proof.
  intros l.
  apply (@roles_only_by_super_admin ascii_text.builtins ascii_text.claude ascii_str_lower l
           (sample.world sample.db0)).
  intros r update Hin Hr v Hv Hid.
  unfold l in Hin. cbn [database sample.world sample.db0 sample.db_of users] in Hv.
  repeat (apply elem_of_cons in Hin as [Hin|Hin]); try (by apply elem_of_nil in Hin);
    injection Hin as -> ->; try discriminate Hr;
    repeat (apply elem_of_cons in Hv as [->|Hv]); try (by apply elem_of_nil in Hv);
    by vm_compute in Hid |- *.
Defined.
